(** * The DHCP client of the NTP clock and the bring-up sequence of its
    main loop: a shallow embedding of [dhcp_client.c] and of the ARP step of
    [main], with the properties of the lease state machine; then the other
    steps of the bring-up (lease, DNS lookup, NTP request), the seconds
    counters of the timer interrupt, and the helpers of the web pages
    ([get_netmask_length], [parse_mac], [base64_decode]).

    The AVR target has 8-bit [uint8_t], 16-bit [int] and [uint16_t], and
    32-bit [uint32_t]; every integer is a [Z] and each wrap-around is written
    where the C arithmetic has it. *)

From Stdlib Require Import ZArith List Bool Lia.
From stdpp Require Import base list.
Import ListNotations.
Local Open Scope Z_scope.

(** ** Machine integers *)

Definition wrap8 (z : Z) : Z := z mod 256.
Definition wrap16 (z : Z) : Z := z mod 65536.
Definition wrap32 (z : Z) : Z := z mod 4294967296.

(** Sum of two [uint16_t] (or of a [uint16_t] and a promoted smaller
    operand): unsigned 16-bit arithmetic. *)
Definition add16 (a b : Z) : Z := wrap16 (a + b).

(** The all-ones countdown and lease time: "infinity". *)
Definition INFINITE : Z := 4294967295.

(** ** The packet buffer

    [buf] in the C code always points at the one packet buffer of [main]
    ([BUFFER_SIZE+1] bytes).  It is a list of bytes here; a read yields a
    [uint8_t].  A write outside the array is undefined in C and leaves the
    list as it is. *)

Definition rd (b : list Z) (i : Z) : Z := wrap8 (nth (Z.to_nat i) b 0).

Definition poke (b : list Z) (i v : Z) : list Z := <[Z.to_nat i := v]> b.

(** [n] bytes starting at offset [i]. *)
Fixpoint rdn (b : list Z) (i : Z) (n : nat) : list Z :=
  match n with
  | O => []
  | S n' => rd b i :: rdn b (i + 1) n'
  end.

(** [memcpy(buf+off, src, length src)] *)
Fixpoint memcpy (b : list Z) (off : Z) (src : list Z) : list Z :=
  match src with
  | [] => b
  | x :: src' => memcpy (poke b off x) (off + 1) src'
  end.

(** [memset(buf+off, v, n)] *)
Definition memset (b : list Z) (off v : Z) (n : nat) : list Z :=
  memcpy b off (repeat v n).

(** ** What [net.h] and the UDP layer provide

    [net.h] (the offsets of the header fields in a frame) and
    [ip_arp_udp_tcp.c] ([send_udp_prepare], which stamps the link and
    transport headers) are collaborators of the client; the client is
    verified for any of them. *)

Class net_h := {
  ETH_SRC_MAC : Z;
  IP_SRC_P : Z;
  UDP_SRC_PORT_L_P : Z;
  UDP_DATA_P : Z;
  (* send_udp_prepare(buf, sport, dip, dport, dstmac) *)
  send_udp_prepare : list Z -> Z -> list Z -> Z -> list Z -> list Z;
  (* the source address of the IP header lies before the UDP payload *)
  ip_header_before_udp_data : 0 <= IP_SRC_P /\ IP_SRC_P + 4 <= UDP_DATA_P;
  (* the headers are written in place, into the same array *)
  send_udp_prepare_length : forall b sport dip dport dstmac,
    length (send_udp_prepare b sport dip dport dstmac) = length b
}.

(** ** The state of the client and of the hardware it drives

    The static variables of [dhcp_client.c], the packet buffer, and the
    ENC28J60: the link status it reports, whether it receives broadcast
    frames, and the frames handed to [send_udp_transmit] (the newest first,
    each with the length of its UDP payload). *)

Record machine := mk_machine {
  dhcp_yiaddr : list Z;            (* your (client) IP *)
  dhcp_opt_defaultgw : list Z;     (* default gw *)
  dhcp_opt_mask : list Z;          (* net mask *)
  dhcp_opt_server_id : list Z;     (* server ip *)
  dhcp_opt_dns : list Z;           (* domain name server *)
  dhcp_opt_message_type : Z;
  dhcp_tid : Z;
  dhcp_opt_leasetime : Z;
  dhcp_cnt_down : Z;
  dhcp_retry : Z;
  dhcp_state : Z;  (* 0 = init, 1 = selecting, 2 = requesting, 3 = bound, 4 = rebinding *)
  buf : list Z;
  link : bool;
  broadcast : bool;
  sent : list (list Z * Z)
}.

Definition with_dhcp_yiaddr (v : list Z) (m : machine) : machine :=
  mk_machine v (dhcp_opt_defaultgw m) (dhcp_opt_mask m) (dhcp_opt_server_id m) (dhcp_opt_dns m)
    (dhcp_opt_message_type m) (dhcp_tid m) (dhcp_opt_leasetime m) (dhcp_cnt_down m) (dhcp_retry m) (dhcp_state m)
    (buf m) (link m) (broadcast m) (sent m).

Definition with_dhcp_opt_defaultgw (v : list Z) (m : machine) : machine :=
  mk_machine (dhcp_yiaddr m) v (dhcp_opt_mask m) (dhcp_opt_server_id m) (dhcp_opt_dns m)
    (dhcp_opt_message_type m) (dhcp_tid m) (dhcp_opt_leasetime m) (dhcp_cnt_down m) (dhcp_retry m) (dhcp_state m)
    (buf m) (link m) (broadcast m) (sent m).

Definition with_dhcp_opt_mask (v : list Z) (m : machine) : machine :=
  mk_machine (dhcp_yiaddr m) (dhcp_opt_defaultgw m) v (dhcp_opt_server_id m) (dhcp_opt_dns m)
    (dhcp_opt_message_type m) (dhcp_tid m) (dhcp_opt_leasetime m) (dhcp_cnt_down m) (dhcp_retry m) (dhcp_state m)
    (buf m) (link m) (broadcast m) (sent m).

Definition with_dhcp_opt_server_id (v : list Z) (m : machine) : machine :=
  mk_machine (dhcp_yiaddr m) (dhcp_opt_defaultgw m) (dhcp_opt_mask m) v (dhcp_opt_dns m)
    (dhcp_opt_message_type m) (dhcp_tid m) (dhcp_opt_leasetime m) (dhcp_cnt_down m) (dhcp_retry m) (dhcp_state m)
    (buf m) (link m) (broadcast m) (sent m).

Definition with_dhcp_opt_dns (v : list Z) (m : machine) : machine :=
  mk_machine (dhcp_yiaddr m) (dhcp_opt_defaultgw m) (dhcp_opt_mask m) (dhcp_opt_server_id m) v
    (dhcp_opt_message_type m) (dhcp_tid m) (dhcp_opt_leasetime m) (dhcp_cnt_down m) (dhcp_retry m) (dhcp_state m)
    (buf m) (link m) (broadcast m) (sent m).

Definition with_dhcp_opt_message_type (v : Z) (m : machine) : machine :=
  mk_machine (dhcp_yiaddr m) (dhcp_opt_defaultgw m) (dhcp_opt_mask m) (dhcp_opt_server_id m) (dhcp_opt_dns m)
    v (dhcp_tid m) (dhcp_opt_leasetime m) (dhcp_cnt_down m) (dhcp_retry m) (dhcp_state m)
    (buf m) (link m) (broadcast m) (sent m).

Definition with_dhcp_tid (v : Z) (m : machine) : machine :=
  mk_machine (dhcp_yiaddr m) (dhcp_opt_defaultgw m) (dhcp_opt_mask m) (dhcp_opt_server_id m) (dhcp_opt_dns m)
    (dhcp_opt_message_type m) v (dhcp_opt_leasetime m) (dhcp_cnt_down m) (dhcp_retry m) (dhcp_state m)
    (buf m) (link m) (broadcast m) (sent m).

Definition with_dhcp_opt_leasetime (v : Z) (m : machine) : machine :=
  mk_machine (dhcp_yiaddr m) (dhcp_opt_defaultgw m) (dhcp_opt_mask m) (dhcp_opt_server_id m) (dhcp_opt_dns m)
    (dhcp_opt_message_type m) (dhcp_tid m) v (dhcp_cnt_down m) (dhcp_retry m) (dhcp_state m)
    (buf m) (link m) (broadcast m) (sent m).

Definition with_dhcp_cnt_down (v : Z) (m : machine) : machine :=
  mk_machine (dhcp_yiaddr m) (dhcp_opt_defaultgw m) (dhcp_opt_mask m) (dhcp_opt_server_id m) (dhcp_opt_dns m)
    (dhcp_opt_message_type m) (dhcp_tid m) (dhcp_opt_leasetime m) v (dhcp_retry m) (dhcp_state m)
    (buf m) (link m) (broadcast m) (sent m).

Definition with_dhcp_retry (v : Z) (m : machine) : machine :=
  mk_machine (dhcp_yiaddr m) (dhcp_opt_defaultgw m) (dhcp_opt_mask m) (dhcp_opt_server_id m) (dhcp_opt_dns m)
    (dhcp_opt_message_type m) (dhcp_tid m) (dhcp_opt_leasetime m) (dhcp_cnt_down m) v (dhcp_state m)
    (buf m) (link m) (broadcast m) (sent m).

Definition with_dhcp_state (v : Z) (m : machine) : machine :=
  mk_machine (dhcp_yiaddr m) (dhcp_opt_defaultgw m) (dhcp_opt_mask m) (dhcp_opt_server_id m) (dhcp_opt_dns m)
    (dhcp_opt_message_type m) (dhcp_tid m) (dhcp_opt_leasetime m) (dhcp_cnt_down m) (dhcp_retry m) v
    (buf m) (link m) (broadcast m) (sent m).

Definition with_buf (v : list Z) (m : machine) : machine :=
  mk_machine (dhcp_yiaddr m) (dhcp_opt_defaultgw m) (dhcp_opt_mask m) (dhcp_opt_server_id m) (dhcp_opt_dns m)
    (dhcp_opt_message_type m) (dhcp_tid m) (dhcp_opt_leasetime m) (dhcp_cnt_down m) (dhcp_retry m) (dhcp_state m)
    v (link m) (broadcast m) (sent m).

Definition with_broadcast (v : bool) (m : machine) : machine :=
  mk_machine (dhcp_yiaddr m) (dhcp_opt_defaultgw m) (dhcp_opt_mask m) (dhcp_opt_server_id m) (dhcp_opt_dns m)
    (dhcp_opt_message_type m) (dhcp_tid m) (dhcp_opt_leasetime m) (dhcp_cnt_down m) (dhcp_retry m) (dhcp_state m)
    (buf m) (link m) v (sent m).

Definition with_sent (v : list (list Z * Z)) (m : machine) : machine :=
  mk_machine (dhcp_yiaddr m) (dhcp_opt_defaultgw m) (dhcp_opt_mask m) (dhcp_opt_server_id m) (dhcp_opt_dns m)
    (dhcp_opt_message_type m) (dhcp_tid m) (dhcp_opt_leasetime m) (dhcp_cnt_down m) (dhcp_retry m) (dhcp_state m)
    (buf m) (link m) (broadcast m) v.

(** ** Constants of [dhcp_client.c] *)

Definition DHCP_OPTION_OFFSET : Z := 240.
Definition MAGIC_COOKIE_P : Z := 236.
Definition DHCP_SRV_SRC_PORT : Z := 67.
Definition DHCP_SRV_DST_PORT : Z := 68.
Definition DHCP_DISCOVER_V : Z := 1.
Definition DHCP_REQUEST_V : Z := 3.

(* 55, len, subnet mask option, router option, dns option, end of options, 0 *)
Definition param_req_lst_end_of_opt : list Z := [0x37; 0x3; 0x1; 0x3; 0x6; 0xff; 0x0].
Definition cookie : list Z := [0x63; 0x82; 0x53; 0x63].

(** The lease states, as [dhcp_state] numbers them. *)
Abbreviation INIT := 0 (only parsing).
Abbreviation SELECTING := 1 (only parsing).
Abbreviation REQUESTING := 2 (only parsing).
Abbreviation BOUND := 3 (only parsing).
Abbreviation REBINDING := 4 (only parsing).

(** ** The ENC28J60 driver, as far as the client uses it *)

Definition enc28j60linkup (m : machine) : bool := link m.
Definition enc28j60EnableBroadcast (m : machine) : machine := with_broadcast true m.
Definition enc28j60DisableBroadcast (m : machine) : machine := with_broadcast false m.

(** [send_udp_transmit(buf, datalen)]: the frame in the buffer goes out. *)
Definition send_udp_transmit (datalen : Z) (m : machine) : machine :=
  with_sent ((buf m, datalen) :: sent m) m.

(** ** Time keeping *)

Definition dhcp_tick (m : machine) : machine :=
  if negb (dhcp_cnt_down m =? INFINITE)
  then with_dhcp_cnt_down (wrap32 (dhcp_cnt_down m - 1)) m
  else m.

(** [n] seconds pass: the timer interrupt calls [dhcp_tick] [n] times. *)
Fixpoint elapse (n : nat) (m : machine) : machine :=
  match n with
  | O => m
  | S n' => elapse n' (dhcp_tick m)
  end.

Definition init_dhcp (initial_tid : Z) (m : machine) : machine :=
  with_dhcp_tid initial_tid (with_dhcp_state 0 m).

Definition is_dhcp_cnt_down_zero (m : machine) : bool := dhcp_cnt_down m =? 0.

(** set count down timer to specified divisor of lease time *)
Definition set_dhcp_renew_timer (divisor : Z) (m : machine) : machine :=
  let m := with_dhcp_cnt_down (dhcp_opt_leasetime m / divisor) m in
  if is_dhcp_cnt_down_zero m
  then with_dhcp_state 0 m    (* quotient is zero, reinitialize *)
  else m.

(** set count down timer to exponential back-off value *)
Definition set_dhcp_retry_timer (m : machine) : machine :=
  with_dhcp_cnt_down (dhcp_retry m) m.

Section Client.
Context `{net_h}.

(** ** Building messages *)

Definition allxff : list Z := [0xff; 0xff; 0xff; 0xff; 0xff; 0xff].

Definition make_dhcp_message_template (m : machine) : machine :=
  let b := send_udp_prepare (buf m) DHCP_SRV_DST_PORT allxff DHCP_SRV_SRC_PORT allxff in
  (* source IP is 0.0.0.0 *)
  let b := memset b IP_SRC_P 0 4 in
  let b := poke b UDP_DATA_P 1 in          (* message type = boot request *)
  let b := poke b (UDP_DATA_P + 1) 1 in    (* hw type *)
  let b := poke b (UDP_DATA_P + 2) 6 in    (* mac len *)
  let b := poke b (UDP_DATA_P + 3) 0 in    (* hops *)
  (* we use only one byte TIDs *)
  let b := fold_left (fun b i => poke b (UDP_DATA_P + i + 4) (dhcp_tid m)) [0; 1; 2; 3] b in
  let b := memset b (UDP_DATA_P + 8) 0 20 in
  (* own mac (send_udp_prepare did fill it at eth level) *)
  let b := memcpy b (UDP_DATA_P + 28) (rdn b ETH_SRC_MAC 6) in
  let b := memset b (UDP_DATA_P + 34) 0 202 in
  (* DHCP magic cookie *)
  let b := memcpy b (UDP_DATA_P + MAGIC_COOKIE_P) cookie in
  with_buf b m.

(** The three bytes of the message type option, at the start of the options. *)
Definition put_message_type (v : Z) (m : machine) : machine :=
  let b := poke (buf m) (UDP_DATA_P + DHCP_OPTION_OFFSET) 0x35 in
  let b := poke b (UDP_DATA_P + DHCP_OPTION_OFFSET + 1) 1 in
  let b := poke b (UDP_DATA_P + DHCP_OPTION_OFFSET + 2) v in
  with_buf b m.

Definition send_dhcp_discover (m : machine) : Z * machine :=
  let m := make_dhcp_message_template m in
  let m := put_message_type DHCP_DISCOVER_V m in
  (* option parameter request list *)
  let m := with_buf (memcpy (buf m) (UDP_DATA_P + DHCP_OPTION_OFFSET + 3)
                            param_req_lst_end_of_opt) m in
  let m := send_udp_transmit (DHCP_OPTION_OFFSET + 9) m in
  (0, m).

(** [make_dhcp_opt_ip(buf+off, opt, src)] *)
Definition make_dhcp_opt_ip (off opt : Z) (src : list Z) (m : machine) : Z * machine :=
  if negb (rd src 0 =? 0) then
    let b := poke (buf m) off opt in
    let b := poke b (off + 1) 4 in
    let b := memcpy b (off + 2) (rdn src 0 4) in
    (6, with_buf b m)
  else (0, m).

Definition send_dhcp_request (m : machine) : Z * machine :=
  let m := make_dhcp_message_template m in
  let m := put_message_type DHCP_REQUEST_V m in
  let i := 3 in
  (* 54=server identifier *)
  let '(n, m) := make_dhcp_opt_ip (UDP_DATA_P + DHCP_OPTION_OFFSET + i) 0x36
                   (dhcp_opt_server_id m) m in
  let i := wrap8 (i + n) in
  (* 50=requested IP address *)
  let '(n, m) := make_dhcp_opt_ip (UDP_DATA_P + DHCP_OPTION_OFFSET + i) 0x32
                   (dhcp_yiaddr m) m in
  let i := wrap8 (i + n) in
  let m := with_buf (memcpy (buf m) (UDP_DATA_P + DHCP_OPTION_OFFSET + i)
                            param_req_lst_end_of_opt) m in
  let m := send_udp_transmit (DHCP_OPTION_OFFSET + i + 6) m in
  (0, m).

Definition send_dhcp_renew_request (m : machine) : Z * machine :=
  let m := make_dhcp_message_template m in
  (* source IP must be my IP since we renew *)
  let m := with_buf (memcpy (buf m) IP_SRC_P (rdn (dhcp_yiaddr m) 0 4)) m in
  (* ciaddr *)
  let m := with_buf (memcpy (buf m) (UDP_DATA_P + 12) (rdn (dhcp_yiaddr m) 0 4)) m in
  let m := put_message_type DHCP_REQUEST_V m in
  (* no option parameter request list is needed at renew *)
  let m := send_udp_transmit (DHCP_OPTION_OFFSET + 3) m in
  (0, m).

(** ** Reading messages

    The two option walks are [while] loops over [option_idx]; each turn
    moves on by at least three bytes, so [plen] turns are enough for every
    packet the receive buffer can hold (see [get_message_type_loop_fuel] and
    [option_parser_loop_fuel]). *)

Fixpoint get_message_type_loop (fuel : nat) (b : list Z) (plen option_idx : Z) : Z :=
  match fuel with
  | O => 0
  | S fuel' =>
    if add16 option_idx 2 <? plen then
      let option_len := rd b (add16 option_idx 1) in
      if (option_len <? 1) || (wrap16 (option_idx + option_len + 1) >? plen) then 0
      else if rd b option_idx =? 53 then
        (* found message type, return it *)
        rd b (add16 option_idx 2)
      else get_message_type_loop fuel' b plen (wrap16 (option_idx + 2 + option_len))
    else 0
  end.

(** scan the options field for the message type field and return its value;
    0 on message type not found *)
Definition dhcp_get_message_type (plen : Z) (m : machine) : Z :=
  (* the smallest option is 3 bytes *)
  if plen <? UDP_DATA_P + DHCP_OPTION_OFFSET + 3 then 0
  else get_message_type_loop (Z.to_nat plen) (buf m) plen (UDP_DATA_P + DHCP_OPTION_OFFSET).

(** this will as well update dhcp_yiaddr *)
Definition is_dhcp_msg_for_me (plen : Z) (m : machine) : Z * machine :=
  if plen <? UDP_DATA_P + DHCP_OPTION_OFFSET + 3 then (0, m)
  else if negb (rd (buf m) UDP_SRC_PORT_L_P =? DHCP_SRV_SRC_PORT) then (0, m)
  else if negb (rd (buf m) UDP_DATA_P =? 2) then (0, m)  (* message type DHCP boot reply =2 *)
  (* verify TID *)
  else if negb (forallb (fun i => rd (buf m) (UDP_DATA_P + 4 + i) =? dhcp_tid m) [0; 1; 2; 3])
  then (0, m)
  else if negb (rd (buf m) (UDP_DATA_P + 16) =? 0)
  then (1, with_dhcp_yiaddr (rdn (buf m) (UDP_DATA_P + 16) 4) m)  (* we have a yiaddr *)
  else (1, m).

(** One turn of the [switch] in [dhcp_option_parser]: the option at
    [option_idx], of length [option_len]; the result is the new [option_idx]
    (moved to [plen] on a padding byte) and the variables after the case. *)
Definition option_case (b : list Z) (plen option_idx option_len : Z) (m : machine)
  : Z * machine :=
  match rd b option_idx with
  | 0 => (plen, m)   (* stop loop, we are reading some padding bytes here *)
  | 1 =>   (* subnet mask *)
    (option_idx,
     if option_len =? 4 then with_dhcp_opt_mask (rdn b (option_idx + 2) 4) m else m)
  | 3 =>   (* router *)
    (option_idx,
     if option_len =? 4 then with_dhcp_opt_defaultgw (rdn b (option_idx + 2) 4) m else m)
  | 6 =>   (* DNS *)
    (option_idx, with_dhcp_opt_dns (rdn b (option_idx + 2) 4) m)
  | 51 =>  (* lease time, big-endian *)
    (option_idx,
     if option_len =? 4 then
       with_dhcp_opt_leasetime
         (fold_left (fun lt i => Z.lor (wrap32 (Z.shiftl lt 8)) (rd b (wrap16 (option_idx + i + 2))))
                    [0; 1; 2; 3] (dhcp_opt_leasetime m)) m
     else m)
  | 53 =>  (* DHCP Msg Type *)
    (option_idx, with_dhcp_opt_message_type (rd b (add16 option_idx 2)) m)
  | 54 =>  (* server identifier *)
    (option_idx,
     if option_len =? 4 then with_dhcp_opt_server_id (rdn b (option_idx + 2) 4) m else m)
  | _ => (option_idx, m)
  end.

Fixpoint option_parser_loop (fuel : nat) (b : list Z) (plen option_idx : Z) (m : machine)
  : machine :=
  match fuel with
  | O => m
  | S fuel' =>
    if add16 option_idx 2 <? plen then
      let option_len := rd b (add16 option_idx 1) in
      if (option_len <? 1) || (wrap16 (option_idx + option_len + 1) >? plen) then m
      else
        let '(option_idx, m) := option_case b plen option_idx option_len m in
        option_parser_loop fuel' b plen (wrap16 (option_idx + 2 + option_len)) m
    else m
  end.

Definition dhcp_option_parser (plen : Z) (m : machine) : Z * machine :=
  (* the smallest option is 3 bytes *)
  if plen <? UDP_DATA_P + DHCP_OPTION_OFFSET + 3 then (0, m)
  else (1, option_parser_loop (Z.to_nat plen) (buf m) plen
             (UDP_DATA_P + DHCP_OPTION_OFFSET) m).

(** ** The two packet-driven entry points

    [plen = 0] is the poll without a packet. *)

(** The function returns 1 once we have a valid IP. *)
Definition packetloop_dhcp_initial_ip_assignment (plen : Z) (m : machine) : Z * machine :=
  if negb (enc28j60linkup m) then (0, m)    (* do nothing if the link is down *)
  else if dhcp_state m >? 2 then (0, m)     (* do nothing if we have an IP assigned *)
  else if plen =? 0 then
    if dhcp_state m =? 0 then
      (* first time the function is called *)
      let m := with_dhcp_state 1 m in
      let m := with_dhcp_retry 4 m in
      let m := set_dhcp_retry_timer m in
      let m := enc28j60EnableBroadcast m in
      let m := snd (send_dhcp_discover m) in
      (0, m)
    else if negb (dhcp_state m =? 0) && is_dhcp_cnt_down_zero m then
      (* selecting and requesting *)
      let m := with_dhcp_tid (wrap8 (dhcp_tid m + 1)) m in
      let m := with_dhcp_retry (wrap8 (Z.shiftl (dhcp_retry m) 1)) m in
      if dhcp_retry m >? 32 then
        (* give up after 60 seconds, reinitialize *)
        (0, with_dhcp_state 0 m)
      else
        let m := set_dhcp_retry_timer m in
        if dhcp_state m =? 1
        then (0, snd (send_dhcp_discover m))   (* selecting *)
        else (0, snd (send_dhcp_request m))    (* dhcp_state==2, requesting *)
    else (0, m)
  else
    (* plen > 0 *)
    let '(for_me, m) := is_dhcp_msg_for_me plen m in
    if negb (for_me =? 0) then
      let cmd := dhcp_get_message_type plen m in
      let m :=
        if cmd =? 2 then   (* DHCPOFFER =2 *)
          let m := with_dhcp_state 2 m in
          (* resend after 4 seconds *)
          let m := with_dhcp_retry 4 m in
          let m := set_dhcp_retry_timer m in
          (* parse offer *)
          let m := snd (dhcp_option_parser plen m) in
          (* answer offer with a request *)
          snd (send_dhcp_request m)
        else m in
      if cmd =? 5 then     (* DHCPACK =5 *)
        (* success, we have the IP *)
        let m := with_dhcp_state 3 m in
        let m := with_dhcp_retry 0 m in
        let m := set_dhcp_renew_timer 2 m in   (* renew after 50% of lease time *)
        let m := enc28j60DisableBroadcast m in
        (1, m)
      else if cmd =? 6 then   (* DHCPNAK =6 *)
        (0, with_dhcp_state 0 m)
      else (0, m)
    else (0, m).

(** returns plen of original packet if buf is not touched; returns 0 if plen
    was originally zero; returns 0 if DHCP message was processed. *)
Definition packetloop_dhcp_renewhandler (plen : Z) (m : machine) : Z * machine :=
  if dhcp_state m <? 3 then (plen, m)  (* do nothing if we don't have a valid IP assigned *)
  else if (plen =? 0) && is_dhcp_cnt_down_zero m then
    (* check count down timer *)
    if negb (enc28j60linkup m) then (plen, m)   (* do nothing if link is down *)
    else
      let m := with_dhcp_tid (wrap8 (dhcp_tid m + 1)) m in
      let m := with_dhcp_state 4 m in
      let m := enc28j60EnableBroadcast m in
      let m := snd (send_dhcp_renew_request m) in
      let m := set_dhcp_renew_timer 8 m in   (* repeat in 12.5% of lease time if no answer *)
      let m := with_dhcp_retry (wrap8 (dhcp_retry m + 1)) m in
      let m := if dhcp_retry m >? 3
               then with_dhcp_state 0 m   (* 100% of lease time passed, reinitialize *)
               else m in
      (0, m)
  else
    let '(for_me, m) := is_dhcp_msg_for_me plen m in
    if negb (for_me =? 0) then
      let cmd := dhcp_get_message_type plen m in
      let m :=
        if cmd =? 5 then   (* DHCPACK =5 *)
          (* success, we have the IP *)
          let m := with_dhcp_state 3 m in
          let m := with_dhcp_retry 0 m in
          let m := enc28j60DisableBroadcast m in
          let m := snd (dhcp_option_parser plen m) in   (* get new lease time amongst other *)
          set_dhcp_renew_timer 2 m   (* renew after 50% of lease time *)
        else m in
      let m := if cmd =? 6 then with_dhcp_state 0 m else m in   (* DHCPNAK =6 *)
      (0, m)
    else (plen, m).

(** call this to get the current IP; Rocq has no NULL outputs, the caller
    takes the components it wants *)
Definition dhcp_get_my_ip (m : machine) : list Z * list Z * list Z * list Z :=
  (dhcp_yiaddr m, dhcp_opt_mask m, dhcp_opt_defaultgw m, dhcp_opt_dns m).

(** Returns DHCP client state, with the server id and the lease time *)
Definition dhcp_get_info (m : machine) : Z * list Z * Z :=
  (dhcp_state m, dhcp_opt_server_id m, dhcp_opt_leasetime m).

(** ** Message acceptance *)

(** Some byte of the transaction identifier field of the packet in the
    buffer differs from the identifier the client has outstanding. *)
Definition tid_mismatch (m : machine) : Prop :=
  exists i, 0 <= i < 4 /\ rd (buf m) (UDP_DATA_P + 4 + i) <> dhcp_tid m.

(** The packet in the buffer, of length [plen], is a reply to the
    outstanding request: long enough, from the server port, a boot reply,
    and carrying the outstanding transaction identifier in all four bytes. *)
Definition correlated (plen : Z) (m : machine) : Prop :=
  UDP_DATA_P + DHCP_OPTION_OFFSET + 3 <= plen /\
  rd (buf m) UDP_SRC_PORT_L_P = DHCP_SRV_SRC_PORT /\
  rd (buf m) UDP_DATA_P = 2 /\
  (forall i, 0 <= i < 4 -> rd (buf m) (UDP_DATA_P + 4 + i) = dhcp_tid m).

(** The client's variables after the acceptance test took the packet: the
    address field of the packet is copied when its first byte is not 0. *)
Definition take_yiaddr (m : machine) : machine :=
  if rd (buf m) (UDP_DATA_P + 16) =? 0 then m
  else with_dhcp_yiaddr (rdn (buf m) (UDP_DATA_P + 16) 4) m.


(** ** Frames sent, and time passing *)

(** A frame handed to [send_udp_transmit] is a discovery for transaction
    [tid]: a boot request with [tid] in the four identifier bytes, whose
    options are the message type DHCPDISCOVER and the parameter request
    list. *)
Definition is_discover (tid : Z) (f : list Z * Z) : Prop :=
  snd f = DHCP_OPTION_OFFSET + 9 /\
  rd (fst f) UDP_DATA_P = 1 /\
  rdn (fst f) (UDP_DATA_P + 4) 4 = [tid; tid; tid; tid] /\
  rdn (fst f) (UDP_DATA_P + DHCP_OPTION_OFFSET) 3 = [0x35; 1; DHCP_DISCOVER_V] /\
  rdn (fst f) (UDP_DATA_P + DHCP_OPTION_OFFSET + 3) 7 = param_req_lst_end_of_opt.

(** A frame is a renewal request for transaction [tid] from the address
    [ip]: a boot request with [ip] as source address of the IP header and
    as client address, whose only option is the message type DHCPREQUEST. *)
Definition is_renew_request (tid : Z) (ip : list Z) (f : list Z * Z) : Prop :=
  snd f = DHCP_OPTION_OFFSET + 3 /\
  rd (fst f) UDP_DATA_P = 1 /\
  rdn (fst f) (UDP_DATA_P + 4) 4 = [tid; tid; tid; tid] /\
  rdn (fst f) IP_SRC_P 4 = ip /\
  rdn (fst f) (UDP_DATA_P + 12) 4 = ip /\
  rdn (fst f) (UDP_DATA_P + DHCP_OPTION_OFFSET) 3 = [0x35; 1; DHCP_REQUEST_V].

(** The timer interrupt runs the countdown down to 0. *)
Definition expire (m : machine) : machine :=
  elapse (Z.to_nat (dhcp_cnt_down m)) m.

(** The countdown of the initial assignment runs out with no reply, and
    the main loop polls. *)
Definition unanswered_timeout (m : machine) : machine :=
  snd (packetloop_dhcp_initial_ip_assignment 0 (expire m)).

(** The renewal countdown runs out with no reply, and the main loop polls. *)
Definition unanswered_renewal (m : machine) : machine :=
  snd (packetloop_dhcp_renewhandler 0 (expire m)).

(** The client in SELECTING after [N] unanswered expiries, seen from the
    machine [m] that was polled in INIT. *)
Definition backed_off (m : machine) (N : nat) (s : machine) : Prop :=
  enc28j60linkup s = true /\
  dhcp_state s = SELECTING /\
  dhcp_retry s = 4 * 2 ^ Z.of_nat N /\
  dhcp_cnt_down s = dhcp_retry s /\
  dhcp_tid s = wrap8 (dhcp_tid m + Z.of_nat N) /\
  length (buf s) = length (buf m) /\
  length (sent s) = (length (sent m) + N + 1)%nat /\
  exists f rest, sent s = f :: rest /\ is_discover (dhcp_tid s) f.

(** What the option parser does not write: everything but the options it
    stores (mask, gateway, name server, lease time, message type, server
    identifier). *)
Definition beside_options (m : machine) :=
  (dhcp_yiaddr m, dhcp_tid m, dhcp_cnt_down m, dhcp_retry m, dhcp_state m,
   buf m, link m, broadcast m, sent m).

(** The client REBINDING after [k] unanswered expiries of the renewal
    countdown, seen from the machine [s] that entered BOUND. *)
Definition rebinding_after (s : machine) (k : nat) (r : machine) : Prop :=
  enc28j60linkup r = true /\
  dhcp_state r = REBINDING /\
  dhcp_retry r = Z.of_nat k /\
  dhcp_opt_leasetime r = dhcp_opt_leasetime s /\
  dhcp_yiaddr r = dhcp_yiaddr s /\
  dhcp_cnt_down r = dhcp_opt_leasetime s / 8 /\
  dhcp_tid r = wrap8 (dhcp_tid s + Z.of_nat k) /\
  broadcast r = true /\
  length (buf r) = length (buf s) /\
  length (sent r) = (length (sent s) + k)%nat /\
  exists f rest, sent r = f :: rest /\
                 is_renew_request (dhcp_tid r) (rdn (dhcp_yiaddr s) 0 4) f.

(** The lease is lost, or held with [k <= 3] renewals unanswered so far. *)
Definition lease_running (k : nat) (r : machine) : Prop :=
  enc28j60linkup r = true /\
  0 <= dhcp_opt_leasetime r < 4294967296 /\
  0 <= dhcp_cnt_down r < INFINITE /\
  (dhcp_state r = INIT \/
   (3 <= dhcp_state r /\ dhcp_retry r = Z.of_nat k /\ (k <= 3)%nat)).

(** ** Further definitions for the properties of the client *)

(** The ENC28J60 reports another link status. *)
Definition with_link (v : bool) (m : machine) : machine :=
  mk_machine (dhcp_yiaddr m) (dhcp_opt_defaultgw m) (dhcp_opt_mask m) (dhcp_opt_server_id m)
    (dhcp_opt_dns m) (dhcp_opt_message_type m) (dhcp_tid m) (dhcp_opt_leasetime m)
    (dhcp_cnt_down m) (dhcp_retry m) (dhcp_state m)
    (buf m) v (broadcast m) (sent m).


(** The options trailer of the request that [send_dhcp_request] builds:
    message type, then the server identifier and the requested address,
    each only when its first byte is not 0, then the parameter request
    list. *)
Definition request_options (m : machine) : list Z :=
  [0x35; 1; DHCP_REQUEST_V]
  ++ (if rd (dhcp_opt_server_id m) 0 =? 0 then []
      else 0x36 :: 4 :: rdn (dhcp_opt_server_id m) 0 4)
  ++ (if rd (dhcp_yiaddr m) 0 =? 0 then []
      else 0x32 :: 4 :: rdn (dhcp_yiaddr m) 0 4)
  ++ param_req_lst_end_of_opt.

(** The 32-bit number with the bytes [b0 b1 b2 b3], the first the most
    significant. *)
Definition be32 (b0 b1 b2 b3 : Z) : Z :=
  b0 * 16777216 + b1 * 65536 + b2 * 256 + b3.

(** From [m] to [m'] nothing was sent, or one frame was, and it carries
    the transaction identifier that is outstanding in [m']. *)
Definition at_most_one_frame (m m' : machine) : Prop :=
  sent m' = sent m \/
  exists b n, sent m' = (b, n) :: sent m /\
              rdn b (UDP_DATA_P + 4) 4 = repeat (dhcp_tid m') 4.
End Client.

(** ** The bring-up sequence of [main]: resolving the peers

    The variables of the main program that the ARP step reads and writes.
    [init_state]: 0=link up, 1=initial IP assignment, 2=resolve arps,
    3=dns lookup, 4=ready for ntp req, 5=running.  [arp_requests] lists the
    calls of [get_mac_with_arp] (address asked for and reference number),
    the newest first. *)

Definition TRANS_NUM_NTPMAC : Z := 1.
Definition TRANS_NUM_DNSMAC : Z := 2.

Record bringup := mk_bringup {
  init_state : Z;
  dns_state : Z;
  delay_sec : Z;
  have_ntp_mac : Z;
  have_dns_mac : Z;
  arp_retry_count : Z;
  ntproutingmac : list Z;
  dnsroutingmac : list Z;
  mydns : list Z;
  ntpip : list Z;
  gwip : list Z;
  arp_requests : list (list Z * Z)
}.

Definition with_init_state (v : Z) (o : bringup) : bringup :=
  mk_bringup v (dns_state o) (delay_sec o) (have_ntp_mac o) (have_dns_mac o) (arp_retry_count o)
    (ntproutingmac o) (dnsroutingmac o) (mydns o) (ntpip o) (gwip o) (arp_requests o).

Definition with_dns_state (v : Z) (o : bringup) : bringup :=
  mk_bringup (init_state o) v (delay_sec o) (have_ntp_mac o) (have_dns_mac o) (arp_retry_count o)
    (ntproutingmac o) (dnsroutingmac o) (mydns o) (ntpip o) (gwip o) (arp_requests o).

Definition with_delay_sec (v : Z) (o : bringup) : bringup :=
  mk_bringup (init_state o) (dns_state o) v (have_ntp_mac o) (have_dns_mac o) (arp_retry_count o)
    (ntproutingmac o) (dnsroutingmac o) (mydns o) (ntpip o) (gwip o) (arp_requests o).

Definition with_have_ntp_mac (v : Z) (o : bringup) : bringup :=
  mk_bringup (init_state o) (dns_state o) (delay_sec o) v (have_dns_mac o) (arp_retry_count o)
    (ntproutingmac o) (dnsroutingmac o) (mydns o) (ntpip o) (gwip o) (arp_requests o).

Definition with_have_dns_mac (v : Z) (o : bringup) : bringup :=
  mk_bringup (init_state o) (dns_state o) (delay_sec o) (have_ntp_mac o) v (arp_retry_count o)
    (ntproutingmac o) (dnsroutingmac o) (mydns o) (ntpip o) (gwip o) (arp_requests o).

Definition with_arp_retry_count (v : Z) (o : bringup) : bringup :=
  mk_bringup (init_state o) (dns_state o) (delay_sec o) (have_ntp_mac o) (have_dns_mac o) v
    (ntproutingmac o) (dnsroutingmac o) (mydns o) (ntpip o) (gwip o) (arp_requests o).

Definition with_ntproutingmac (v : list Z) (o : bringup) : bringup :=
  mk_bringup (init_state o) (dns_state o) (delay_sec o) (have_ntp_mac o) (have_dns_mac o) (arp_retry_count o)
    v (dnsroutingmac o) (mydns o) (ntpip o) (gwip o) (arp_requests o).

Definition with_dnsroutingmac (v : list Z) (o : bringup) : bringup :=
  mk_bringup (init_state o) (dns_state o) (delay_sec o) (have_ntp_mac o) (have_dns_mac o) (arp_retry_count o)
    (ntproutingmac o) v (mydns o) (ntpip o) (gwip o) (arp_requests o).

Definition with_mydns (v : list Z) (o : bringup) : bringup :=
  mk_bringup (init_state o) (dns_state o) (delay_sec o) (have_ntp_mac o) (have_dns_mac o) (arp_retry_count o)
    (ntproutingmac o) (dnsroutingmac o) v (ntpip o) (gwip o) (arp_requests o).

Definition with_gwip (v : list Z) (o : bringup) : bringup :=
  mk_bringup (init_state o) (dns_state o) (delay_sec o) (have_ntp_mac o) (have_dns_mac o) (arp_retry_count o)
    (ntproutingmac o) (dnsroutingmac o) (mydns o) (ntpip o) v (arp_requests o).

Definition with_arp_requests (v : list (list Z * Z)) (o : bringup) : bringup :=
  mk_bringup (init_state o) (dns_state o) (delay_sec o) (have_ntp_mac o) (have_dns_mac o) (arp_retry_count o)
    (ntproutingmac o) (dnsroutingmac o) (mydns o) (ntpip o) (gwip o) v.

(** What reaches the bring-up variables: the timer interrupt, the ARP layer
    calling the result callback, the link coming up (or a new configuration
    posted), the DHCP client reporting its lease to the main loop, and an
    idle pass of the main loop. *)
Inductive event :=
| Tick
| ArpResolved (ip : list Z) (reference_number : Z) (mac : list Z)
| Restart
| LeaseAcquired (dns gw : list Z)
| Idle.

Section Bringup.
(* route_via_gw(ip) of ip_arp_udp_tcp.c: is ip outside the local subnet? *)
Variable route_via_gw : list Z -> bool.

(** The part of [ISR(TIMER1_COMPA_vect)] that touches the bring-up. *)
Definition timer1_compa (o : bringup) : bringup :=
  if negb (delay_sec o =? 0) then with_delay_sec (wrap8 (delay_sec o - 1)) o else o.

(** gets called whenever an arp is resolved *)
Definition arpresolver_result_callback (ip : list Z) (reference_number : Z) (mac : list Z)
    (o : bringup) : bringup :=
  let o :=
    if reference_number =? TRANS_NUM_NTPMAC then
      (* copy mac address over *)
      let o := with_ntproutingmac (rdn mac 0 6) o in
      let o := with_delay_sec 0 o in
      with_have_ntp_mac 1 o
    else o in
  if reference_number =? TRANS_NUM_DNSMAC then
    let o := with_dnsroutingmac (rdn mac 0 6) o in
    let o := with_delay_sec 0 o in
    with_have_dns_mac 1 o
  else o.

(** [get_mac_with_arp(ip, reference_number, &arpresolver_result_callback)]:
    the request goes out; the answer comes with a later packet. *)
Definition get_mac_with_arp (ip : list Z) (reference_number : Z) (o : bringup) : bringup :=
  with_arp_requests ((ip, reference_number) :: arp_requests o) o.

(** starts arp process for dns and/or ntp mac if not yet resolved;
    returns 1 if arp sent, 0 otherwise *)
Definition arpresolver (o : bringup) : Z * bringup :=
  if have_dns_mac o =? 0 then
    (1, get_mac_with_arp (if route_via_gw (mydns o) then gwip o else mydns o)
          TRANS_NUM_DNSMAC o)
  else if have_ntp_mac o =? 0 then
    (1, get_mac_with_arp (if route_via_gw (ntpip o) then gwip o else ntpip o)
          TRANS_NUM_NTPMAC o)
  else (0, o).

(** [main], idle: request initial IP assignment *)
Definition main_request_ip (o : bringup) : bringup :=
  if (init_state o =? 0) && (delay_sec o =? 0) then
    let o := with_init_state 1 o in
    let o := with_have_ntp_mac 0 o in
    with_have_dns_mac 0 o
  else o.

(** [main], idle: resolve ARPs *)
Definition main_resolve_arps (o : bringup) : bringup :=
  if (init_state o =? 2) && (delay_sec o =? 0) then
    let o :=
      if (have_dns_mac o =? 0) || (have_ntp_mac o =? 0) then
        let '(r, o) := arpresolver o in
        if negb (r =? 0) then
          let o := with_delay_sec 2 o in   (* retry after 2 sec if no answer *)
          let o := with_arp_retry_count (wrap8 (arp_retry_count o + 1)) o in
          if arp_retry_count o =? 15 then
            (* reinitialize clock after multiple retries *)
            let o := with_arp_retry_count 0 o in
            let o := with_init_state 0 o in
            with_delay_sec 0 o
          else o
        else o
      else o in
    if negb (have_dns_mac o =? 0) && negb (have_ntp_mac o =? 0) then
      (* all ARPs resolved *)
      let o := with_init_state 3 o in
      let o := with_delay_sec 0 o in
      with_dns_state 0 o
    else o
  else o.

(** [main] on a lease: [init_state] 1 becomes 2 and the lease is recorded. *)
Definition main_have_ip (dns gw : list Z) (o : bringup) : bringup :=
  if init_state o =? 1 then
    let o := with_init_state 2 o in
    let o := with_gwip gw o in
    with_mydns dns o
  else o.

(** [main] on link up, or after a new configuration was posted. *)
Definition main_reinit (o : bringup) : bringup :=
  with_delay_sec 0 (with_init_state 0 o).

Definition step (e : event) (o : bringup) : bringup :=
  match e with
  | Tick => timer1_compa o
  | ArpResolved ip reference_number mac => arpresolver_result_callback ip reference_number mac o
  | Restart => main_reinit o
  | LeaseAcquired dns gw => main_have_ip dns gw o
  | Idle => main_resolve_arps (main_request_ip o)
  end.

Fixpoint run (evs : list event) (o : bringup) : bringup :=
  match evs with
  | [] => o
  | e :: evs' => run evs' (step e o)
  end.

End Bringup.

(** The ARP layer has called the result callback for [reference_number]
    somewhere in [evs]. *)
Definition resolved (reference_number : Z) (evs : list event) : Prop :=
  exists ip mac, In (ArpResolved ip reference_number mac) evs.

(** [init_state] 3 (DNS lookup) is only held with both MAC addresses. *)
Definition peers_known (o : bringup) : Prop :=
  init_state o = 3 -> have_dns_mac o <> 0 /\ have_ntp_mac o <> 0.

(** ** More of the main program

    The head of the main loop, where the packet just received goes through
    the two entry points of the DHCP client, and the idle block that starts
    the client. *)

Section Main.
Context `{net_h}.

(** [main], head of the loop: DHCP handling.  Returns what is left of
    [plen] for the rest of the loop. *)
Definition main_dhcp (plen : Z) (s : machine * bringup) : Z * (machine * bringup) :=
  let '(m, o) := s in
  (* Get the initial IP *)
  let '(m, o) :=
    if init_state o =? 1 then
      let '(r, m) := packetloop_dhcp_initial_ip_assignment plen m in
      if negb (r =? 0) then
        (* we have an IP *)
        let o := with_init_state 2 o in
        let '(_, _, gw, dns) := dhcp_get_my_ip m in
        let o := with_gwip (rdn gw 0 4) o in
        let o := with_mydns (rdn dns 0 4) o in
        (m, o)
      else (m, o)
    else (m, o) in
  (* DHCP renew IP *)
  let '(plen, m) := packetloop_dhcp_renewhandler plen m in
  (plen, (m, o)).

(** [main], idle: request initial IP assignment, now with the client. *)
Definition main_idle_request_ip (mymac5 : Z) (s : machine * bringup) : machine * bringup :=
  let '(m, o) := s in
  if (init_state o =? 0) && (delay_sec o =? 0) then
    let o := with_init_state 1 o in
    let o := with_have_ntp_mac 0 o in
    let o := with_have_dns_mac 0 o in
    (init_dhcp mymac5 m, o)
  else (m, o).

End Main.




(** *** The uptime counters of the timer interrupt *)

Record uptime := mk_uptime {
  uptime_sec : Z;
  uptime_min : Z;
  uptime_hour : Z;
  uptime_day : Z
}.

(** [ISR(TIMER1_COMPA_vect)], the uptime part: three [uint8_t] and a
    [uint16_t]. *)
Definition timer1_compa_uptime (u : uptime) : uptime :=
  let u := mk_uptime (wrap8 (uptime_sec u + 1)) (uptime_min u) (uptime_hour u) (uptime_day u) in
  let u :=
    if uptime_sec u >? 59 then
      mk_uptime 0 (wrap8 (uptime_min u + 1)) (uptime_hour u) (uptime_day u)
    else u in
  let u :=
    if uptime_min u >? 59 then
      mk_uptime (uptime_sec u) 0 (wrap8 (uptime_hour u + 1)) (uptime_day u)
    else u in
  if uptime_hour u >? 23 then
    mk_uptime (uptime_sec u) (uptime_min u) 0 (wrap16 (uptime_day u + 1))
  else u.

(** The counters as the info page prints them are a time of day. *)
Definition uptime_ok (u : uptime) : Prop :=
  0 <= uptime_sec u <= 59 /\ 0 <= uptime_min u <= 59 /\ 0 <= uptime_hour u <= 23 /\
  0 <= uptime_day u < 65536.

Definition uptime_seconds (u : uptime) : Z :=
  ((uptime_day u * 24 + uptime_hour u) * 60 + uptime_min u) * 60 + uptime_sec u.

(** *** The length of a netmask *)

(** The inner loop of [get_netmask_length], over the bits [j] of
    [mask[i]]; a clear bit ends both loops by setting [j=7; i=3]. *)
Fixpoint netmask_bits (fuel : nat) (mask : list Z) (i j l : Z) : Z * Z * Z :=
  match fuel with
  | O => (i, j, l)
  | S fuel' =>
      if j <? 8 then
        let '(i, j, l) :=
          if negb (Z.land (rd mask i) (Z.shiftl 1 j) =? 0) then (i, j, wrap8 (l + 1))
          else (3, 7, l) in
        netmask_bits fuel' mask i (wrap8 (j + 1)) l
      else (i, j, l)
  end.

(** The outer loop, over the bytes of the mask. *)
Fixpoint netmask_bytes (bits bytes : nat) (mask : list Z) (i l : Z) : Z * Z :=
  match bytes with
  | O => (i, l)
  | S bytes' =>
      if i <? 4 then
        let '(i, _, l) := netmask_bits bits mask i 0 l in
        netmask_bytes bits bytes' mask (wrap8 (i + 1)) l
      else (i, l)
  end.

(** returns netmask length *)
Definition get_netmask_length (mask : list Z) : Z :=
  snd (netmask_bytes 8 4 mask 0 0).

(** The number of set bits of [z] in a row from bit [j] upwards, [n] at
    most. *)
Fixpoint ones_from (n : nat) (z j : Z) : Z :=
  match n with
  | O => 0
  | S n' => if Z.testbit z j then 1 + ones_from n' z (j + 1) else 0
  end.

(** The four bytes of a mask as one number, the first byte the least
    significant. *)
Definition le32 (b0 b1 b2 b3 : Z) : Z :=
  b0 + 256 * (b1 + 256 * (b2 + 256 * b3)).

(** The netmask of a prefix of [p] bits, as the four bytes of the
    address. *)
Definition prefix_mask (p : nat) : list Z :=
  let w := 4294967296 - 2 ^ (32 - Z.of_nat p) in
  [w / 16777216 mod 256; w / 65536 mod 256; w / 256 mod 256; w mod 256].

(** *** Reading a MAC address from a form field *)

(** [isxdigit] and [toupper] of the C library, on character codes. *)
Definition isxdigit (c : Z) : bool :=
  ((48 <=? c) && (c <=? 57)) || ((65 <=? c) && (c <=? 70)) || ((97 <=? c) && (c <=? 102)).

Definition toupper (c : Z) : Z :=
  if (97 <=? c) && (c <=? 122) then c - 32 else c.

(** The value of a hexadecimal digit: the character in upper case, less 7
    when it is above the digit 9, less the digit 0. *)
Definition hex_value (ch : Z) : Z :=
  let c := wrap8 (toupper ch) in
  let c := if c >? 57 then wrap8 (c - 7) else c in
  wrap8 (c - 48).

(** The second loop of [parse_mac]: [str] is the character buffer, [p]
    the position of the pointer in it. *)
Fixpoint parse_mac_loop (fuel : nat) (str : list Z) (p : Z) (mac_byte_str : list Z) (i : Z)
    : list Z * Z :=
  match fuel with
  | O => (mac_byte_str, i)
  | S fuel' =>
      if negb (rd str p =? 0) && (i <? 6) then
        if isxdigit (rd str p) then
          let b := hex_value (rd str p) in
          let p := p + 1 in
          let b :=
            if isxdigit (rd str p) then Z.lor (wrap8 (Z.shiftl b 4)) (hex_value (rd str p))
            else b in
          let mac_byte_str := poke mac_byte_str i b in
          parse_mac_loop fuel' str (p + 1) mac_byte_str (wrap8 (i + 1))
        else parse_mac_loop fuel' str (p + 1) mac_byte_str i
      else (mac_byte_str, i)
  end.

(** parse a string that is a MAC address and extract the MAC to
    [mac_byte_str]; the result is that of the code, 0 with six bytes
    read *)
Definition parse_mac (fuel : nat) (mac_byte_str str : list Z) : Z * list Z :=
  let mac_byte_str := memset mac_byte_str 0 0 6 in
  let '(mac_byte_str, i) := parse_mac_loop fuel str 0 mac_byte_str 0 in
  (if i =? 6 then 0 else 1, mac_byte_str).

(** A hexadecimal digit for [v], in upper or lower case. *)
Definition hex_digit (upper : bool) (v : Z) : Z :=
  if v <? 10 then 48 + v else (if upper then 55 else 87) + v.

(** A byte as two hexadecimal digits and a separator. *)
Definition mac_group (upper : bool) (sep b : Z) : list Z :=
  [hex_digit upper (b / 16); hex_digit upper (b mod 16); sep].

(** Six bytes as groups of two digits, with separators between them,
    and the string's terminator. *)
Definition mac_text (upper : bool) (sep : Z) (mac : list Z) : list Z :=
  match mac with
  | [b0; b1; b2; b3; b4; b5] =>
      mac_group upper sep b0 ++ mac_group upper sep b1 ++ mac_group upper sep b2 ++
      mac_group upper sep b3 ++ mac_group upper sep b4 ++
      [hex_digit upper (b5 / 16); hex_digit upper (b5 mod 16); 0]
  | _ => [0]
  end.

(** *** Decoding the credentials of a request *)

(** One turn of the [for] loop of [base64_decode]: what [stream[i]] holds
    after the character [c], [old] being what it held before. *)
Definition base64_value (c old : Z) : Z :=
  if (65 <=? c) && (c <=? 90) then c - 65
  else if (97 <=? c) && (c <=? 122) then c - 97 + 26
  else if (48 <=? c) && (c <=? 57) then c - 48 + 52
  else if c =? 43 then 62
  else if c =? 47 then 63
  else if c =? 61 then 0
  else old.

(** [strlen(str) >= 4]: none of the next four characters is the
    terminator. *)
Definition strlen_ge_4 (b : list Z) (str : Z) : bool :=
  forallb (fun k => negb (rd b (str + k) =? 0)) [0; 1; 2; 3].

(** The [while] loop of [base64_decode]: [b] is the memory that holds
    the string, [str] and [out] the positions of the two pointers in it,
    [stream] the four values of the array. *)
Fixpoint base64_loop (fuel : nat) (b : list Z) (str out : Z) (stream : Z * Z * Z * Z)
    : list Z * Z :=
  match fuel with
  | O => (b, out)
  | S fuel' =>
      if strlen_ge_4 b str then
        let '(s0, s1, s2, s3) := stream in
        let s0 := base64_value (rd b str) s0 in
        let s1 := base64_value (rd b (str + 1)) s1 in
        let s2 := base64_value (rd b (str + 2)) s2 in
        let s3 := base64_value (rd b (str + 3)) s3 in
        let b := poke b out (Z.lor (Z.shiftl s0 2) (Z.shiftr s1 4)) in
        let b := poke b (out + 1) (Z.lor (Z.shiftl s1 4) (Z.shiftr s2 2)) in
        let b := poke b (out + 2) (Z.lor (Z.shiftl s2 6) (Z.shiftr s3 0)) in
        base64_loop fuel' b (str + 4) (out + 3) (s0, s1, s2, s3)
      else (b, out)
  end.

(** decodes a base64-encoded string, in place; [stream] is what the
    array happens to hold on entry *)
Definition base64_decode (fuel : nat) (stream : Z * Z * Z * Z) (b : list Z) (str : Z)
    : list Z :=
  let '(b, out) := base64_loop fuel b str str stream in
  poke b out 0.

(** The character for the six bits [v]. *)
Definition base64_char (v : Z) : Z :=
  if v <? 26 then 65 + v
  else if v <? 52 then 97 + (v - 26)
  else if v <? 62 then 48 + (v - 52)
  else if v =? 62 then 43 else 47.

(** The encoding that a browser sends: three bytes to four characters,
    with [=] to fill the last group. *)
Fixpoint base64_encode (data : list Z) : list Z :=
  match data with
  | [] => []
  | [x] => [base64_char (x / 4); base64_char (x mod 4 * 16); 61; 61]
  | [x; y] =>
      [base64_char (x / 4); base64_char (x mod 4 * 16 + y / 16);
       base64_char (y mod 16 * 4); 61]
  | x :: y :: z :: rest =>
      [base64_char (x / 4); base64_char (x mod 4 * 16 + y / 16);
       base64_char (y mod 16 * 4 + z / 64); base64_char (z mod 64)]
      ++ base64_encode rest
  end.

(** A character that [base64_decode] has no case for. *)
Definition outside_base64 (c : Z) : Prop :=
  0 < c < 256 /\ forall old, base64_value c old = old.

(** What the loop leaves of an encoded string: the bytes, then zeros
    where the last group was filled. *)
Definition decoded (data pre : list Z) (q : Z) (total : nat) (r : list Z * Z) : Prop :=
  length (fst r) = total /\
  (forall j, 0 <= j < q -> rd (fst r) j = rd pre j) /\
  (forall k, (k < length data)%nat -> rd (fst r) (q + Z.of_nat k) = nth k data 0) /\
  q + Z.of_nat (length data) <= snd r < Z.of_nat total /\
  (forall j, q + Z.of_nat (length data) <= j < snd r -> rd (fst r) j = 0).

(** *** The DNS lookup and the NTP request of the main loop

    The bring-up variables with the variables of the last two steps.
    [dns_queries] lists the calls of [dnslkup_request] (the MAC address
    each was sent to), [ntp_queries] those of [client_ntp_request] (the
    server, the low byte of the source port and the MAC address), the
    newest first. *)

Record timesync := mk_timesync {
  ts_main : bringup;
  dns_retry_count : Z;
  ntp_retry_count : Z;
  haveNTPanswer : Z;
  ntpclientportL : Z;
  dns_queries : list (list Z);
  ntp_queries : list (list Z * Z * list Z)
}.

Definition on_main (f : bringup -> bringup) (s : timesync) : timesync :=
  mk_timesync (f (ts_main s)) (dns_retry_count s) (ntp_retry_count s) (haveNTPanswer s)
    (ntpclientportL s) (dns_queries s) (ntp_queries s).

Definition with_ntpip (v : list Z) (o : bringup) : bringup :=
  mk_bringup (init_state o) (dns_state o) (delay_sec o) (have_ntp_mac o) (have_dns_mac o)
    (arp_retry_count o) (ntproutingmac o) (dnsroutingmac o) (mydns o) v (gwip o)
    (arp_requests o).

Definition with_dns_retry_count (v : Z) (s : timesync) : timesync :=
  mk_timesync (ts_main s) v (ntp_retry_count s) (haveNTPanswer s)
    (ntpclientportL s) (dns_queries s) (ntp_queries s).

Definition with_ntp_retry_count (v : Z) (s : timesync) : timesync :=
  mk_timesync (ts_main s) (dns_retry_count s) v (haveNTPanswer s)
    (ntpclientportL s) (dns_queries s) (ntp_queries s).

Definition with_haveNTPanswer (v : Z) (s : timesync) : timesync :=
  mk_timesync (ts_main s) (dns_retry_count s) (ntp_retry_count s) v
    (ntpclientportL s) (dns_queries s) (ntp_queries s).

Definition with_ntpclientportL (v : Z) (s : timesync) : timesync :=
  mk_timesync (ts_main s) (dns_retry_count s) (ntp_retry_count s) (haveNTPanswer s)
    v (dns_queries s) (ntp_queries s).

(** [dnslkup_request(buf,ntphostname,gwmac)] *)
Definition dnslkup_request (gwmac : list Z) (s : timesync) : timesync :=
  mk_timesync (ts_main s) (dns_retry_count s) (ntp_retry_count s) (haveNTPanswer s)
    (ntpclientportL s) (gwmac :: dns_queries s) (ntp_queries s).

(** [client_ntp_request(buf,ntpip,srcport,dstmac)] *)
Definition client_ntp_request (ip : list Z) (srcport : Z) (dstmac : list Z) (s : timesync)
    : timesync :=
  mk_timesync (ts_main s) (dns_retry_count s) (ntp_retry_count s) (haveNTPanswer s)
    (ntpclientportL s) (dns_queries s)
    ((ip, srcport, dstmac) :: ntp_queries s).

(** [main], idle: DNS lookup.  [dnslkup_haveanswer] is what the function
    of that name returns on this pass, [dnslkup_ip] the address that
    [dnslkup_get_ip] gives. *)
Definition main_dns_lookup (dnslkup_haveanswer : bool) (dnslkup_ip : list Z) (s : timesync)
    : timesync :=
  if init_state (ts_main s) =? 3 then
    let s :=
      if dns_state (ts_main s) =? 0 then
        let s := on_main (with_delay_sec 5) s in   (* retry after 5 sec if no answer *)
        let s := on_main (with_dns_state 1) s in
        dnslkup_request (ntproutingmac (ts_main s)) s
      else s in
    let s :=
      if (dns_state (ts_main s) =? 1) && dnslkup_haveanswer then
        (* dns-lookup succeeded *)
        let s := on_main (with_dns_state 2) s in
        let s := on_main (with_ntpip (rdn dnslkup_ip 0 4)) s in
        on_main (with_init_state 4) s
      else s in
    if negb (dns_state (ts_main s) =? 2) && (delay_sec (ts_main s) =? 0) then
      (* retry if dns-lookup failed *)
      let s := on_main (with_dns_state 0) s in
      let s := with_dns_retry_count (wrap8 (dns_retry_count s + 1)) s in
      if dns_retry_count s =? 6 then
        let s := with_dns_retry_count 0 s in
        (* reinitialize clock after multiple retries *)
        let s := on_main (with_init_state 0) s in
        on_main (with_delay_sec 0) s
      else s
    else s
  else s.

(** [main], idle: ready for initial NTP, and request NTP.  [link_status]
    is the variable of that name, as the idle pass has set it. *)
Definition main_ntp_request (mymac5 : Z) (link_status : bool) (s : timesync) : timesync :=
  let s :=
    if init_state (ts_main s) =? 4 then
      let s := with_ntpclientportL mymac5 s in
      let s := on_main (with_delay_sec 0) s in
      let s := with_haveNTPanswer 0 s in
      on_main (with_init_state 5) s
    else s in
  if init_state (ts_main s) =? 5 then
    if negb (haveNTPanswer s =? 1) && (delay_sec (ts_main s) =? 0) && link_status then
      if ntp_retry_count s <? 6 then
        let s := on_main (with_delay_sec 5) s in   (* retry after 5 sec if no answer *)
        let s := with_ntpclientportL (wrap8 (ntpclientportL s + 1)) s in   (* new src port *)
        let s := client_ntp_request (ntpip (ts_main s)) (ntpclientportL s)
                   (ntproutingmac (ts_main s)) s in
        with_ntp_retry_count (wrap8 (ntp_retry_count s + 1)) s
      else
        let s := with_ntp_retry_count 0 s in
        (* reinitialize clock after multiple retries *)
        let s := on_main (with_init_state 0) s in
        on_main (with_delay_sec 0) s
    else s
  else s.

(** The two steps one after the other, as an idle pass runs them. *)
Definition main_lookup_and_request (dnslkup_haveanswer : bool) (dnslkup_ip : list Z)
    (mymac5 : Z) (link_status : bool) (s : timesync) : timesync :=
  main_ntp_request mymac5 link_status (main_dns_lookup dnslkup_haveanswer dnslkup_ip s).

(** [n] timer interrupts. *)
Definition seconds (n : nat) (s : timesync) : timesync :=
  Nat.iter n (on_main timer1_compa) s.

(** One round of the DNS lookup without an answer: the pass that sends
    the query, five seconds, and the pass that notes the failure. *)
Definition unanswered_lookup (mymac5 : Z) (link_status : bool) (s : timesync) : timesync :=
  main_lookup_and_request false [] mymac5 link_status
    (seconds 5 (main_lookup_and_request false [] mymac5 link_status s)).

(** One round of the NTP request without an answer: the pass that sends
    the request, and five seconds. *)
Definition unanswered_request (mymac5 : Z) (s : timesync) : timesync :=
  seconds 5 (main_lookup_and_request false [] mymac5 true s).

(** The NTP requests of [k] rounds that started with the source port
    [port]: each from the next port, the newest first. *)
Definition ntp_retries (ip mac : list Z) (port : Z) (k : nat)
    : list (list Z * Z * list Z) :=
  map (fun j => (ip, wrap8 (port + Z.of_nat j), mac)) (rev (seq 1 k)).

(** ** A concrete stack and concrete packets

    The header offsets of the stack's [net.h] for an Ethernet frame with an
    IPv4 and a UDP header, and a [send_udp_prepare] that leaves the frame as
    it finds it (the examples look at the DHCP part only).  The main
    program's buffer has [BUFFER_SIZE+1 = 809] bytes. *)

Definition enc28j60_net_h : net_h :=
  {| ETH_SRC_MAC := 6;
     IP_SRC_P := 0x1a;
     UDP_SRC_PORT_L_P := 0x23;
     UDP_DATA_P := 0x2a;
     send_udp_prepare := fun b _ _ _ _ => b;
     ip_header_before_udp_data := conj (proj1 (Z.leb_le 0 0x1a) eq_refl) (proj1 (Z.leb_le (0x1a + 4) 0x2a) eq_refl);
     send_udp_prepare_length := fun b _ _ _ _ => eq_refl |}.

Section Examples.
#[local] Existing Instance enc28j60_net_h.

Definition BUFFER_SIZE : Z := 808.

(** The variables as the C initialisers leave them, link up. *)
Definition power_on : machine :=
  mk_machine [0; 0; 0; 0] [0; 0; 0; 0] [0; 0; 0; 0] [0; 0; 0; 0] [8; 8; 8; 8]
    0 0 INFINITE 0 0 0
    (repeat 0 809) true false [].

(** A reply of a server to transaction [tid], for the address [yiaddr],
    with the given options trailer. *)
Definition server_reply (tid : Z) (yiaddr options : list Z) : list Z :=
  let b := repeat 0 809 in
  let b := poke b UDP_SRC_PORT_L_P DHCP_SRV_SRC_PORT in
  let b := poke b UDP_DATA_P 2 in
  let b := memset b (UDP_DATA_P + 4) tid 4 in
  let b := memcpy b (UDP_DATA_P + 16) yiaddr in
  let b := memcpy b (UDP_DATA_P + MAGIC_COOKIE_P) cookie in
  memcpy b (UDP_DATA_P + DHCP_OPTION_OFFSET) options.

Definition reply_len (options : list Z) : Z :=
  UDP_DATA_P + DHCP_OPTION_OFFSET + Z.of_nat (length options).

(** [enc28j60PacketReceive] leaves a packet in the buffer. *)
Definition receive (pkt : list Z) (m : machine) : machine := with_buf pkt m.

(** Options of a server at 192.0.2.1 granting a /24 for [lease] seconds
    (below 65536), as message [kind]. *)
Definition options_24 (kind lease : Z) : list Z :=
  [53; 1; kind;
   54; 4; 192; 0; 2; 1;
   51; 4; 0; 0; lease / 256; lease mod 256;
   1; 4; 255; 255; 255; 0;
   3; 4; 192; 0; 2; 1;
   6; 4; 192; 0; 2; 1;
   255].

(** The same server, now advertising a /16. *)
Definition options_16 (kind lease : Z) : list Z :=
  [53; 1; kind;
   54; 4; 192; 0; 2; 1;
   51; 4; 0; 0; lease / 256; lease mod 256;
   1; 4; 255; 255; 0; 0;
   3; 4; 192; 0; 2; 1;
   6; 4; 192; 0; 2; 1;
   255].

(** The client after [init_dhcp(7)], a first poll, and the offer of
    192.0.2.50 for [lease] seconds: REQUESTING. *)
Definition after_offer (lease : Z) : machine :=
  let m := init_dhcp 7 power_on in
  let m := snd (packetloop_dhcp_initial_ip_assignment 0 m) in
  let opts := options_24 2 lease in
  snd (packetloop_dhcp_initial_ip_assignment (reply_len opts)
         (receive (server_reply 7 [192; 0; 2; 50] opts) m)).

(** ... and after the acknowledgment with the same options: BOUND. *)
Definition after_ack (lease : Z) : machine :=
  let opts := options_24 5 lease in
  snd (packetloop_dhcp_initial_ip_assignment (reply_len opts)
         (receive (server_reply 7 [192; 0; 2; 50] opts) (after_offer lease))).

(** The machine before the first poll. *)
Definition fresh : machine := init_dhcp 7 power_on.

(** A packet for the client in REQUESTING (lease time [lease] held),
    from a server answering transaction [tid] with [options]. *)
Definition requesting_with (lease tid : Z) (options : list Z) : machine :=
  receive (server_reply tid [192; 0; 2; 50] options) (after_offer lease).

(** The options of a negative acknowledgment. *)
Definition nak_options : list Z := [53; 1; 6; 255].

(** BOUND for 3600 seconds, the renewal countdown run out once: REBINDING,
    with transaction 8 outstanding. *)
Definition rebinding : machine := unanswered_renewal (after_ack 3600).

Definition rebinding_with (tid : Z) (options : list Z) : machine :=
  receive (server_reply tid [0; 0; 0; 0] options) rebinding.

End Examples.

(** The main program after the DHCP request was started: [init_state] 1,
    no MAC address known; 192.0.2.1 is name server and gateway, the time
    server is 198.51.100.7; every peer outside the subnet goes through the
    gateway. *)
Definition bringup_waiting : bringup :=
  mk_bringup 1 0 0 0 0 0 [0; 0; 0; 0; 0; 0] [0; 0; 0; 0; 0; 0]
    [0; 0; 0; 0] [198; 51; 100; 7] [0; 0; 0; 0] [].

Definition via_gateway (ip : list Z) : bool :=
  negb (forallb (fun p => fst p =? snd p) (combine (firstn 3 ip) [192; 0; 2])).

Definition gw_mac : list Z := [2; 0; 0; 0; 0; 1].

(** A lease, an idle pass that asks for the name server's MAC, its answer,
    an idle pass that asks for the time server's, its answer, an idle
    pass. *)
Definition bringup_events : list event :=
  [LeaseAcquired [192; 0; 2; 1] [192; 0; 2; 1];
   Idle; ArpResolved [192; 0; 2; 1] TRANS_NUM_DNSMAC gw_mac;
   Idle; ArpResolved [192; 0; 2; 1] TRANS_NUM_NTPMAC gw_mac;
   Idle].

(** * Properties *)

Section ClientFacts.
Context `{net_h}.

(** ** Facts on the buffer *)

Lemma wrap8_idem z : wrap8 (wrap8 z) = wrap8 z.
Proof. unfold wrap8. apply Z.mod_mod. lia. Qed.

Lemma wrap8_small z : 0 <= z < 256 -> wrap8 z = z.
Proof. intros Hz. unfold wrap8. apply Z.mod_small. exact Hz. Qed.

Lemma wrap8_succ z k : wrap8 (wrap8 (z + k) + 1) = wrap8 (z + (k + 1)).
Proof. unfold wrap8. rewrite Z.add_mod_idemp_l by lia. f_equal. lia. Qed.

Lemma rd_byte b i : 0 <= rd b i < 256.
Proof. unfold rd, wrap8. apply Z.mod_pos_bound. lia. Qed.

Lemma length_poke b i v : length (poke b i v) = length b.
Proof. unfold poke. apply length_insert. Qed.

Lemma rd_poke_eq b i v :
  0 <= i < Z.of_nat (length b) -> rd (poke b i v) i = wrap8 v.
Proof.
  intros Hi. unfold rd, poke. f_equal.
  apply nth_lookup_Some. apply list_lookup_insert_eq. lia.
Qed.

Lemma rd_poke_ne b i j v :
  0 <= i -> 0 <= j -> i <> j -> rd (poke b i v) j = rd b j.
Proof.
  intros Hi Hj Hne. unfold rd, poke. f_equal.
  assert (Hn : Z.to_nat i <> Z.to_nat j) by lia.
  rewrite !nth_lookup. rewrite list_lookup_insert_ne by exact Hn. reflexivity.
Qed.

Lemma length_memcpy src : forall b off, length (memcpy b off src) = length b.
Proof.
  induction src as [| x src IH]; intros b off; simpl; [reflexivity |].
  rewrite IH. apply length_poke.
Qed.

(** Bytes outside the destination are as before. *)
Lemma rd_memcpy_out src : forall b off j,
  0 <= off -> 0 <= j -> j < off \/ off + Z.of_nat (length src) <= j ->
  rd (memcpy b off src) j = rd b j.
Proof.
  induction src as [| x src IH]; intros b off j Hoff Hj Hout; simpl; [reflexivity |].
  simpl length in Hout.
  rewrite IH by lia. apply rd_poke_ne; lia.
Qed.

(** Bytes inside the destination are those of the source. *)
Lemma rd_memcpy_in src : forall b off k,
  0 <= off -> off + Z.of_nat (length src) <= Z.of_nat (length b) ->
  (k < length src)%nat ->
  rd (memcpy b off src) (off + Z.of_nat k) = wrap8 (nth k src 0).
Proof.
  induction src as [| x src IH]; intros b off k Hoff Hfit Hk; simpl in Hk; [lia |].
  simpl length in Hfit. simpl memcpy.
  destruct k as [| k].
  - rewrite rd_memcpy_out by lia. rewrite Z.add_0_r. simpl nth.
    apply rd_poke_eq. lia.
  - replace (off + Z.of_nat (S k)) with ((off + 1) + Z.of_nat k) by lia.
    rewrite IH; [reflexivity | lia | rewrite length_poke; lia | lia].
Qed.

Lemma length_memset b off v n : length (memset b off v n) = length b.
Proof. apply length_memcpy. Qed.

Lemma rd_memset_out b off v n j :
  0 <= off -> 0 <= j -> j < off \/ off + Z.of_nat n <= j ->
  rd (memset b off v n) j = rd b j.
Proof.
  intros Hoff Hj Hout. unfold memset. apply rd_memcpy_out; try assumption.
  rewrite repeat_length. exact Hout.
Qed.

(** [rdn] read off byte by byte. *)
Lemma rdn_char b n : forall i l,
  length l = n ->
  (forall k, (k < n)%nat -> rd b (i + Z.of_nat k) = nth k l 0) ->
  rdn b i n = l.
Proof.
  induction n as [| n IH]; intros i l Hlen Hrd.
  - destruct l; [reflexivity | discriminate].
  - destruct l as [| x l]; [discriminate |]. simpl rdn. f_equal.
    + specialize (Hrd O ltac:(lia)). simpl in Hrd. rewrite Z.add_0_r in Hrd. exact Hrd.
    + apply IH; [simpl in Hlen; lia |]. intros k Hk.
      specialize (Hrd (S k) ltac:(lia)). simpl nth in Hrd.
      rewrite <- Hrd. f_equal. lia.
Qed.

Lemma length_rdn b n : forall i, length (rdn b i n) = n.
Proof. induction n as [| n IH]; intros i; simpl; [reflexivity | f_equal; apply IH]. Qed.

Lemma nth_rdn b n : forall i k, (k < n)%nat -> nth k (rdn b i n) 0 = rd b (i + Z.of_nat k).
Proof.
  induction n as [| n IH]; intros i k Hk; [lia |].
  destruct k as [| k]; simpl.
  - f_equal. lia.
  - rewrite IH by lia. f_equal. lia.
Qed.

(** ** Facts on message acceptance *)

Lemma is_dhcp_msg_for_me_short plen m :
  plen < UDP_DATA_P + DHCP_OPTION_OFFSET + 3 -> is_dhcp_msg_for_me plen m = (0, m).
Proof.
  intros Hlen. unfold is_dhcp_msg_for_me.
  destruct (Z.ltb_spec plen (UDP_DATA_P + DHCP_OPTION_OFFSET + 3)); [reflexivity | lia].
Qed.

Lemma is_dhcp_msg_for_me_mismatch plen m :
  tid_mismatch m -> is_dhcp_msg_for_me plen m = (0, m).
Proof.
  intros (i & Hi & Hne). unfold is_dhcp_msg_for_me.
  destruct (plen <? _); [reflexivity |].
  destruct (negb (rd (buf m) UDP_SRC_PORT_L_P =? _)); [reflexivity |].
  destruct (negb (rd (buf m) UDP_DATA_P =? 2)); [reflexivity |].
  replace (forallb _ _) with false; [reflexivity |].
  symmetry. apply not_true_is_false. intros Hall.
  rewrite forallb_forall in Hall.
  assert (Hin : In i [0; 1; 2; 3]) by (simpl; lia).
  apply Hall in Hin. apply Z.eqb_eq in Hin. contradiction.
Qed.

Lemma is_dhcp_msg_for_me_correlated plen m :
  correlated plen m -> is_dhcp_msg_for_me plen m = (1, take_yiaddr m).
Proof.
  intros (Hlen & Hport & Hop & Htid). unfold is_dhcp_msg_for_me, take_yiaddr.
  destruct (Z.ltb_spec plen (UDP_DATA_P + DHCP_OPTION_OFFSET + 3)); [lia |].
  rewrite Hport, Hop. simpl negb at 1 2. cbv iota.
  replace (forallb _ _) with true.
  - simpl negb. cbv iota. destruct (rd (buf m) (UDP_DATA_P + 16) =? 0); reflexivity.
  - symmetry. apply forallb_forall. intros i Hin. apply Z.eqb_eq, Htid.
    simpl in Hin. lia.
Qed.

(** The acceptance test says 1 exactly on the correlated packets. *)
Lemma is_dhcp_msg_for_me_iff plen m :
  fst (is_dhcp_msg_for_me plen m) <> 0 <-> correlated plen m.
Proof.
  split.
  - unfold is_dhcp_msg_for_me, correlated.
    destruct (Z.ltb_spec plen (UDP_DATA_P + DHCP_OPTION_OFFSET + 3)); [simpl; congruence |].
    destruct (Z.eqb_spec (rd (buf m) UDP_SRC_PORT_L_P) DHCP_SRV_SRC_PORT); [| simpl; congruence].
    destruct (Z.eqb_spec (rd (buf m) UDP_DATA_P) 2); [| simpl; congruence].
    destruct (forallb _ _) eqn:Hall; [| simpl; congruence].
    intros _. repeat split; try assumption; try lia.
    intros i Hi. rewrite forallb_forall in Hall. apply Z.eqb_eq, Hall. simpl. lia.
  - intros Hc. rewrite (is_dhcp_msg_for_me_correlated _ _ Hc). simpl. lia.
Qed.

(** ** Theorems on packets that are not for the client *)

(** C1: an inbound packet (of any length but 0, the poll without a packet)
    whose transaction identifier bytes do not all equal the outstanding
    identifier is ignored by both packet-driven entry points: every variable
    of the client (lease fields, countdown, retry counter, lease state), the
    broadcast setting and the frames sent are as before, in every lease
    state; in particular the state REQUESTING stays REQUESTING. *)
Theorem C1_mismatched_tid_is_ignored (plen : Z) (m : machine) :
  plen <> 0 -> tid_mismatch m ->
  packetloop_dhcp_initial_ip_assignment plen m = (0, m) /\
  packetloop_dhcp_renewhandler plen m = (plen, m) /\
  (dhcp_state m = REQUESTING ->
   dhcp_state (snd (packetloop_dhcp_initial_ip_assignment plen m)) = REQUESTING /\
   dhcp_state (snd (packetloop_dhcp_renewhandler plen m)) = REQUESTING).
Proof.
  intros Hplen Hmis.
  assert (Hini : packetloop_dhcp_initial_ip_assignment plen m = (0, m)).
  { unfold packetloop_dhcp_initial_ip_assignment.
    destruct (negb (enc28j60linkup m)); [reflexivity |].
    destruct (dhcp_state m >? 2); [reflexivity |].
    destruct (Z.eqb_spec plen 0); [contradiction |].
    rewrite (is_dhcp_msg_for_me_mismatch plen m Hmis). reflexivity. }
  assert (Hren : packetloop_dhcp_renewhandler plen m = (plen, m)).
  { unfold packetloop_dhcp_renewhandler.
    destruct (dhcp_state m <? 3); [reflexivity |].
    destruct (Z.eqb_spec plen 0); [contradiction |].
    rewrite (is_dhcp_msg_for_me_mismatch plen m Hmis). reflexivity. }
  rewrite Hini, Hren. simpl. auto.
Qed.

(** C7: a packet shorter than the fixed header with its magic cookie
    ([UDP_DATA_P + 240] bytes of frame) is "not for me": the acceptance test
    returns 0 and changes nothing, and so do both entry points handed such a
    packet (of a length other than 0): address, mask, gateway, name server,
    server identifier, lease time, transaction identifier and lease state
    are those of before, and the return values are the ones of a packet
    that was not taken (0, and the untouched length). *)
Theorem C7_short_packet_not_for_me (plen : Z) (m : machine) :
  plen < UDP_DATA_P + DHCP_OPTION_OFFSET ->
  is_dhcp_msg_for_me plen m = (0, m) /\
  (plen <> 0 ->
   packetloop_dhcp_initial_ip_assignment plen m = (0, m) /\
   packetloop_dhcp_renewhandler plen m = (plen, m)).
Proof.
  intros Hlen.
  assert (Hme : is_dhcp_msg_for_me plen m = (0, m)) by (apply is_dhcp_msg_for_me_short; lia).
  split; [exact Hme |]. intros Hplen. split.
  - unfold packetloop_dhcp_initial_ip_assignment.
    destruct (negb (enc28j60linkup m)); [reflexivity |].
    destruct (dhcp_state m >? 2); [reflexivity |].
    destruct (Z.eqb_spec plen 0); [contradiction |].
    rewrite Hme. reflexivity.
  - unfold packetloop_dhcp_renewhandler.
    destruct (dhcp_state m <? 3); [reflexivity |].
    destruct (Z.eqb_spec plen 0); [contradiction |].
    rewrite Hme. reflexivity.
Qed.

(** ** Facts on the countdown *)

Lemma dhcp_tick_infinite m :
  dhcp_cnt_down m = INFINITE -> dhcp_tick m = m.
Proof. intros Hc. unfold dhcp_tick. rewrite Hc. reflexivity. Qed.

Lemma dhcp_tick_positive m :
  0 < dhcp_cnt_down m < INFINITE ->
  dhcp_tick m = with_dhcp_cnt_down (dhcp_cnt_down m - 1) m.
Proof.
  intros Hc. unfold dhcp_tick, INFINITE in *.
  destruct (Z.eqb_spec (dhcp_cnt_down m) 4294967295); [lia |].
  simpl negb. cbv iota. f_equal. unfold wrap32. apply Z.mod_small. lia.
Qed.

Lemma with_dhcp_cnt_down_twice a b m :
  with_dhcp_cnt_down a (with_dhcp_cnt_down b m) = with_dhcp_cnt_down a m.
Proof. reflexivity. Qed.

Lemma with_dhcp_cnt_down_same m : with_dhcp_cnt_down (dhcp_cnt_down m) m = m.
Proof. destruct m; reflexivity. Qed.

(** [n] seconds take [n] off a finite countdown that is long enough. *)
Lemma elapse_finite n : forall m,
  Z.of_nat n <= dhcp_cnt_down m < INFINITE ->
  elapse n m = with_dhcp_cnt_down (dhcp_cnt_down m - Z.of_nat n) m.
Proof.
  induction n as [| n IH]; intros m Hc.
  - simpl. rewrite Z.sub_0_r. symmetry. apply with_dhcp_cnt_down_same.
  - simpl elapse. rewrite dhcp_tick_positive by lia.
    rewrite IH by (simpl; lia). simpl dhcp_cnt_down.
    rewrite with_dhcp_cnt_down_twice. f_equal. lia.
Qed.

Lemma expire_finite m :
  0 <= dhcp_cnt_down m < INFINITE -> expire m = with_dhcp_cnt_down 0 m.
Proof.
  intros Hc. unfold expire. rewrite elapse_finite by lia. f_equal. lia.
Qed.

(** ** Facts on the frames sent *)

Lemma buf_with_buf b m : buf (with_buf b m) = b.
Proof. reflexivity. Qed.

Ltac buf_length :=
  repeat first [ rewrite length_memcpy | rewrite length_memset | rewrite length_poke
               | rewrite send_udp_prepare_length ].

Ltac open_template :=
  unfold make_dhcp_message_template; cbv zeta; rewrite buf_with_buf; cbn [fold_left].

Lemma length_make_dhcp_message_template m :
  length (buf (make_dhcp_message_template m)) = length (buf m).
Proof.
  open_template.
  buf_length. reflexivity.
Qed.

Lemma UDP_DATA_P_pos : 4 <= UDP_DATA_P.
Proof. pose proof ip_header_before_udp_data. lia. Qed.

Ltac rd_skip :=
  repeat first
    [ rewrite rd_memcpy_out by (rewrite ?length_rdn; cbn [length]; pose proof UDP_DATA_P_pos; unfold DHCP_OPTION_OFFSET, MAGIC_COOKIE_P; lia)
    | rewrite rd_memset_out by (pose proof UDP_DATA_P_pos; unfold DHCP_OPTION_OFFSET, MAGIC_COOKIE_P; lia)
    | rewrite rd_poke_ne by (pose proof UDP_DATA_P_pos; unfold DHCP_OPTION_OFFSET, MAGIC_COOKIE_P; lia) ].

(** The fixed part of every message: a boot request carrying the
    outstanding transaction identifier. *)
Lemma template_op m :
  UDP_DATA_P + DHCP_OPTION_OFFSET <= Z.of_nat (length (buf m)) ->
  rd (buf (make_dhcp_message_template m)) UDP_DATA_P = 1.
Proof.
  intros Hlen. pose proof UDP_DATA_P_pos as Hp. unfold DHCP_OPTION_OFFSET in Hlen.
  open_template.
  rd_skip. rewrite rd_poke_eq; [reflexivity |].
  buf_length. lia.
Qed.

Lemma template_tid m k :
  UDP_DATA_P + DHCP_OPTION_OFFSET <= Z.of_nat (length (buf m)) ->
  0 <= k < 4 ->
  rd (buf (make_dhcp_message_template m)) (UDP_DATA_P + 4 + k) = wrap8 (dhcp_tid m).
Proof.
  intros Hlen Hk. pose proof UDP_DATA_P_pos as Hp. unfold DHCP_OPTION_OFFSET in Hlen.
  open_template.
  rd_skip.
  assert (Hcase : k = 0 \/ k = 1 \/ k = 2 \/ k = 3) by lia.
  destruct Hcase as [-> | [-> | [-> | ->]]].
  - rd_skip. replace (UDP_DATA_P + 4 + 0) with (UDP_DATA_P + 0 + 4) by lia.
    apply rd_poke_eq. buf_length. lia.
  - rd_skip. replace (UDP_DATA_P + 4 + 1) with (UDP_DATA_P + 1 + 4) by lia.
    apply rd_poke_eq. buf_length. lia.
  - rd_skip. replace (UDP_DATA_P + 4 + 2) with (UDP_DATA_P + 2 + 4) by lia.
    apply rd_poke_eq. buf_length. lia.
  - replace (UDP_DATA_P + 4 + 3) with (UDP_DATA_P + 3 + 4) by lia.
    apply rd_poke_eq. buf_length. lia.
Qed.

Ltac layout :=
  pose proof ip_header_before_udp_data;
  unfold DHCP_OPTION_OFFSET, MAGIC_COOKIE_P, param_req_lst_end_of_opt, cookie in *;
  rewrite ?length_rdn; buf_length; rewrite ?length_make_dhcp_message_template;
  cbn [length]; lia.

Ltac rd_out :=
  repeat first
    [ rewrite rd_memcpy_out by layout
    | rewrite rd_memset_out by layout
    | rewrite rd_poke_ne by layout ].

Lemma put_message_type_memcpy v m :
  put_message_type v m =
  with_buf (memcpy (buf m) (UDP_DATA_P + DHCP_OPTION_OFFSET) [0x35; 1; v]) m.
Proof.
  unfold put_message_type. cbv zeta. cbn [memcpy]. f_equal.
  rewrite <- !Z.add_assoc. reflexivity.
Qed.

Lemma template_tid_bytes m :
  UDP_DATA_P + DHCP_OPTION_OFFSET <= Z.of_nat (length (buf m)) ->
  rdn (buf (make_dhcp_message_template m)) (UDP_DATA_P + 4) 4 = repeat (wrap8 (dhcp_tid m)) 4.
Proof.
  intros Hlen. apply rdn_char; [reflexivity |]. intros k Hk.
  rewrite template_tid by lia.
  do 4 (destruct k as [| k]; [reflexivity |]). lia.
Qed.

(** [send_dhcp_discover] touches the buffer and the frames sent only, and
    the frame it sends is a discovery for the outstanding transaction. *)
Lemma send_dhcp_discover_frame m :
  exists b,
    snd (send_dhcp_discover m) =
      with_sent ((b, DHCP_OPTION_OFFSET + 9) :: sent m) (with_buf b m) /\
    length b = length (buf m) /\
    (UDP_DATA_P + DHCP_OPTION_OFFSET + 10 <= Z.of_nat (length (buf m)) ->
     is_discover (wrap8 (dhcp_tid m)) (b, DHCP_OPTION_OFFSET + 9)).
Proof.
  eexists. split; [| split].
  - unfold send_dhcp_discover. cbv zeta. rewrite put_message_type_memcpy.
    unfold send_udp_transmit. cbn [snd]. rewrite !buf_with_buf.
    destruct m; reflexivity.
  - buf_length. apply length_make_dhcp_message_template.
  - intros Hlen. unfold is_discover. cbn [fst snd].
    split; [reflexivity |]. split; [| split; [| split]].
    + rd_out. apply template_op. layout.
    + assert (Hsame : forall k, (k < 4)%nat ->
                rd (memcpy (memcpy (buf (make_dhcp_message_template m))
                              (UDP_DATA_P + DHCP_OPTION_OFFSET) [53; 1; DHCP_DISCOVER_V])
                      (UDP_DATA_P + DHCP_OPTION_OFFSET + 3) param_req_lst_end_of_opt)
                   (UDP_DATA_P + 4 + Z.of_nat k) = wrap8 (dhcp_tid m)).
      { intros k Hk. rd_out. apply template_tid; [layout | lia]. }
      apply rdn_char; [reflexivity |]. intros k Hk. rewrite Hsame by exact Hk.
      do 4 (destruct k as [| k]; [reflexivity |]). lia.
    + apply rdn_char; [reflexivity |]. intros k Hk.
      rd_out. rewrite rd_memcpy_in; [| layout | layout | exact Hk].
      do 3 (destruct k as [| k]; [reflexivity |]). lia.
    + apply rdn_char; [reflexivity |]. intros k Hk.
      rewrite rd_memcpy_in; [| layout | layout | exact Hk].
      do 7 (destruct k as [| k]; [reflexivity |]). simpl in Hk. lia.
Qed.

(** [send_dhcp_renew_request] touches the buffer and the frames sent only,
    and the frame it sends is a renewal request from the held address. *)
Lemma send_dhcp_renew_request_frame m :
  exists b,
    snd (send_dhcp_renew_request m) =
      with_sent ((b, DHCP_OPTION_OFFSET + 3) :: sent m) (with_buf b m) /\
    length b = length (buf m) /\
    (UDP_DATA_P + DHCP_OPTION_OFFSET + 3 <= Z.of_nat (length (buf m)) ->
     is_renew_request (wrap8 (dhcp_tid m)) (rdn (dhcp_yiaddr m) 0 4)
       (b, DHCP_OPTION_OFFSET + 3)).
Proof.
  eexists. split; [| split].
  - unfold send_dhcp_renew_request. cbv zeta. rewrite put_message_type_memcpy.
    unfold send_udp_transmit. cbn [snd]. rewrite !buf_with_buf.
    destruct m; reflexivity.
  - buf_length. apply length_make_dhcp_message_template.
  - intros Hlen. unfold is_renew_request. cbn [fst snd].
    assert (Hbyte : forall k, (k < 4)%nat ->
              wrap8 (nth k (rdn (dhcp_yiaddr m) 0 4) 0) = nth k (rdn (dhcp_yiaddr m) 0 4) 0).
    { intros k Hk. rewrite nth_rdn by exact Hk. apply wrap8_small, rd_byte. }
    split; [reflexivity |]. split; [| split; [| split; [| split]]].
    + rd_out. apply template_op. layout.
    + apply rdn_char; [reflexivity |]. intros k Hk.
      replace (dhcp_yiaddr (make_dhcp_message_template m)) with (dhcp_yiaddr m) by reflexivity.
      rewrite rd_memcpy_out by layout.
      rewrite rd_memcpy_out by layout.
      rewrite rd_memcpy_out by layout.
      rewrite template_tid by (layout || lia).
      do 4 (destruct k as [| k]; [reflexivity |]). lia.
    + apply rdn_char; [apply length_rdn |]. intros k Hk.
      replace (dhcp_yiaddr (make_dhcp_message_template m)) with (dhcp_yiaddr m) by reflexivity.
      rewrite rd_memcpy_out by layout.
      rewrite rd_memcpy_out by layout.
      rewrite rd_memcpy_in; [apply Hbyte; exact Hk | layout | layout
                            | rewrite length_rdn; exact Hk].
    + apply rdn_char; [apply length_rdn |]. intros k Hk.
      replace (dhcp_yiaddr (make_dhcp_message_template m)) with (dhcp_yiaddr m) by reflexivity.
      rewrite rd_memcpy_out by layout.
      rewrite rd_memcpy_in; [apply Hbyte; exact Hk | layout | layout
                            | rewrite length_rdn; exact Hk].
    + apply rdn_char; [reflexivity |]. intros k Hk.
      rewrite rd_memcpy_in; [| layout | layout | exact Hk].
      do 3 (destruct k as [| k]; [reflexivity |]). lia.
Qed.

(** ** Reading the variables through the updates *)

Ltac vars :=
  cbn [dhcp_yiaddr dhcp_opt_defaultgw dhcp_opt_mask dhcp_opt_server_id dhcp_opt_dns
       dhcp_opt_message_type dhcp_tid dhcp_opt_leasetime dhcp_cnt_down dhcp_retry
       dhcp_state buf link broadcast sent
       with_dhcp_yiaddr with_dhcp_opt_defaultgw with_dhcp_opt_mask with_dhcp_opt_server_id
       with_dhcp_opt_dns with_dhcp_opt_message_type with_dhcp_tid with_dhcp_opt_leasetime
       with_dhcp_cnt_down with_dhcp_retry with_dhcp_state with_buf with_broadcast with_sent
       enc28j60EnableBroadcast enc28j60DisableBroadcast
       set_dhcp_retry_timer init_dhcp fst snd] in *.

(** Deciding the tests of the entry points once the variables are known. *)
Ltac tests :=
  unfold enc28j60linkup, is_dhcp_cnt_down_zero in *; vars;
  cbn [negb andb orb Z.gtb Z.ltb Z.eqb Z.compare Pos.compare Pos.compare_cont Pos.eqb];
  cbv zeta.

(** ** The exponential back-off of the initial assignment *)

(** The first poll in INIT: SELECTING, with 4 seconds to the first retry,
    broadcast reception on and a discovery sent. *)
Lemma init_poll m :
  enc28j60linkup m = true -> dhcp_state m = INIT ->
  exists b,
    packetloop_dhcp_initial_ip_assignment 0 m =
      (0, with_sent ((b, DHCP_OPTION_OFFSET + 9) :: sent m)
            (with_buf b (with_broadcast true
              (with_dhcp_cnt_down 4 (with_dhcp_retry 4 (with_dhcp_state SELECTING m)))))) /\
    length b = length (buf m) /\
    (UDP_DATA_P + DHCP_OPTION_OFFSET + 10 <= Z.of_nat (length (buf m)) ->
     is_discover (wrap8 (dhcp_tid m)) (b, DHCP_OPTION_OFFSET + 9)).
Proof.
  intros Hlink Hst. unfold packetloop_dhcp_initial_ip_assignment.
  tests. rewrite Hlink, Hst. tests.
  match goal with |- context [send_dhcp_discover ?x] =>
    destruct (send_dhcp_discover_frame x) as (b & Heq & Hlen & Hfr) end.
  exists b. rewrite Heq. vars. auto.
Qed.

(** A countdown expiry in SELECTING with a retry interval of at most 16:
    the identifier goes up by one, the interval and the countdown are the
    doubled interval, and a discovery for the new identifier is sent. *)
Lemma selecting_timeout m :
  enc28j60linkup m = true -> dhcp_state m = SELECTING ->
  0 <= dhcp_cnt_down m < INFINITE -> 0 <= dhcp_retry m <= 16 ->
  exists b,
    unanswered_timeout m =
      with_sent ((b, DHCP_OPTION_OFFSET + 9) :: sent m)
        (with_buf b (with_dhcp_cnt_down (2 * dhcp_retry m)
          (with_dhcp_retry (2 * dhcp_retry m)
            (with_dhcp_tid (wrap8 (dhcp_tid m + 1)) m)))) /\
    length b = length (buf m) /\
    (UDP_DATA_P + DHCP_OPTION_OFFSET + 10 <= Z.of_nat (length (buf m)) ->
     is_discover (wrap8 (dhcp_tid m + 1)) (b, DHCP_OPTION_OFFSET + 9)).
Proof.
  intros Hlink Hst Hcnt Hretry. unfold unanswered_timeout.
  rewrite expire_finite by exact Hcnt.
  unfold packetloop_dhcp_initial_ip_assignment. tests.
  rewrite Hlink, Hst. tests.
  assert (Hdouble : wrap8 (Z.shiftl (dhcp_retry m) 1) = 2 * dhcp_retry m).
  { rewrite Z.shiftl_mul_pow2 by lia. unfold wrap8. rewrite Z.mod_small; lia. }
  rewrite Hdouble.
  destruct (Z.gtb_spec (2 * dhcp_retry m) 32) as [Hgt | _]; [lia |].
  rewrite ?Hst. tests.
  match goal with |- context [send_dhcp_discover ?x] =>
    destruct (send_dhcp_discover_frame x) as (b & Heq & Hlen & Hfr) end.
  exists b. rewrite Heq. vars. rewrite wrap8_idem in Hfr. auto.
Qed.

(** A countdown expiry with the retry interval at 32: the doubled interval
    is over the limit and the client is back in INIT, with nothing sent. *)
Lemma selecting_give_up m :
  enc28j60linkup m = true -> dhcp_state m = SELECTING ->
  0 <= dhcp_cnt_down m < INFINITE -> dhcp_retry m = 32 ->
  unanswered_timeout m =
    with_dhcp_state INIT (with_dhcp_retry 64 (with_dhcp_tid (wrap8 (dhcp_tid m + 1))
      (with_dhcp_cnt_down 0 m))).
Proof.
  intros Hlink Hst Hcnt Hretry. unfold unanswered_timeout.
  rewrite expire_finite by exact Hcnt.
  unfold packetloop_dhcp_initial_ip_assignment. tests.
  rewrite Hlink, Hst, Hretry. reflexivity.
Qed.

Lemma backed_off_start m :
  enc28j60linkup m = true -> dhcp_state m = INIT -> 0 <= dhcp_tid m < 256 ->
  UDP_DATA_P + DHCP_OPTION_OFFSET + 10 <= Z.of_nat (length (buf m)) ->
  backed_off m 0 (snd (packetloop_dhcp_initial_ip_assignment 0 m)).
Proof.
  intros Hlink Hst Htid Hbuf.
  destruct (init_poll m Hlink Hst) as (b & Heq & Hlen & Hfr).
  rewrite Heq. unfold backed_off. vars.
  rewrite Z.add_0_r, (wrap8_small _ Htid).
  repeat split; try assumption; try reflexivity; try lia.
  - simpl. lia.
  - eexists _, _. split; [reflexivity |].
    rewrite <- (wrap8_small _ Htid) at 1. apply Hfr, Hbuf.
Qed.

Lemma backed_off_next m N s :
  UDP_DATA_P + DHCP_OPTION_OFFSET + 10 <= Z.of_nat (length (buf m)) ->
  (N <= 2)%nat -> backed_off m N s -> backed_off m (S N) (unanswered_timeout s).
Proof.
  intros Hbuf HN (Hlink & Hst & Hretry & Hcnt & Htid & Hlen & Hsent & _).
  assert (Hr : dhcp_retry s = 4 \/ dhcp_retry s = 8 \/ dhcp_retry s = 16).
  { rewrite Hretry.
    destruct N as [| [| [| N]]]; [left | right; left | right; right | lia]; reflexivity. }
  destruct (selecting_timeout s Hlink Hst) as (b & Heq & Hlenb & Hfr);
    [unfold INFINITE; lia | lia |].
  rewrite Heq. unfold backed_off. vars.
  assert (Hpow : 4 * 2 ^ Z.of_nat (S N) = 2 * dhcp_retry s).
  { rewrite Hretry, Nat2Z.inj_succ, Z.pow_succ_r by lia. lia. }
  repeat split; try assumption; try lia.
  - rewrite Htid. rewrite wrap8_succ. f_equal. lia.
  - simpl length. lia.
  - eexists _, _. split; [reflexivity |]. apply Hfr. lia.
Qed.

Lemma backed_off_iter m :
  enc28j60linkup m = true -> dhcp_state m = INIT -> 0 <= dhcp_tid m < 256 ->
  UDP_DATA_P + DHCP_OPTION_OFFSET + 10 <= Z.of_nat (length (buf m)) ->
  forall N, (N <= 3)%nat ->
    backed_off m N (Nat.iter N unanswered_timeout
                      (snd (packetloop_dhcp_initial_ip_assignment 0 m))).
Proof.
  intros Hlink Hst Htid Hbuf. induction N as [| N IH]; intros HN.
  - apply backed_off_start; assumption.
  - rewrite Nat.iter_succ. apply backed_off_next; [assumption | lia | apply IH; lia].
Qed.

Lemma backed_off_reads m N r :
  (N <= 3)%nat -> backed_off m N r ->
  dhcp_state r = SELECTING /\
  dhcp_retry r = Z.min (4 * 2 ^ Z.of_nat N) 32 /\
  dhcp_cnt_down r = dhcp_retry r /\
  dhcp_tid r = wrap8 (dhcp_tid m + Z.of_nat N) /\
  length (sent r) = (length (sent m) + N + 1)%nat /\
  exists f rest, sent r = f :: rest /\ is_discover (dhcp_tid r) f.
Proof.
  intros HN (_ & Hs & Hretry & Hcnt & Htid' & _ & Hsent & Hfr).
  repeat split; try assumption.
  rewrite Hretry.
  destruct N as [| [| [| [| N]]]]; [reflexivity .. | lia].
Qed.

Lemma backed_off_gives_up m r :
  backed_off m 3 r ->
  dhcp_state (unanswered_timeout r) = INIT /\
  dhcp_retry (unanswered_timeout r) = 64 /\
  sent (unanswered_timeout r) = sent r.
Proof.
  intros (Hl & Hs & Hretry & Hcnt & _).
  rewrite selecting_give_up; try assumption.
  - vars. auto.
  - rewrite Hcnt, Hretry. unfold INFINITE. cbn. lia.
Qed.

(** C2, as the code has it: polled in INIT the client is SELECTING with a
    retry interval of 4 seconds; after [N <= 3] unanswered expiries of the
    countdown (each adds one to the transaction identifier and sends one
    more discovery) it is still SELECTING, the retry interval is
    [min (4 * 2^N) 32] (4, 8, 16, 32) and the countdown is set to it; the
    fourth expiry doubles the interval to 64, over the limit of 32, and the
    lease state is INIT again. *)
Theorem C2_backoff_4_8_16_32_then_init (m : machine) :
  enc28j60linkup m = true -> dhcp_state m = INIT -> 0 <= dhcp_tid m < 256 ->
  UDP_DATA_P + DHCP_OPTION_OFFSET + 10 <= Z.of_nat (length (buf m)) ->
  let s0 := snd (packetloop_dhcp_initial_ip_assignment 0 m) in
  (forall N, (N <= 3)%nat ->
     let s := Nat.iter N unanswered_timeout s0 in
     dhcp_state s = SELECTING /\
     dhcp_retry s = Z.min (4 * 2 ^ Z.of_nat N) 32 /\
     dhcp_cnt_down s = dhcp_retry s /\
     dhcp_tid s = wrap8 (dhcp_tid m + Z.of_nat N) /\
     length (sent s) = (length (sent m) + N + 1)%nat /\
     exists f rest, sent s = f :: rest /\ is_discover (dhcp_tid s) f) /\
  dhcp_state (Nat.iter 4 unanswered_timeout s0) = INIT /\
  dhcp_retry (Nat.iter 4 unanswered_timeout s0) = 64 /\
  sent (Nat.iter 4 unanswered_timeout s0) = sent (Nat.iter 3 unanswered_timeout s0).
Proof.
  intros Hlink Hst Htid Hbuf. cbv zeta. split.
  - intros N HN. apply (backed_off_reads m N _ HN).
    apply backed_off_iter; assumption.
  - rewrite (Nat.iter_succ 3). apply (backed_off_gives_up m).
    apply backed_off_iter; [assumption .. | lia].
Qed.

(** ** The option walks end within [plen] turns

    For every packet of at most 65000 bytes (the receive buffer holds 808)
    the index arithmetic never wraps and each turn of a walk moves the
    index on by three bytes or more: the result with [plen] turns is the
    result with any larger number of turns, so it is the result of the
    [while] loop. *)

Lemma wrap16_small z : 0 <= z < 65536 -> wrap16 z = z.
Proof. intros Hz. unfold wrap16. apply Z.mod_small. exact Hz. Qed.

Lemma get_message_type_loop_enough b plen : plen <= 65000 ->
  forall n option_idx n',
    0 <= option_idx <= plen + 257 ->
    (Z.to_nat (plen - option_idx) <= n)%nat -> (n <= n')%nat ->
    get_message_type_loop n' b plen option_idx = get_message_type_loop n b plen option_idx.
Proof.
  intros Hplen. induction n as [| n IH]; intros idx n' Hidx Hn Hn'.
  - destruct n' as [| n']; [reflexivity |]. simpl.
    unfold add16. rewrite wrap16_small by lia.
    destruct (Z.ltb_spec (idx + 2) plen); [lia | reflexivity].
  - destruct n' as [| n']; [lia |]. simpl.
    assert (E2 : add16 idx 2 = idx + 2) by (unfold add16; apply wrap16_small; lia).
    rewrite !E2.
    destruct (Z.ltb_spec (idx + 2) plen); [| reflexivity].
    pose proof (rd_byte b (add16 idx 1)) as Hlen.
    set (len := rd b (add16 idx 1)) in *.
    rewrite !(wrap16_small (idx + len + 1)) by lia.
    destruct (Z.ltb_spec len 1); [reflexivity |].
    destruct (Z.gtb_spec (idx + len + 1) plen); [reflexivity |]. cbn [orb].
    destruct (rd b idx =? 53); [reflexivity |].
    rewrite !(wrap16_small (idx + 2 + len)) by lia. apply IH; lia.
Qed.

(** [dhcp_get_message_type] is the walk run with any number of turns from
    [plen] on. *)
Lemma get_message_type_loop_fuel plen m fuel :
  plen <= 65000 -> (Z.to_nat plen <= fuel)%nat ->
  dhcp_get_message_type plen m =
    if plen <? UDP_DATA_P + DHCP_OPTION_OFFSET + 3 then 0
    else get_message_type_loop fuel (buf m) plen (UDP_DATA_P + DHCP_OPTION_OFFSET).
Proof.
  intros Hplen Hfuel. unfold dhcp_get_message_type.
  pose proof UDP_DATA_P_pos as Hp. unfold DHCP_OPTION_OFFSET.
  destruct (Z.ltb_spec plen (UDP_DATA_P + 240 + 3)); [reflexivity |].
  symmetry. apply get_message_type_loop_enough; lia.
Qed.

Lemma option_parser_loop_enough b plen : plen <= 65000 ->
  forall n option_idx m n',
    0 <= option_idx <= plen + 257 ->
    (Z.to_nat (plen - option_idx) <= n)%nat -> (n <= n')%nat ->
    option_parser_loop n' b plen option_idx m = option_parser_loop n b plen option_idx m.
Proof.
  intros Hplen. induction n as [| n IH]; intros idx m n' Hidx Hn Hn'.
  - destruct n' as [| n']; [reflexivity |]. simpl.
    unfold add16. rewrite wrap16_small by lia.
    destruct (Z.ltb_spec (idx + 2) plen); [lia | reflexivity].
  - destruct n' as [| n']; [lia |]. simpl.
    assert (E2 : add16 idx 2 = idx + 2) by (unfold add16; apply wrap16_small; lia).
    rewrite !E2.
    destruct (Z.ltb_spec (idx + 2) plen); [| reflexivity].
    pose proof (rd_byte b (add16 idx 1)) as Hlen.
    set (len := rd b (add16 idx 1)) in *.
    rewrite !(wrap16_small (idx + len + 1)) by lia.
    destruct (Z.ltb_spec len 1); [reflexivity |].
    destruct (Z.gtb_spec (idx + len + 1) plen); [reflexivity |]. cbn [orb].
    assert (Hcase : fst (option_case b plen idx len m) = idx \/
                    fst (option_case b plen idx len m) = plen).
    { unfold option_case.
      repeat match goal with
             | |- context [match ?x with _ => _ end] => destruct x
             end; auto. }
    destruct (option_case b plen idx len m) as [idx1 m1]. cbn [fst] in Hcase.
    rewrite !(wrap16_small (idx1 + 2 + len)) by lia.
    apply IH; lia.
Qed.

(** [dhcp_option_parser] is the walk run with any number of turns from
    [plen] on. *)
Lemma option_parser_loop_fuel plen m fuel :
  plen <= 65000 -> (Z.to_nat plen <= fuel)%nat ->
  dhcp_option_parser plen m =
    if plen <? UDP_DATA_P + DHCP_OPTION_OFFSET + 3 then (0, m)
    else (1, option_parser_loop fuel (buf m) plen (UDP_DATA_P + DHCP_OPTION_OFFSET) m).
Proof.
  intros Hplen Hfuel. unfold dhcp_option_parser.
  pose proof UDP_DATA_P_pos as Hp. unfold DHCP_OPTION_OFFSET.
  destruct (Z.ltb_spec plen (UDP_DATA_P + 240 + 3)); [reflexivity |].
  f_equal. symmetry. apply option_parser_loop_enough; lia.
Qed.

(** ** Acknowledgments and negative acknowledgments *)

Lemma buf_take_yiaddr m : buf (take_yiaddr m) = buf m.
Proof. unfold take_yiaddr. destruct (rd (buf m) (UDP_DATA_P + 16) =? 0); reflexivity. Qed.

Lemma dhcp_get_message_type_take_yiaddr plen m :
  dhcp_get_message_type plen (take_yiaddr m) = dhcp_get_message_type plen m.
Proof. unfold dhcp_get_message_type. rewrite buf_take_yiaddr. reflexivity. Qed.

(** The variables that the acceptance test leaves alone. *)
Lemma take_yiaddr_keeps m :
  dhcp_opt_defaultgw (take_yiaddr m) = dhcp_opt_defaultgw m /\
  dhcp_opt_mask (take_yiaddr m) = dhcp_opt_mask m /\
  dhcp_opt_server_id (take_yiaddr m) = dhcp_opt_server_id m /\
  dhcp_opt_dns (take_yiaddr m) = dhcp_opt_dns m /\
  dhcp_opt_leasetime (take_yiaddr m) = dhcp_opt_leasetime m /\
  dhcp_tid (take_yiaddr m) = dhcp_tid m /\
  dhcp_cnt_down (take_yiaddr m) = dhcp_cnt_down m /\
  dhcp_retry (take_yiaddr m) = dhcp_retry m /\
  dhcp_state (take_yiaddr m) = dhcp_state m /\
  link (take_yiaddr m) = link m /\
  broadcast (take_yiaddr m) = broadcast m /\
  sent (take_yiaddr m) = sent m.
Proof.
  unfold take_yiaddr. destruct (rd (buf m) (UDP_DATA_P + 16) =? 0);
    repeat split; reflexivity.
Qed.

(** A correlated acknowledgment at the initial assignment, link up and no
    lease held: the options of the packet are not read; the renewal timer is
    set from the lease time the client holds. *)
Lemma initial_ack plen m :
  enc28j60linkup m = true -> dhcp_state m <= 2 -> plen <> 0 ->
  correlated plen m -> dhcp_get_message_type plen m = 5 ->
  packetloop_dhcp_initial_ip_assignment plen m =
    (1, enc28j60DisableBroadcast
          (set_dhcp_renew_timer 2 (with_dhcp_retry 0 (with_dhcp_state BOUND (take_yiaddr m))))).
Proof.
  intros Hlink Hst Hplen Hcor Hcmd. unfold packetloop_dhcp_initial_ip_assignment.
  rewrite Hlink. cbn [negb].
  destruct (Z.gtb_spec (dhcp_state m) 2); [lia |].
  destruct (Z.eqb_spec plen 0); [contradiction |].
  rewrite (is_dhcp_msg_for_me_correlated plen m Hcor).
  cbn [Z.eqb negb]. cbv zeta.
  rewrite dhcp_get_message_type_take_yiaddr, Hcmd. reflexivity.
Qed.

(** A correlated negative acknowledgment at the initial assignment. *)
Lemma initial_nak plen m :
  enc28j60linkup m = true -> dhcp_state m <= 2 -> plen <> 0 ->
  correlated plen m -> dhcp_get_message_type plen m = 6 ->
  packetloop_dhcp_initial_ip_assignment plen m = (0, with_dhcp_state INIT (take_yiaddr m)).
Proof.
  intros Hlink Hst Hplen Hcor Hcmd. unfold packetloop_dhcp_initial_ip_assignment.
  rewrite Hlink. cbn [negb].
  destruct (Z.gtb_spec (dhcp_state m) 2); [lia |].
  destruct (Z.eqb_spec plen 0); [contradiction |].
  rewrite (is_dhcp_msg_for_me_correlated plen m Hcor).
  cbn [Z.eqb negb]. cbv zeta.
  rewrite dhcp_get_message_type_take_yiaddr, Hcmd. reflexivity.
Qed.

(** A correlated acknowledgment at the renewal handler, a lease held: the
    options of the packet are read, then the renewal timer is set. *)
Lemma renew_ack plen m :
  3 <= dhcp_state m -> plen <> 0 ->
  correlated plen m -> dhcp_get_message_type plen m = 5 ->
  packetloop_dhcp_renewhandler plen m =
    (0, set_dhcp_renew_timer 2
          (snd (dhcp_option_parser plen
                  (enc28j60DisableBroadcast
                     (with_dhcp_retry 0 (with_dhcp_state BOUND (take_yiaddr m))))))).
Proof.
  intros Hst Hplen Hcor Hcmd. unfold packetloop_dhcp_renewhandler.
  destruct (Z.ltb_spec (dhcp_state m) 3); [lia |].
  destruct (Z.eqb_spec plen 0); [contradiction |]. cbn [andb].
  rewrite (is_dhcp_msg_for_me_correlated plen m Hcor).
  cbn [Z.eqb negb]. cbv zeta.
  rewrite dhcp_get_message_type_take_yiaddr, Hcmd. reflexivity.
Qed.

(** A correlated negative acknowledgment at the renewal handler. *)
Lemma renew_nak plen m :
  3 <= dhcp_state m -> plen <> 0 ->
  correlated plen m -> dhcp_get_message_type plen m = 6 ->
  packetloop_dhcp_renewhandler plen m = (0, with_dhcp_state INIT (take_yiaddr m)).
Proof.
  intros Hst Hplen Hcor Hcmd. unfold packetloop_dhcp_renewhandler.
  destruct (Z.ltb_spec (dhcp_state m) 3); [lia |].
  destruct (Z.eqb_spec plen 0); [contradiction |]. cbn [andb].
  rewrite (is_dhcp_msg_for_me_correlated plen m Hcor).
  cbn [Z.eqb negb]. cbv zeta.
  rewrite dhcp_get_message_type_take_yiaddr, Hcmd. reflexivity.
Qed.

(** The renewal timer: the quotient, and INIT when the quotient is 0. *)
Lemma set_dhcp_renew_timer_eq divisor m :
  set_dhcp_renew_timer divisor m =
    if dhcp_opt_leasetime m / divisor =? 0
    then with_dhcp_state INIT (with_dhcp_cnt_down (dhcp_opt_leasetime m / divisor) m)
    else with_dhcp_cnt_down (dhcp_opt_leasetime m / divisor) m.
Proof. reflexivity. Qed.

Lemma option_case_beside b plen option_idx option_len m :
  beside_options (snd (option_case b plen option_idx option_len m)) = beside_options m.
Proof.
  unfold option_case.
  repeat match goal with
         | |- context [match ?x with _ => _ end] => destruct x
         end; reflexivity.
Qed.

Lemma option_parser_loop_beside fuel b plen : forall option_idx m,
  beside_options (option_parser_loop fuel b plen option_idx m) = beside_options m.
Proof.
  induction fuel as [| fuel IH]; intros option_idx m; simpl; [reflexivity |].
  destruct (add16 option_idx 2 <? plen); [| reflexivity].
  destruct (_ || _); [reflexivity |].
  pose proof (option_case_beside b plen option_idx (rd b (add16 option_idx 1)) m) as Hc.
  destruct (option_case b plen option_idx (rd b (add16 option_idx 1)) m) as [i m'].
  rewrite IH. exact Hc.
Qed.

Lemma dhcp_option_parser_beside plen m :
  beside_options (snd (dhcp_option_parser plen m)) = beside_options m.
Proof.
  unfold dhcp_option_parser.
  destruct (plen <? _); [reflexivity |]. apply option_parser_loop_beside.
Qed.

(** ** The renewal schedule *)

(** The variables right after a correlated acknowledgment, at either entry
    point: the retry counter is 0 and the countdown is half of the lease
    time now held. *)
Lemma after_ack_timer plen m s :
  enc28j60linkup m = true -> plen <> 0 ->
  correlated plen m -> dhcp_get_message_type plen m = 5 ->
  (dhcp_state m <= 2 /\ s = snd (packetloop_dhcp_initial_ip_assignment plen m)) \/
  (3 <= dhcp_state m /\ s = snd (packetloop_dhcp_renewhandler plen m)) ->
  enc28j60linkup s = true /\ dhcp_retry s = 0 /\
  dhcp_cnt_down s = dhcp_opt_leasetime s / 2 /\
  dhcp_tid s = dhcp_tid m /\ buf s = buf m /\ sent s = sent m /\
  broadcast s = false /\
  dhcp_state s = (if dhcp_opt_leasetime s / 2 =? 0 then INIT else BOUND).
Proof.
  intros Hlink Hplen Hcor Hcmd [[Hst ->] | [Hst ->]].
  - rewrite (initial_ack plen m Hlink Hst Hplen Hcor Hcmd).
    destruct (take_yiaddr_keeps m) as (_ & _ & _ & _ & Hl & Ht & _ & _ & _ & Hk & _ & Hs).
    pose proof (buf_take_yiaddr m) as Hb.
    cbn [snd]. rewrite set_dhcp_renew_timer_eq. tests.
    destruct (dhcp_opt_leasetime (take_yiaddr m) / 2 =? 0) eqn:Hq; tests; rewrite ?Hq;
      repeat split; congruence.
  - rewrite (renew_ack plen m Hst Hplen Hcor Hcmd). cbn [snd].
    match goal with |- context [dhcp_option_parser plen ?x] =>
      pose proof (dhcp_option_parser_beside plen x) as Hbeside;
      set (p := snd (dhcp_option_parser plen x)) in * end.
    unfold beside_options in Hbeside. tests.
    injection Hbeside as Hy Ht Hc Hr Hs Hb Hl Hbr Hse.
    destruct (take_yiaddr_keeps m) as (_ & _ & _ & _ & _ & Ht' & _ & _ & _ & Hk & _ & Hs').
    pose proof (buf_take_yiaddr m) as Hb'.
    rewrite set_dhcp_renew_timer_eq.
    destruct (dhcp_opt_leasetime p / 2 =? 0) eqn:Hq; tests; rewrite ?Hq;
      repeat split; congruence.
Qed.

(** The renewal handler polled without a packet while no lease is held. *)
Lemma renewal_idle m :
  dhcp_state m < 3 -> 0 <= dhcp_cnt_down m < INFINITE ->
  unanswered_renewal m = with_dhcp_cnt_down 0 m.
Proof.
  intros Hst Hcnt. unfold unanswered_renewal. rewrite expire_finite by exact Hcnt.
  unfold packetloop_dhcp_renewhandler. tests.
  destruct (Z.ltb_spec (dhcp_state m) 3); [reflexivity | lia].
Qed.

(** An expiry of the renewal countdown, a lease held and the link up. *)
Lemma renewal_expiry m :
  enc28j60linkup m = true -> 3 <= dhcp_state m ->
  0 <= dhcp_cnt_down m < INFINITE ->
  exists b,
    unanswered_renewal m =
      (let m1 := set_dhcp_renew_timer 8
                   (with_sent ((b, DHCP_OPTION_OFFSET + 3) :: sent m)
                      (with_buf b (with_broadcast true (with_dhcp_state REBINDING
                         (with_dhcp_tid (wrap8 (dhcp_tid m + 1))
                            (with_dhcp_cnt_down 0 m)))))) in
       let m2 := with_dhcp_retry (wrap8 (dhcp_retry m + 1)) m1 in
       if wrap8 (dhcp_retry m + 1) >? 3 then with_dhcp_state INIT m2 else m2) /\
    length b = length (buf m) /\
    (UDP_DATA_P + DHCP_OPTION_OFFSET + 3 <= Z.of_nat (length (buf m)) ->
     is_renew_request (wrap8 (dhcp_tid m + 1)) (rdn (dhcp_yiaddr m) 0 4)
       (b, DHCP_OPTION_OFFSET + 3)).
Proof.
  intros Hlink Hst Hcnt. unfold unanswered_renewal.
  rewrite expire_finite by exact Hcnt.
  unfold packetloop_dhcp_renewhandler. tests.
  destruct (Z.ltb_spec (dhcp_state m) 3); [lia |].
  rewrite Hlink. cbn [Z.eqb andb negb]. cbv zeta.
  match goal with |- context [send_dhcp_renew_request ?x] =>
    destruct (send_dhcp_renew_request_frame x) as (b & Heq & Hlen & Hfr) end.
  exists b. rewrite Heq. tests. rewrite wrap8_idem in Hfr.
  split; [| auto].
  rewrite !set_dhcp_renew_timer_eq. tests.
  destruct (dhcp_opt_leasetime m / 8 =? 0); tests; reflexivity.
Qed.

Lemma rebinding_step s k r :
  UDP_DATA_P + DHCP_OPTION_OFFSET + 3 <= Z.of_nat (length (buf s)) ->
  8 <= dhcp_opt_leasetime s < 4294967296 -> (k <= 2)%nat ->
  enc28j60linkup r = true -> 3 <= dhcp_state r -> dhcp_retry r = Z.of_nat k ->
  dhcp_opt_leasetime r = dhcp_opt_leasetime s -> dhcp_yiaddr r = dhcp_yiaddr s ->
  0 <= dhcp_cnt_down r < INFINITE ->
  dhcp_tid r = wrap8 (dhcp_tid s + Z.of_nat k) ->
  length (buf r) = length (buf s) -> length (sent r) = (length (sent s) + k)%nat ->
  rebinding_after s (S k) (unanswered_renewal r).
Proof.
  intros Hbuf HL Hk Hlink Hst Hretry Hlease Hy Hcnt Htid Hlen Hsent.
  destruct (renewal_expiry r Hlink Hst Hcnt) as (b & Heq & Hlenb & Hfr).
  rewrite Heq. cbv zeta. rewrite Hretry.
  assert (Hw : wrap8 (Z.of_nat k + 1) = Z.of_nat (S k)) by (rewrite wrap8_small by lia; lia).
  rewrite Hw.
  destruct (Z.gtb_spec (Z.of_nat (S k)) 3) as [Hgt | _]; [lia |].
  rewrite set_dhcp_renew_timer_eq. tests. rewrite Hlease.
  assert (Hq : 0 < dhcp_opt_leasetime s / 8).
  { apply Z.div_str_pos. lia. }
  destruct (Z.eqb_spec (dhcp_opt_leasetime s / 8) 0) as [Hz | _]; [lia |].
  unfold rebinding_after. tests.
  repeat split; try assumption; try reflexivity; try lia.
  - rewrite Htid, wrap8_succ. f_equal. lia.
  - simpl length. lia.
  - eexists _, _. split; [reflexivity |].
    rewrite Htid, wrap8_succ in *. rewrite <- Hy.
    replace (Z.of_nat (S k)) with (Z.of_nat k + 1) by lia. apply Hfr. lia.
Qed.

Lemma rebinding_iter s :
  UDP_DATA_P + DHCP_OPTION_OFFSET + 3 <= Z.of_nat (length (buf s)) ->
  8 <= dhcp_opt_leasetime s < 4294967296 -> 0 <= dhcp_tid s < 256 ->
  enc28j60linkup s = true -> dhcp_state s = BOUND -> dhcp_retry s = 0 ->
  dhcp_cnt_down s = dhcp_opt_leasetime s / 2 ->
  forall k, (k <= 2)%nat -> rebinding_after s (S k) (Nat.iter (S k) unanswered_renewal s).
Proof.
  intros Hbuf HL Htid Hlink Hst Hretry Hcnt.
  assert (Hhalf : 0 <= dhcp_opt_leasetime s / 2 < INFINITE).
  { unfold INFINITE. split; [apply Z.div_pos; lia | apply Z.div_lt_upper_bound; lia]. }
  assert (Heighth : 0 <= dhcp_opt_leasetime s / 8 < INFINITE).
  { unfold INFINITE. split; [apply Z.div_pos; lia | apply Z.div_lt_upper_bound; lia]. }
  induction k as [| k IH]; intros Hk.
  - rewrite Nat.iter_succ. change (Nat.iter 0 unanswered_renewal s) with s.
    apply rebinding_step;
      [ exact Hbuf | exact HL | lia | exact Hlink | lia | exact Hretry
      | reflexivity | reflexivity | rewrite Hcnt; exact Hhalf
      | rewrite Z.add_0_r; symmetry; apply wrap8_small, Htid
      | reflexivity | lia ].
  - rewrite Nat.iter_succ.
    destruct (IH ltac:(lia)) as (Hl & Hs & Hr & Hle & Hy & Hc & Ht & _ & Hb & Hse & _).
    apply rebinding_step;
      [ exact Hbuf | exact HL | lia | exact Hl | lia | exact Hr
      | exact Hle | exact Hy | rewrite Hc; exact Heighth
      | exact Ht | exact Hb | exact Hse ].
Qed.

Lemma lease_running_step k r :
  lease_running k r -> lease_running (S k) (unanswered_renewal r).
Proof.
  intros (Hlink & HL & Hcnt & Hst).
  assert (Heighth : 0 <= dhcp_opt_leasetime r / 8 < INFINITE).
  { unfold INFINITE. split; [apply Z.div_pos; lia | apply Z.div_lt_upper_bound; lia]. }
  destruct Hst as [Hst | (Hst & Hretry & Hk)].
  - rewrite renewal_idle by (rewrite ?Hst; lia).
    unfold lease_running. tests. unfold INFINITE. repeat split; try assumption; lia.
  - destruct (renewal_expiry r Hlink Hst Hcnt) as (b & Heq & _).
    rewrite Heq. cbv zeta. rewrite Hretry.
    assert (Hw : wrap8 (Z.of_nat k + 1) = Z.of_nat (S k)) by (rewrite wrap8_small by lia; lia).
    rewrite Hw. rewrite set_dhcp_renew_timer_eq. tests.
    unfold lease_running.
    destruct (Z.gtb_spec (Z.of_nat (S k)) 3) as [Hgt | Hle];
      destruct (Z.eqb_spec (dhcp_opt_leasetime r / 8) 0) as [Hz | Hnz]; tests;
      repeat split; try assumption; try lia; auto;
      right; repeat split; lia.
Qed.

Lemma lease_running_iter s :
  lease_running 0 s -> forall k, lease_running k (Nat.iter k unanswered_renewal s).
Proof.
  intros Hs. induction k as [| k IH]; [exact Hs |].
  rewrite Nat.iter_succ. apply lease_running_step, IH.
Qed.

(** Four unanswered expiries of the renewal countdown lose the lease. *)
Lemma four_renewals_lose_lease s :
  lease_running 0 s -> dhcp_state (Nat.iter 4 unanswered_renewal s) = INIT.
Proof.
  intros Hs. destruct (lease_running_iter s Hs 4%nat) as (_ & _ & _ & [Hi | (_ & _ & Hk)]);
    [exact Hi | lia].
Qed.

Lemma rebinding_after_reads s k r :
  rebinding_after s k r ->
  dhcp_state r = REBINDING /\
  dhcp_cnt_down r = dhcp_opt_leasetime s / 8 /\
  dhcp_tid r = wrap8 (dhcp_tid s + Z.of_nat k) /\
  broadcast r = true /\
  length (sent r) = (length (sent s) + k)%nat /\
  exists f rest, sent r = f :: rest /\
                 is_renew_request (dhcp_tid r) (rdn (dhcp_yiaddr s) 0 4) f.
Proof.
  intros (_ & Hs & _ & _ & _ & Hc & Ht & Hbr & _ & Hse & Hfr). auto 10.
Qed.

(** ** Theorems on the lease state machine *)

(** C3, as the code has it: on a correlated acknowledgment (message type 5)
    handed to the initial assignment with the link up and no lease held,
    the options of the acknowledgment are not read: mask, gateway, name
    server, server identifier and lease time stay as held (as the offer set
    them); the address field of the packet is taken when its first byte is
    not 0.  The retry counter is 0, the renewal countdown is half of the
    lease time held, the state is BOUND when that half is not 0 (INIT when
    it is), broadcast reception is off, nothing is sent, and the result is
    1. *)
Theorem C3_ack_binds_with_held_options (plen : Z) (m : machine) :
  enc28j60linkup m = true -> dhcp_state m <= 2 -> plen <> 0 ->
  correlated plen m -> dhcp_get_message_type plen m = 5 ->
  let r := packetloop_dhcp_initial_ip_assignment plen m in
  fst r = 1 /\
  dhcp_opt_mask (snd r) = dhcp_opt_mask m /\
  dhcp_opt_defaultgw (snd r) = dhcp_opt_defaultgw m /\
  dhcp_opt_dns (snd r) = dhcp_opt_dns m /\
  dhcp_opt_server_id (snd r) = dhcp_opt_server_id m /\
  dhcp_opt_leasetime (snd r) = dhcp_opt_leasetime m /\
  dhcp_yiaddr (snd r) =
    (if rd (buf m) (UDP_DATA_P + 16) =? 0 then dhcp_yiaddr m
     else rdn (buf m) (UDP_DATA_P + 16) 4) /\
  dhcp_tid (snd r) = dhcp_tid m /\
  dhcp_retry (snd r) = 0 /\
  dhcp_cnt_down (snd r) = dhcp_opt_leasetime m / 2 /\
  dhcp_state (snd r) = (if dhcp_opt_leasetime m / 2 =? 0 then INIT else BOUND) /\
  broadcast (snd r) = false /\
  sent (snd r) = sent m.
Proof.
  intros Hlink Hst Hplen Hcor Hcmd r. unfold r.
  rewrite (initial_ack plen m Hlink Hst Hplen Hcor Hcmd).
  cbn [fst snd]. rewrite set_dhcp_renew_timer_eq. unfold take_yiaddr.
  destruct (rd (buf m) (UDP_DATA_P + 16) =? 0);
    tests; destruct (dhcp_opt_leasetime m / 2 =? 0); tests; auto 15.
Qed.

(** C4: (1) a correlated acknowledgment at either entry point that leaves
    the client in BOUND, holding a lease of [L] seconds, leaves the renewal
    countdown at [L/2]; (2) with [L >= 8], the first three expiries of the
    renewal countdown on a poll without a packet each leave the client
    REBINDING with the countdown at [L/8], the transaction identifier one
    higher, broadcast reception on, and one more frame sent, a renewal
    request for the new identifier from the held address; (3) after four
    unanswered expiries the lease state is INIT. *)
Theorem C4_renewal_schedule (plen : Z) (m s : machine) :
  enc28j60linkup m = true -> plen <> 0 ->
  correlated plen m -> dhcp_get_message_type plen m = 5 ->
  0 <= dhcp_tid m < 256 ->
  UDP_DATA_P + DHCP_OPTION_OFFSET + 3 <= Z.of_nat (length (buf m)) ->
  (dhcp_state m <= 2 /\ s = snd (packetloop_dhcp_initial_ip_assignment plen m)) \/
  (3 <= dhcp_state m /\ s = snd (packetloop_dhcp_renewhandler plen m)) ->
  dhcp_state s = BOUND ->
  0 <= dhcp_opt_leasetime s < 4294967296 ->
  let L := dhcp_opt_leasetime s in
  dhcp_cnt_down s = L / 2 /\
  (8 <= L ->
   forall k, (1 <= k <= 3)%nat ->
     let r := Nat.iter k unanswered_renewal s in
     dhcp_state r = REBINDING /\
     dhcp_cnt_down r = L / 8 /\
     dhcp_tid r = wrap8 (dhcp_tid s + Z.of_nat k) /\
     broadcast r = true /\
     length (sent r) = (length (sent s) + k)%nat /\
     exists f rest, sent r = f :: rest /\
                    is_renew_request (dhcp_tid r) (rdn (dhcp_yiaddr s) 0 4) f) /\
  dhcp_state (Nat.iter 4 unanswered_renewal s) = INIT.
Proof.
  intros Hlink Hplen Hcor Hcmd Htid Hbuf Hway Hbound HL. cbv zeta.
  destruct (after_ack_timer plen m s Hlink Hplen Hcor Hcmd Hway)
    as (Hl & Hretry & Hcnt & Ht & Hb & _ & _ & _).
  assert (Hhalf : 0 <= dhcp_opt_leasetime s / 2 < INFINITE).
  { unfold INFINITE. split; [apply Z.div_pos; lia | apply Z.div_lt_upper_bound; lia]. }
  split; [exact Hcnt |]. split.
  - intros HL8 k Hk.
    destruct k as [| k]; [lia |].
    apply (rebinding_after_reads s (S k)).
    apply rebinding_iter;
      [ rewrite Hb; exact Hbuf | lia | rewrite Ht; exact Htid | exact Hl | exact Hbound
      | exact Hretry | exact Hcnt | lia ].
  - apply four_renewals_lose_lease. unfold lease_running.
    repeat split; try assumption; lia.
Qed.

(** C5, where the code departs from the claim: a countdown of 0 is not
    held at 0 by [dhcp_tick]; the decrement wraps to the all-ones value, the
    one that stands for "never expires" (and is then left alone).  At
    power-on the countdown is 0, so the first tick already does this. *)
Theorem C5_dhcp_tick_wraps_at_zero (m : machine) :
  dhcp_tick (with_dhcp_cnt_down 0 m) = with_dhcp_cnt_down INFINITE m /\
  dhcp_tick (with_dhcp_cnt_down INFINITE m) = with_dhcp_cnt_down INFINITE m /\
  dhcp_cnt_down (elapse 2 (with_dhcp_cnt_down 1 m)) = INFINITE.
Proof. repeat split; reflexivity. Qed.

(** C6: a correlated negative acknowledgment (message type 6) received in
    REQUESTING (by the initial assignment, the link being up) or in
    REBINDING (by the renewal handler) puts the lease state to INIT at once;
    nothing else changes but the address taken from the packet, nothing is
    sent, and the value returned is 0, as for any packet that brought no
    lease: no error value goes up. *)
Theorem C6_nak_returns_to_init (plen : Z) (m : machine) :
  plen <> 0 -> correlated plen m -> dhcp_get_message_type plen m = 6 ->
  (dhcp_state m = REQUESTING -> enc28j60linkup m = true ->
   packetloop_dhcp_initial_ip_assignment plen m = (0, with_dhcp_state INIT (take_yiaddr m)) /\
   dhcp_state (snd (packetloop_dhcp_initial_ip_assignment plen m)) = INIT) /\
  (dhcp_state m = REBINDING ->
   packetloop_dhcp_renewhandler plen m = (0, with_dhcp_state INIT (take_yiaddr m)) /\
   dhcp_state (snd (packetloop_dhcp_renewhandler plen m)) = INIT).
Proof.
  intros Hplen Hcor Hcmd. split.
  - intros Hst Hlink.
    rewrite (initial_nak plen m Hlink ltac:(lia) Hplen Hcor Hcmd). split; reflexivity.
  - intros Hst.
    rewrite (renew_nak plen m ltac:(lia) Hplen Hcor Hcmd). split; reflexivity.
Qed.

(** C8, as the code has it: [set_dhcp_renew_timer] called with the lease
    time held below its divisor puts the lease state to INIT; so a
    correlated acknowledgment received by the initial assignment while the
    lease time held (the one of the offer; the acknowledgment's own is not
    read) is 0 or 1 second makes it return 1 with the lease state INIT. *)
Theorem C8_zero_quotient_reinitializes (divisor plen : Z) (m : machine) :
  (0 <= dhcp_opt_leasetime m < divisor ->
   dhcp_state (set_dhcp_renew_timer divisor m) = INIT) /\
  (enc28j60linkup m = true -> dhcp_state m <= 2 -> plen <> 0 ->
   correlated plen m -> dhcp_get_message_type plen m = 5 ->
   dhcp_opt_leasetime m = 0 \/ dhcp_opt_leasetime m = 1 ->
   fst (packetloop_dhcp_initial_ip_assignment plen m) = 1 /\
   dhcp_state (snd (packetloop_dhcp_initial_ip_assignment plen m)) = INIT).
Proof.
  split.
  - intros Hsmall. rewrite set_dhcp_renew_timer_eq.
    rewrite Z.div_small by exact Hsmall. reflexivity.
  - intros Hlink Hst Hplen Hcor Hcmd Hlease.
    rewrite (initial_ack plen m Hlink Hst Hplen Hcor Hcmd). cbn [fst snd].
    split; [reflexivity |]. rewrite set_dhcp_renew_timer_eq.
    destruct (take_yiaddr_keeps m) as (_ & _ & _ & _ & Hl & _).
    tests. rewrite Hl. destruct Hlease as [-> | ->]; reflexivity.
Qed.

(** * Further properties of the client *)

Lemma initial_poll_idle m :
  dhcp_cnt_down m <> 0 -> dhcp_state m <> INIT ->
  packetloop_dhcp_initial_ip_assignment 0 m = (0, m).
Proof.
  intros Hcnt Hst.
  unfold packetloop_dhcp_initial_ip_assignment, is_dhcp_cnt_down_zero.
  destruct (negb (enc28j60linkup m)); [reflexivity |].
  destruct (dhcp_state m >? 2); [reflexivity |].
  cbn [Z.eqb].
  destruct (Z.eqb_spec (dhcp_state m) 0); [contradiction |].
  destruct (Z.eqb_spec (dhcp_cnt_down m) 0); [contradiction | reflexivity].
Qed.

Lemma renew_poll_idle m :
  dhcp_cnt_down m <> 0 -> packetloop_dhcp_renewhandler 0 m = (0, m).
Proof.
  intros Hcnt.
  unfold packetloop_dhcp_renewhandler, is_dhcp_cnt_down_zero.
  destruct (dhcp_state m <? 3); [reflexivity |].
  destruct (Z.eqb_spec (dhcp_cnt_down m) 0); [contradiction |].
  cbn [Z.eqb andb].
  rewrite is_dhcp_msg_for_me_short; [reflexivity |].
  pose proof UDP_DATA_P_pos. unfold DHCP_OPTION_OFFSET. lia.
Qed.

(** X1: a poll without a packet while the countdown is not 0 changes
    nothing and sends nothing, at both entry points (at the initial
    assignment once it has left INIT). *)
Theorem X1_poll_before_expiry_is_idle (m : machine) :
  dhcp_cnt_down m <> 0 -> dhcp_state m <> INIT ->
  packetloop_dhcp_initial_ip_assignment 0 m = (0, m) /\
  packetloop_dhcp_renewhandler 0 m = (0, m).
Proof.
  intros Hcnt Hst. split; [apply initial_poll_idle | apply renew_poll_idle]; assumption.
Qed.

Lemma elapse_infinite n : forall m, dhcp_cnt_down m = INFINITE -> elapse n m = m.
Proof.
  induction n as [| n IH]; intros m Hc; [reflexivity |].
  cbn [elapse]. rewrite dhcp_tick_infinite by exact Hc. apply IH, Hc.
Qed.

(** X2: a renewal that comes due while the link is down is lost: the poll
    does nothing, the next tick takes the countdown from 0 to the all-ones
    value, and from then on, however many seconds pass and whatever the
    link does, a poll without a packet changes nothing and sends nothing. *)
Theorem X2_renewal_due_with_link_down_is_lost (m : machine) (n : nat) (l : bool) :
  3 <= dhcp_state m -> dhcp_cnt_down m = 0 -> enc28j60linkup m = false ->
  packetloop_dhcp_renewhandler 0 m = (0, m) /\
  dhcp_cnt_down (elapse (S n) m) = INFINITE /\
  packetloop_dhcp_renewhandler 0 (with_link l (elapse (S n) m)) =
    (0, with_link l (elapse (S n) m)).
Proof.
  intros Hst Hcnt Hlink.
  assert (Hlate : elapse (S n) m = with_dhcp_cnt_down INFINITE m).
  { cbn [elapse].
    assert (Htick : dhcp_tick m = with_dhcp_cnt_down INFINITE m).
    { unfold dhcp_tick. rewrite Hcnt. reflexivity. }
    rewrite Htick. apply elapse_infinite. reflexivity. }
  split; [| split].
  - unfold packetloop_dhcp_renewhandler, is_dhcp_cnt_down_zero.
    destruct (Z.ltb_spec (dhcp_state m) 3); [lia |].
    rewrite Hcnt, Hlink. reflexivity.
  - rewrite Hlate. reflexivity.
  - rewrite Hlate. apply renew_poll_idle. unfold INFINITE. cbn. discriminate.
Qed.

(** X3: the all-ones countdown is never counted down; a finite countdown
    of [c] seconds is [c - k] after [k <= c] ticks, nothing else changes,
    and it reads zero at the [c]-th tick and at no earlier one. *)
Theorem X3_countdown_runs_for_its_value (m : machine) (k : nat) :
  (dhcp_cnt_down m = INFINITE -> elapse k m = m) /\
  (0 <= dhcp_cnt_down m < INFINITE -> Z.of_nat k <= dhcp_cnt_down m ->
   elapse k m = with_dhcp_cnt_down (dhcp_cnt_down m - Z.of_nat k) m /\
   (is_dhcp_cnt_down_zero (elapse k m) = true <-> Z.of_nat k = dhcp_cnt_down m)).
Proof.
  split; [apply elapse_infinite |].
  intros Hc Hk. rewrite elapse_finite by lia. split; [reflexivity |].
  unfold is_dhcp_cnt_down_zero. cbn [dhcp_cnt_down with_dhcp_cnt_down].
  rewrite Z.eqb_eq. lia.
Qed.

(** X4: with a divisor of 2 or more the renewal timer is at most
    2147483647, never the all-ones value that would not expire; a lease
    time of "infinity" (all ones) is scheduled for renewal like any other,
    after 2147483647 seconds. *)
Theorem X4_renew_timer_is_finite (divisor : Z) (m : machine) :
  2 <= divisor -> 0 <= dhcp_opt_leasetime m <= INFINITE ->
  0 <= dhcp_cnt_down (set_dhcp_renew_timer divisor m) <= 2147483647 /\
  dhcp_cnt_down (set_dhcp_renew_timer divisor m) <> INFINITE /\
  (dhcp_opt_leasetime m = INFINITE ->
   set_dhcp_renew_timer 2 m = with_dhcp_cnt_down 2147483647 m).
Proof.
  intros Hd HL. rewrite set_dhcp_renew_timer_eq. unfold INFINITE in *.
  assert (Hq : 0 <= dhcp_opt_leasetime m / divisor <= 2147483647).
  { split; [apply Z.div_pos; lia |].
    apply Z.lt_succ_r. apply Z.div_lt_upper_bound; nia. }
  split; [| split].
  - destruct (_ =? 0); cbn [dhcp_cnt_down with_dhcp_state with_dhcp_cnt_down]; exact Hq.
  - destruct (_ =? 0); cbn [dhcp_cnt_down with_dhcp_state with_dhcp_cnt_down]; lia.
  - intros Hinf. rewrite set_dhcp_renew_timer_eq, Hinf. reflexivity.
Qed.

(** X5: [dhcp_option_parser] writes the six option variables and nothing
    else: address, transaction identifier, countdown, retry counter, lease
    state, buffer, link, broadcast setting and frames sent are as before,
    whatever the packet holds; its result is 0 for a packet too short to
    hold an option and 1 otherwise. *)
Theorem X5_option_parser_writes_options_only (plen : Z) (m : machine) :
  beside_options (snd (dhcp_option_parser plen m)) = beside_options m /\
  fst (dhcp_option_parser plen m) =
    (if plen <? UDP_DATA_P + DHCP_OPTION_OFFSET + 3 then 0 else 1).
Proof.
  split; [apply dhcp_option_parser_beside |].
  unfold dhcp_option_parser. destruct (plen <? _); reflexivity.
Qed.

(** X6: for a packet of at most 65000 bytes both option walks are over
    within [plen] turns of their loop: run for any larger number of turns
    they give the same result. *)
Theorem X6_option_walks_end_within_plen_turns (plen : Z) (m : machine) (fuel : nat) :
  plen <= 65000 -> (Z.to_nat plen <= fuel)%nat ->
  dhcp_get_message_type plen m =
    (if plen <? UDP_DATA_P + DHCP_OPTION_OFFSET + 3 then 0
     else get_message_type_loop fuel (buf m) plen (UDP_DATA_P + DHCP_OPTION_OFFSET)) /\
  dhcp_option_parser plen m =
    (if plen <? UDP_DATA_P + DHCP_OPTION_OFFSET + 3 then (0, m)
     else (1, option_parser_loop fuel (buf m) plen (UDP_DATA_P + DHCP_OPTION_OFFSET) m)).
Proof.
  intros Hplen Hfuel. split.
  - apply get_message_type_loop_fuel; assumption.
  - apply option_parser_loop_fuel; assumption.
Qed.

Lemma take_yiaddr_none m :
  rd (buf m) (UDP_DATA_P + 16) = 0 -> take_yiaddr m = m.
Proof. intros Hz. unfold take_yiaddr. rewrite Hz. reflexivity. Qed.

(** X7: a correlated negative acknowledgment (whose address field is
    empty) gives up the lease in the state only: afterwards
    [dhcp_get_info] reports state 0, and [dhcp_get_my_ip] still returns the
    address, mask, gateway and name server of the lease that was lost. *)
Theorem X7_nak_keeps_the_lease_values (plen : Z) (m : machine) :
  plen <> 0 -> correlated plen m -> dhcp_get_message_type plen m = 6 ->
  rd (buf m) (UDP_DATA_P + 16) = 0 ->
  (dhcp_state m <= 2 -> enc28j60linkup m = true ->
   let m' := snd (packetloop_dhcp_initial_ip_assignment plen m) in
   dhcp_get_my_ip m' = dhcp_get_my_ip m /\
   dhcp_get_info m' = (0, dhcp_opt_server_id m, dhcp_opt_leasetime m)) /\
  (3 <= dhcp_state m ->
   let m' := snd (packetloop_dhcp_renewhandler plen m) in
   dhcp_get_my_ip m' = dhcp_get_my_ip m /\
   dhcp_get_info m' = (0, dhcp_opt_server_id m, dhcp_opt_leasetime m)).
Proof.
  intros Hplen Hcor Hcmd Hz. split.
  - intros Hst Hlink. cbv zeta.
    rewrite (initial_nak plen m Hlink Hst Hplen Hcor Hcmd).
    rewrite take_yiaddr_none by exact Hz. split; reflexivity.
  - intros Hst. cbv zeta.
    rewrite (renew_nak plen m Hst Hplen Hcor Hcmd).
    rewrite take_yiaddr_none by exact Hz. split; reflexivity.
Qed.

(** X8: a correlated reply that is neither an acknowledgment nor a negative
    acknowledgment (nor, at the initial assignment, an offer) causes no
    transition, yet it is taken (result 0) and its address field, when the
    first byte is not 0, replaces the address the client has recorded:
    with a lease held, a stray offer changes [dhcp_yiaddr]. *)
Theorem X8_other_reply_only_replaces_the_address (plen : Z) (m : machine) :
  plen <> 0 -> correlated plen m ->
  dhcp_get_message_type plen m <> 5 -> dhcp_get_message_type plen m <> 6 ->
  (3 <= dhcp_state m ->
   packetloop_dhcp_renewhandler plen m = (0, take_yiaddr m)) /\
  (dhcp_state m <= 2 -> enc28j60linkup m = true -> dhcp_get_message_type plen m <> 2 ->
   packetloop_dhcp_initial_ip_assignment plen m = (0, take_yiaddr m)) /\
  (rd (buf m) (UDP_DATA_P + 16) <> 0 ->
   take_yiaddr m = with_dhcp_yiaddr (rdn (buf m) (UDP_DATA_P + 16) 4) m).
Proof.
  intros Hplen Hcor H5 H6. split; [| split].
  - intros Hst. unfold packetloop_dhcp_renewhandler.
    destruct (Z.ltb_spec (dhcp_state m) 3); [lia |].
    destruct (Z.eqb_spec plen 0); [contradiction |]. cbn [andb].
    rewrite (is_dhcp_msg_for_me_correlated plen m Hcor).
    cbn [Z.eqb negb]. cbv zeta. rewrite dhcp_get_message_type_take_yiaddr.
    destruct (Z.eqb_spec (dhcp_get_message_type plen m) 5); [contradiction |].
    destruct (Z.eqb_spec (dhcp_get_message_type plen m) 6); [contradiction |].
    reflexivity.
  - intros Hst Hlink H2. unfold packetloop_dhcp_initial_ip_assignment.
    rewrite Hlink. cbn [negb].
    destruct (Z.gtb_spec (dhcp_state m) 2); [lia |].
    destruct (Z.eqb_spec plen 0); [contradiction |].
    rewrite (is_dhcp_msg_for_me_correlated plen m Hcor).
    cbn [Z.eqb negb]. cbv zeta. rewrite dhcp_get_message_type_take_yiaddr.
    destruct (Z.eqb_spec (dhcp_get_message_type plen m) 2); [contradiction |].
    destruct (Z.eqb_spec (dhcp_get_message_type plen m) 5); [contradiction |].
    destruct (Z.eqb_spec (dhcp_get_message_type plen m) 6); [contradiction |].
    reflexivity.
  - intros Hnz. unfold take_yiaddr.
    destruct (Z.eqb_spec (rd (buf m) (UDP_DATA_P + 16)) 0); [contradiction | reflexivity].
Qed.

(** ** The request frame *)

Lemma memcpy_app l1 : forall l2 b off,
  memcpy b off (l1 ++ l2) = memcpy (memcpy b off l1) (off + Z.of_nat (length l1)) l2.
Proof.
  induction l1 as [| x l1 IH]; intros l2 b off.
  - cbn [app memcpy length]. rewrite Z.add_0_r. reflexivity.
  - cbn [app memcpy length]. rewrite IH. f_equal. lia.
Qed.

Lemma rdn_memcpy b off l :
  0 <= off -> off + Z.of_nat (length l) <= Z.of_nat (length b) ->
  rdn (memcpy b off l) off (length l) = map wrap8 l.
Proof.
  intros Hoff Hfit. apply rdn_char; [apply length_map |].
  intros k Hk. rewrite rd_memcpy_in by assumption.
  change 0 with (wrap8 0) at 2. rewrite map_nth. reflexivity.
Qed.

Lemma map_wrap8_bytes l : Forall (fun x => 0 <= x < 256) l -> map wrap8 l = l.
Proof.
  induction 1 as [| x l Hx _ IH]; [reflexivity |].
  cbn [map]. rewrite IH, wrap8_small by exact Hx. reflexivity.
Qed.

Lemma Forall_rdn b n : forall i, Forall (fun x => 0 <= x < 256) (rdn b i n).
Proof.
  induction n as [| n IH]; intros i; cbn [rdn]; constructor; [apply rd_byte | apply IH].
Qed.

Lemma make_dhcp_opt_ip_memcpy off opt src m :
  make_dhcp_opt_ip off opt src m =
    if rd src 0 =? 0 then (0, m)
    else (6, with_buf (memcpy (buf m) off (opt :: 4 :: rdn src 0 4)) m).
Proof.
  unfold make_dhcp_opt_ip. destruct (rd src 0 =? 0); [reflexivity |].
  cbn [negb]. cbv zeta. cbn [memcpy]. do 2 f_equal.
  rewrite <- !Z.add_assoc. reflexivity.
Qed.

Lemma request_options_bytes m : Forall (fun x => 0 <= x < 256) (request_options m).
Proof.
  unfold request_options, param_req_lst_end_of_opt, DHCP_REQUEST_V.
  repeat apply Forall_app_2.
  - repeat constructor; lia.
  - destruct (_ =? 0); [constructor |]. repeat (constructor; [lia |]). apply Forall_rdn.
  - destruct (_ =? 0); [constructor |]. repeat (constructor; [lia |]). apply Forall_rdn.
  - repeat constructor; lia.
Qed.

Lemma length_request_options m :
  (10 <= length (request_options m) <= 22)%nat.
Proof.
  unfold request_options, param_req_lst_end_of_opt.
  rewrite !length_app.
  destruct (_ =? 0); destruct (_ =? 0); cbn [length]; rewrite ?length_rdn; lia.
Qed.

Lemma memcpy_then b off l1 off2 l2 :
  off2 = off + Z.of_nat (length l1) ->
  memcpy (memcpy b off l1) off2 l2 = memcpy b off (l1 ++ l2).
Proof. intros ->. symmetry. apply memcpy_app. Qed.

Ltac eval_wrap8 :=
  repeat match goal with
         | |- context [wrap8 (?a + ?b)] =>
             let v := eval vm_compute in (wrap8 (a + b)) in
             change (wrap8 (a + b)) with v
         end.

(** The buffer that [send_dhcp_request] leaves and sends: the template
    with the options trailer written behind it. *)
Lemma send_dhcp_request_eq m :
  snd (send_dhcp_request m) =
    (let b := memcpy (buf (make_dhcp_message_template m))
                (UDP_DATA_P + DHCP_OPTION_OFFSET) (request_options m) in
     with_sent ((b, DHCP_OPTION_OFFSET + Z.of_nat (length (request_options m)) - 1) :: sent m)
       (with_buf b m)).
Proof.
  unfold send_dhcp_request. cbv zeta. rewrite put_message_type_memcpy.
  rewrite make_dhcp_opt_ip_memcpy.
  unfold request_options, send_udp_transmit.
  replace (dhcp_opt_server_id (with_buf _ (make_dhcp_message_template m)))
    with (dhcp_opt_server_id m) by reflexivity.
  destruct (rd (dhcp_opt_server_id m) 0 =? 0) eqn:Hs;
    rewrite make_dhcp_opt_ip_memcpy;
    repeat match goal with
           | |- context [dhcp_yiaddr (with_buf ?b ?x)] =>
               change (dhcp_yiaddr (with_buf b x)) with (dhcp_yiaddr x)
           | |- context [dhcp_yiaddr (make_dhcp_message_template m)] =>
               change (dhcp_yiaddr (make_dhcp_message_template m)) with (dhcp_yiaddr m)
           end;
    destruct (rd (dhcp_yiaddr m) 0 =? 0) eqn:Hy;
    cbn [fst snd]; rewrite !buf_with_buf; eval_wrap8;
    repeat rewrite memcpy_then
      by (rewrite ?length_app; cbn [length]; rewrite ?length_rdn; lia);
    rewrite <- ?app_assoc; cbn [app];
    unfold param_req_lst_end_of_opt;
    repeat (progress (rewrite ?length_app; cbn [length]; rewrite ?length_rdn)).
  all: match goal with
       | |- with_sent ((?b, ?n1) :: _) _ = with_sent ((_, ?n2) :: _) _ =>
           replace n2 with n1 by lia; generalize b; intros bb
       end.
  all: destruct m; reflexivity.
Qed.

Lemma request_frame_content m :
  UDP_DATA_P + DHCP_OPTION_OFFSET + 22 <= Z.of_nat (length (buf m)) ->
  let b := memcpy (buf (make_dhcp_message_template m))
             (UDP_DATA_P + DHCP_OPTION_OFFSET) (request_options m) in
  length b = length (buf m) /\
  rd b UDP_DATA_P = 1 /\
  rdn b (UDP_DATA_P + 4) 4 = repeat (wrap8 (dhcp_tid m)) 4 /\
  rdn b (UDP_DATA_P + DHCP_OPTION_OFFSET) (length (request_options m)) = request_options m.
Proof.
  intros Hbuf. cbv zeta.
  pose proof (length_request_options m) as Hlen.
  pose proof UDP_DATA_P_pos as Hp. unfold DHCP_OPTION_OFFSET in *.
  split; [| split; [| split]].
  - rewrite length_memcpy. apply length_make_dhcp_message_template.
  - rewrite rd_memcpy_out by lia. apply template_op. unfold DHCP_OPTION_OFFSET. lia.
  - apply rdn_char; [reflexivity |]. intros k Hk.
    rewrite rd_memcpy_out by lia.
    rewrite template_tid by (unfold DHCP_OPTION_OFFSET; lia).
    do 4 (destruct k as [| k]; [reflexivity |]). lia.
  - rewrite rdn_memcpy; [apply map_wrap8_bytes, request_options_bytes | lia |].
    rewrite length_make_dhcp_message_template. lia.
Qed.

(** X10: [send_dhcp_request] changes the buffer and the frames sent only;
    it sends one frame, a boot request for the outstanding transaction
    whose options are the message type DHCPREQUEST, the server identifier
    and the requested address, each left out when its first byte is 0, and
    the parameter request list; the payload length counts the options
    without the byte after the end mark. *)
Theorem X10_request_names_server_and_address (m : machine) :
  UDP_DATA_P + DHCP_OPTION_OFFSET + 22 <= Z.of_nat (length (buf m)) ->
  exists b,
    send_dhcp_request m =
      (0, with_sent ((b, DHCP_OPTION_OFFSET + Z.of_nat (length (request_options m)) - 1)
                       :: sent m) (with_buf b m)) /\
    length b = length (buf m) /\
    rd b UDP_DATA_P = 1 /\
    rdn b (UDP_DATA_P + 4) 4 = repeat (wrap8 (dhcp_tid m)) 4 /\
    rdn b (UDP_DATA_P + DHCP_OPTION_OFFSET) (length (request_options m)) = request_options m.
Proof.
  intros Hbuf.
  exists (memcpy (buf (make_dhcp_message_template m))
            (UDP_DATA_P + DHCP_OPTION_OFFSET) (request_options m)).
  split; [| exact (request_frame_content m Hbuf)].
  pose proof (send_dhcp_request_eq m) as Heq. cbv zeta in Heq.
  rewrite <- Heq. unfold send_dhcp_request. cbv zeta.
  repeat match goal with
         | |- context [let '(_, _) := ?x in _] => destruct x
         end.
  reflexivity.
Qed.

(** ** Options as the parser sees them *)







(** ** The lease time option *)

Lemma land_shifted_byte k b : 0 <= b < 256 -> Z.land (k * 256) b = 0.
Proof.
  intros Hb. apply Z.bits_inj'. intros n Hn.
  rewrite Z.land_spec, Z.bits_0.
  destruct (Z.lt_ge_cases n 8).
  - replace (k * 256) with (k * 2 ^ 8) by lia.
    rewrite Z.mul_pow2_bits_low by lia. reflexivity.
  - rewrite (Z.bits_above_log2 b n); [apply andb_false_r | lia |].
    destruct (Z.eq_dec b 0) as [-> | Hnz]; [cbn; lia |].
    apply Z.lt_le_trans with 8; [| lia].
    apply Z.log2_lt_pow2; lia.
Qed.

Lemma lor_shifted_byte k b : 0 <= b < 256 -> Z.lor (k * 256) b = k * 256 + b.
Proof.
  intros Hb. rewrite <- Z.lxor_lor by (apply land_shifted_byte; exact Hb).
  symmetry. apply Z.add_nocarry_lxor, land_shifted_byte, Hb.
Qed.

(** One turn of the lease time loop: the old value moves up by a byte
    (losing its top byte) and the new byte comes in below. *)
Lemma shift_in_byte lt b :
  0 <= b < 256 ->
  Z.lor (wrap32 (Z.shiftl lt 8)) b = (lt * 256) mod 4294967296 + b.
Proof.
  intros Hb. unfold wrap32. rewrite Z.shiftl_mul_pow2 by lia.
  change (2 ^ 8) with 256.
  change 4294967296 with (16777216 * 256).
  rewrite Z.mul_mod_distr_r by lia.
  apply lor_shifted_byte, Hb.
Qed.

Lemma lease_time_loop b option_idx lt :
  0 <= option_idx <= 65000 ->
  fold_left (fun lt i => Z.lor (wrap32 (Z.shiftl lt 8)) (rd b (wrap16 (option_idx + i + 2))))
    [0; 1; 2; 3] lt =
  be32 (rd b (option_idx + 2)) (rd b (option_idx + 3))
       (rd b (option_idx + 4)) (rd b (option_idx + 5)).
Proof.
  intros Hidx. cbn [fold_left].
  rewrite !wrap16_small by lia.
  replace (option_idx + 0 + 2) with (option_idx + 2) by lia.
  replace (option_idx + 1 + 2) with (option_idx + 3) by lia.
  replace (option_idx + 2 + 2) with (option_idx + 4) by lia.
  replace (option_idx + 3 + 2) with (option_idx + 5) by lia.
  pose proof (rd_byte b (option_idx + 2)) as H0.
  pose proof (rd_byte b (option_idx + 3)) as H1.
  pose proof (rd_byte b (option_idx + 4)) as H2.
  pose proof (rd_byte b (option_idx + 5)) as H3.
  rewrite !shift_in_byte by assumption.
  unfold be32.
  generalize dependent (rd b (option_idx + 2)). intros b0 H0.
  generalize dependent (rd b (option_idx + 3)). intros b1 H1.
  generalize dependent (rd b (option_idx + 4)). intros b2 H2.
  generalize dependent (rd b (option_idx + 5)). intros b3 H3.
  Z.div_mod_to_equations. lia.
Qed.

(** X12: a packet whose options trailer begins with the lease time option
    (code 51, length 4) and holds no further option: the parser stores the
    four value bytes as one number, the first byte the most significant,
    and nothing is left of the lease time held before.  The option is taken
    as soon as [plen] reaches the index of its last byte, [offset + 5]. *)
Theorem X12_lease_time_is_read_big_endian (plen : Z) (m : machine) :
  let off := UDP_DATA_P + DHCP_OPTION_OFFSET in
  off + 5 <= plen <= off + 8 -> plen <= 65000 ->
  rd (buf m) off = 51 -> rd (buf m) (off + 1) = 4 ->
  dhcp_option_parser plen m =
    (1, with_dhcp_opt_leasetime
          (be32 (rd (buf m) (off + 2)) (rd (buf m) (off + 3))
                (rd (buf m) (off + 4)) (rd (buf m) (off + 5))) m).
Proof.
  cbv zeta. intros Hplen Hmax Hcode Hlen.
  pose proof UDP_DATA_P_pos as Hp. unfold DHCP_OPTION_OFFSET in *.
  set (off := UDP_DATA_P + 240) in *.
  unfold dhcp_option_parser, DHCP_OPTION_OFFSET. fold off.
  destruct (Z.ltb_spec plen (off + 3)); [lia |]. f_equal.
  destruct (Z.to_nat plen) as [| [| fuel]] eqn:Hfuel; [lia | lia |].
  cbn [option_parser_loop].
  assert (E1 : add16 off 1 = off + 1) by (unfold add16; apply wrap16_small; lia).
  assert (E2 : add16 off 2 = off + 2) by (unfold add16; apply wrap16_small; lia).
  rewrite E1, E2, Hlen.
  destruct (Z.ltb_spec (off + 2) plen); [| lia].
  rewrite (wrap16_small (off + 4 + 1)) by lia.
  destruct (Z.gtb_spec (off + 4 + 1) plen); [lia |].
  cbn [Z.ltb Z.compare Pos.compare Pos.compare_cont orb].
  unfold option_case. rewrite Hcode. cbn [Z.eqb Pos.eqb].
  rewrite lease_time_loop by lia.
  rewrite (wrap16_small (off + 2 + 4)) by lia.
  assert (E3 : add16 (off + 2 + 4) 2 = off + 8) by (unfold add16; rewrite wrap16_small; lia).
  rewrite E3.
  destruct (Z.ltb_spec (off + 8) plen); [lia | reflexivity].
Qed.

(** ** Reading back what was built *)

Lemma message_type_first b plen option_idx t fuel :
  0 <= option_idx -> option_idx + 2 < plen -> plen <= 65000 ->
  rdn b option_idx 3 = [0x35; 1; t] ->
  get_message_type_loop (S fuel) b plen option_idx = t.
Proof.
  intros Hidx Hfit Hmax Hbytes. cbn [rdn] in Hbytes.
  injection Hbytes as Hcode Hlen Hval.
  replace (option_idx + 1 + 1) with (option_idx + 2) in Hval by lia.
  cbn [get_message_type_loop].
  assert (E1 : add16 option_idx 1 = option_idx + 1) by (unfold add16; apply wrap16_small; lia).
  assert (E2 : add16 option_idx 2 = option_idx + 2) by (unfold add16; apply wrap16_small; lia).
  rewrite E1, E2, Hlen, Hcode, Hval.
  destruct (Z.ltb_spec (option_idx + 2) plen); [| lia].
  rewrite (wrap16_small (option_idx + 1 + 1)) by lia.
  destruct (Z.gtb_spec (option_idx + 1 + 1) plen); [lia |]. reflexivity.
Qed.

Lemma message_type_of_frame b plen t m :
  UDP_DATA_P + DHCP_OPTION_OFFSET + 3 <= plen -> plen <= 65000 ->
  rdn b (UDP_DATA_P + DHCP_OPTION_OFFSET) 3 = [0x35; 1; t] ->
  dhcp_get_message_type plen (with_buf b m) = t.
Proof.
  intros Hlen Hmax Hbytes. unfold dhcp_get_message_type.
  pose proof UDP_DATA_P_pos as Hp. unfold DHCP_OPTION_OFFSET in *.
  destruct (Z.ltb_spec plen (UDP_DATA_P + 240 + 3)); [lia |].
  destruct (Z.to_nat plen) as [| fuel] eqn:Hfuel; [lia |].
  rewrite buf_with_buf. apply message_type_first; try assumption; lia.
Qed.

(** X11: the frame that each of the three senders leaves in the buffer,
    read back with [dhcp_get_message_type] over its length, gives the
    message type it was built with: 1 for the discovery, 3 for the request
    and for the renewal request. *)
Theorem X11_message_type_reads_back (m : machine) :
  UDP_DATA_P + DHCP_OPTION_OFFSET + 22 <= Z.of_nat (length (buf m)) ->
  Z.of_nat (length (buf m)) <= 65000 ->
  dhcp_get_message_type (UDP_DATA_P + DHCP_OPTION_OFFSET + 9)
    (snd (send_dhcp_discover m)) = DHCP_DISCOVER_V /\
  dhcp_get_message_type
    (UDP_DATA_P + DHCP_OPTION_OFFSET + Z.of_nat (length (request_options m)) - 1)
    (snd (send_dhcp_request m)) = DHCP_REQUEST_V /\
  dhcp_get_message_type (UDP_DATA_P + DHCP_OPTION_OFFSET + 3)
    (snd (send_dhcp_renew_request m)) = DHCP_REQUEST_V.
Proof.
  intros Hbuf Hmax. pose proof UDP_DATA_P_pos as Hp.
  pose proof (length_request_options m) as Hlen.
  split; [| split].
  - destruct (send_dhcp_discover_frame m) as (b & Heq & _ & Hfr).
    destruct Hfr as (_ & _ & _ & Hopt & _); [unfold DHCP_OPTION_OFFSET in *; lia |].
    rewrite Heq.
    change (with_sent ((b, DHCP_OPTION_OFFSET + 9) :: sent m) (with_buf b m))
      with (with_buf b (with_sent ((b, DHCP_OPTION_OFFSET + 9) :: sent m) m)).
    apply message_type_of_frame; [unfold DHCP_OPTION_OFFSET in *; lia .. | exact Hopt].
  - rewrite send_dhcp_request_eq. cbv zeta.
    destruct (request_frame_content m Hbuf) as (_ & _ & _ & Hopt). cbv zeta in Hopt.
    match goal with
    | |- dhcp_get_message_type ?p (with_sent ?s (with_buf ?b m)) = _ =>
        change (with_sent s (with_buf b m)) with (with_buf b (with_sent s m));
        apply message_type_of_frame; [unfold DHCP_OPTION_OFFSET in *; lia .. |]
    end.
    apply rdn_char; [reflexivity |]. intros k Hk.
    assert (Hnth : nth k (rdn (memcpy (buf (make_dhcp_message_template m))
                                 (UDP_DATA_P + DHCP_OPTION_OFFSET) (request_options m))
                            (UDP_DATA_P + DHCP_OPTION_OFFSET)
                            (length (request_options m))) 0 =
                   nth k (request_options m) 0) by (rewrite Hopt; reflexivity).
    rewrite nth_rdn in Hnth by lia. rewrite Hnth.
    unfold request_options.
    do 3 (destruct k as [| k]; [reflexivity |]). lia.
  - destruct (send_dhcp_renew_request_frame m) as (b & Heq & _ & Hfr).
    destruct Hfr as (_ & _ & _ & _ & _ & Hopt); [unfold DHCP_OPTION_OFFSET in *; lia |].
    rewrite Heq.
    change (with_sent ((b, DHCP_OPTION_OFFSET + 3) :: sent m) (with_buf b m))
      with (with_buf b (with_sent ((b, DHCP_OPTION_OFFSET + 3) :: sent m) m)).
    apply message_type_of_frame; [unfold DHCP_OPTION_OFFSET in *; lia .. | exact Hopt].
Qed.

(** ** The acceptance test, and an acknowledgment seen by both entry points *)

Lemma is_dhcp_msg_for_me_cases plen m :
  (correlated plen m /\ is_dhcp_msg_for_me plen m = (1, take_yiaddr m)) \/
  (~ correlated plen m /\ is_dhcp_msg_for_me plen m = (0, m)).
Proof.
  destruct (Z.eq_dec (fst (is_dhcp_msg_for_me plen m)) 0) as [Hz | Hnz].
  - right. split.
    + intros Hc. apply is_dhcp_msg_for_me_iff in Hc. contradiction.
    + revert Hz. unfold is_dhcp_msg_for_me.
      repeat match goal with
             | |- context [if ?c then _ else _] => destruct c
             end; cbn [fst]; intros Hz; try reflexivity; discriminate Hz.
  - left. apply is_dhcp_msg_for_me_iff in Hnz. split; [exact Hnz |].
    apply is_dhcp_msg_for_me_correlated, Hnz.
Qed.

(** [is_dhcp_msg_for_me] returns 1 exactly for a packet of at least
    [UDP_DATA_P + 243] bytes that comes from port 67, is a boot reply and
    carries the outstanding transaction identifier in all four bytes, and 0
    otherwise; when it returns 0 nothing has changed, when it returns 1
    nothing but [dhcp_yiaddr] may have changed, which is then the address
    field of the packet if its first byte is not 0. *)
Lemma acceptance_test_reflects (plen : Z) (m : machine) :
  (fst (is_dhcp_msg_for_me plen m) = 1 <-> correlated plen m) /\
  (fst (is_dhcp_msg_for_me plen m) = 0 <-> ~ correlated plen m) /\
  snd (is_dhcp_msg_for_me plen m) =
    (if fst (is_dhcp_msg_for_me plen m) =? 0 then m
     else if rd (buf m) (UDP_DATA_P + 16) =? 0 then m
          else with_dhcp_yiaddr (rdn (buf m) (UDP_DATA_P + 16) 4) m).
Proof.
  destruct (is_dhcp_msg_for_me_cases plen m) as [(Hc & ->) | (Hn & ->)]; cbn [fst snd Z.eqb].
  - split; [split; auto |]. split; [split; [discriminate | intros Hn; contradiction] |].
    reflexivity.
  - split; [split; [discriminate | intros Hc; contradiction] |].
    split; [split; auto | reflexivity].
Qed.






(** ** One frame at most, for the transaction that is outstanding *)

Lemma discover_sent m p :
  sent p = sent m -> 0 <= dhcp_tid p < 256 ->
  UDP_DATA_P + DHCP_OPTION_OFFSET + 22 <= Z.of_nat (length (buf p)) ->
  at_most_one_frame m (snd (send_dhcp_discover p)).
Proof.
  intros Hs Ht Hbuf. right.
  destruct (send_dhcp_discover_frame p) as (b & Heq & _ & Hfr).
  destruct Hfr as (_ & _ & Htid & _); [unfold DHCP_OPTION_OFFSET in *; lia |].
  cbn [fst] in Htid.
  rewrite Heq. exists b, (DHCP_OPTION_OFFSET + 9).
  cbn [sent dhcp_tid with_sent with_buf]. rewrite Hs. split; [reflexivity |].
  rewrite Htid, (wrap8_small _ Ht). reflexivity.
Qed.

Lemma request_sent m p :
  sent p = sent m -> 0 <= dhcp_tid p < 256 ->
  UDP_DATA_P + DHCP_OPTION_OFFSET + 22 <= Z.of_nat (length (buf p)) ->
  at_most_one_frame m (snd (send_dhcp_request p)).
Proof.
  intros Hs Ht Hbuf. right.
  destruct (request_frame_content p Hbuf) as (_ & _ & Htid & _). cbv zeta in Htid.
  rewrite send_dhcp_request_eq. cbv zeta. eexists _, _.
  cbn [sent dhcp_tid with_sent with_buf]. rewrite Hs. split; [reflexivity |].
  rewrite Htid, (wrap8_small _ Ht). reflexivity.
Qed.

Lemma renew_request_sent m p :
  sent p = sent m -> 0 <= dhcp_tid p < 256 ->
  UDP_DATA_P + DHCP_OPTION_OFFSET + 22 <= Z.of_nat (length (buf p)) ->
  exists b n, send_dhcp_renew_request p = (0, with_sent ((b, n) :: sent m) (with_buf b p)) /\
              rdn b (UDP_DATA_P + 4) 4 = repeat (dhcp_tid p) 4.
Proof.
  intros Hs Ht Hbuf.
  destruct (send_dhcp_renew_request_frame p) as (b & Heq & _ & Hfr).
  destruct Hfr as (_ & _ & Htid & _); [unfold DHCP_OPTION_OFFSET in *; lia |].
  cbn [fst] in Htid.
  exists b, (DHCP_OPTION_OFFSET + 3). split.
  - rewrite <- Hs, <- Heq. reflexivity.
  - rewrite Htid, (wrap8_small _ Ht). reflexivity.
Qed.

Lemma wrap8_byte z : 0 <= wrap8 z < 256.
Proof. unfold wrap8. apply Z.mod_pos_bound. lia. Qed.

Lemma initial_at_most_one_frame plen m :
  0 <= dhcp_tid m < 256 ->
  UDP_DATA_P + DHCP_OPTION_OFFSET + 22 <= Z.of_nat (length (buf m)) ->
  at_most_one_frame m (snd (packetloop_dhcp_initial_ip_assignment plen m)).
Proof.
  intros Htid Hbuf. unfold packetloop_dhcp_initial_ip_assignment.
  destruct (negb (enc28j60linkup m)); [left; reflexivity |].
  destruct (dhcp_state m >? 2); [left; reflexivity |].
  destruct (plen =? 0).
  - destruct (dhcp_state m =? 0).
    + cbv zeta. cbn [snd]. apply discover_sent; [reflexivity | exact Htid | exact Hbuf].
    + destruct (_ && _); [| left; reflexivity]. cbv zeta.
      destruct (_ >? 32); [left; reflexivity |].
      destruct (_ =? 1); cbn [snd].
      * apply discover_sent; [reflexivity | apply wrap8_byte | exact Hbuf].
      * apply request_sent; [reflexivity | apply wrap8_byte | exact Hbuf].
  - destruct (is_dhcp_msg_for_me_cases plen m) as [(_ & ->) | (_ & ->)];
      [| left; reflexivity].
    cbn [Z.eqb negb]. cbv zeta.
    destruct (take_yiaddr_keeps m)
      as (_ & _ & _ & _ & _ & Ht & _ & _ & _ & _ & _ & Hs).
    pose proof (buf_take_yiaddr m) as Hb.
    destruct (Z.eqb_spec (dhcp_get_message_type plen (take_yiaddr m)) 2) as [E2 | _].
    + rewrite E2. cbn [Z.eqb Pos.eqb snd].
      match goal with
      | |- context [dhcp_option_parser plen ?x] =>
          pose proof (dhcp_option_parser_beside plen x) as Hbeside;
          set (p := snd (dhcp_option_parser plen x)) in *
      end.
      unfold beside_options in Hbeside. injection Hbeside as _ Htp _ _ _ Hbp _ _ Hsp.
      cbn [dhcp_tid buf sent set_dhcp_retry_timer with_dhcp_cnt_down with_dhcp_retry
           with_dhcp_state] in Htp, Hbp, Hsp.
      apply request_sent; [congruence | rewrite Htp, Ht; exact Htid |].
      rewrite Hbp, Hb. exact Hbuf.
    + destruct (_ =? 5); [left; cbn [snd]; rewrite set_dhcp_renew_timer_eq;
                          destruct (_ =? 0); exact Hs |].
      destruct (_ =? 6); left; exact Hs.
Qed.

Lemma renew_at_most_one_frame plen m :
  0 <= dhcp_tid m < 256 ->
  UDP_DATA_P + DHCP_OPTION_OFFSET + 22 <= Z.of_nat (length (buf m)) ->
  at_most_one_frame m (snd (packetloop_dhcp_renewhandler plen m)).
Proof.
  intros Htid Hbuf. unfold packetloop_dhcp_renewhandler.
  destruct (dhcp_state m <? 3); [left; reflexivity |].
  destruct (_ && _).
  - destruct (negb (enc28j60linkup m)); [left; reflexivity |]. cbv zeta.
    match goal with
    | |- context [send_dhcp_renew_request ?x] =>
        destruct (renew_request_sent m x) as (b & n & Heq & Hfr);
          [reflexivity | apply wrap8_byte | exact Hbuf |]
    end.
    rewrite Heq. cbn [snd]. right. exists b, n.
    rewrite set_dhcp_renew_timer_eq.
    destruct (_ =? 0); destruct (_ >? 3); split; first [reflexivity | exact Hfr].
  - destruct (is_dhcp_msg_for_me_cases plen m) as [(_ & ->) | (_ & ->)];
      [| left; reflexivity].
    cbn [Z.eqb negb]. cbv zeta.
    destruct (take_yiaddr_keeps m)
      as (_ & _ & _ & _ & _ & _ & _ & _ & _ & _ & _ & Hs).
    left. cbn [snd].
    destruct (_ =? 5).
    + match goal with
      | |- context [dhcp_option_parser plen ?x] =>
          pose proof (dhcp_option_parser_beside plen x) as Hbeside;
          set (p := snd (dhcp_option_parser plen x)) in *
      end.
      unfold beside_options in Hbeside. injection Hbeside as _ _ _ _ _ _ _ _ Hsp.
      cbn [sent enc28j60DisableBroadcast with_broadcast with_dhcp_retry with_dhcp_state]
        in Hsp.
      rewrite set_dhcp_renew_timer_eq.
      destruct (_ =? 0); destruct (_ =? 6); cbn [sent with_dhcp_state with_dhcp_cnt_down];
        congruence.
    + destruct (_ =? 6); exact Hs.
Qed.

(** X15: in one call, either entry point sends nothing or exactly one
    frame, and that frame carries in its four identifier bytes the
    transaction identifier that is outstanding when the call returns, the
    one a reply must carry to be accepted. *)
Theorem X15_one_frame_for_the_outstanding_transaction (plen : Z) (m : machine) :
  0 <= dhcp_tid m < 256 ->
  UDP_DATA_P + DHCP_OPTION_OFFSET + 22 <= Z.of_nat (length (buf m)) ->
  at_most_one_frame m (snd (packetloop_dhcp_initial_ip_assignment plen m)) /\
  at_most_one_frame m (snd (packetloop_dhcp_renewhandler plen m)).
Proof.
  intros Htid Hbuf. split.
  - apply initial_at_most_one_frame; assumption.
  - apply renew_at_most_one_frame; assumption.
Qed.

(** ** The client in the main loop *)

Ltac ovars :=
  cbn [init_state dns_state delay_sec have_ntp_mac have_dns_mac arp_retry_count
       ntproutingmac dnsroutingmac mydns ntpip gwip arp_requests
       with_init_state with_dns_state with_delay_sec with_have_ntp_mac with_have_dns_mac
       with_arp_retry_count with_ntproutingmac with_dnsroutingmac with_mydns with_gwip
       with_arp_requests fst snd] in *.



(** X17: whatever the client holds, a lease too, the idle block at
    [init_state] 0 with no delay pending starts it afresh: with the link
    up, after that block and the head of the next pass the main program is
    at [init_state] 1 with both MAC flags cleared, and the client is in
    SELECTING with four seconds to its first retry, receiving broadcasts,
    having sent one discovery whose transaction identifier is the last
    byte of the MAC address. *)
Theorem X17_reinit_restarts_discovery (mymac5 : Z) (m : machine) (o : bringup) :
  init_state o = 0 -> delay_sec o = 0 -> enc28j60linkup m = true ->
  0 <= mymac5 < 256 ->
  UDP_DATA_P + DHCP_OPTION_OFFSET + 10 <= Z.of_nat (length (buf m)) ->
  let r := main_dhcp 0 (main_idle_request_ip mymac5 (m, o)) in
  fst r = 0 /\
  init_state (snd (snd r)) = 1 /\
  have_dns_mac (snd (snd r)) = 0 /\ have_ntp_mac (snd (snd r)) = 0 /\
  dhcp_state (fst (snd r)) = SELECTING /\
  dhcp_tid (fst (snd r)) = mymac5 /\
  dhcp_cnt_down (fst (snd r)) = 4 /\
  broadcast (fst (snd r)) = true /\
  exists f, sent (fst (snd r)) = f :: sent m /\ is_discover mymac5 f.
Proof.
  intros Hinit Hdelay Hlink Hmac Hbuf. cbv zeta.
  unfold main_idle_request_ip. rewrite Hinit, Hdelay. cbn [Z.eqb andb]. cbv zeta.
  unfold main_dhcp. ovars. cbn [Z.eqb Pos.eqb].
  destruct (init_poll (init_dhcp mymac5 m)) as (b & Heq & Hlen & Hfr);
    [exact Hlink | reflexivity |].
  rewrite Heq. cbn [Z.eqb negb].
  unfold packetloop_dhcp_renewhandler. vars. cbn [Z.ltb Z.compare Pos.compare Pos.compare_cont].
  ovars. repeat split.
  exists (b, DHCP_OPTION_OFFSET + 9). split; [reflexivity |].
  rewrite <- (wrap8_small mymac5 Hmac) at 1. apply Hfr. exact Hbuf.
Qed.

End ClientFacts.

(** ** The peer-resolution step of the bring-up *)

Section BringupFacts.
Variable route_via_gw : list Z -> bool.

Ltac bvars :=
  cbn [init_state dns_state delay_sec have_ntp_mac have_dns_mac arp_retry_count
       ntproutingmac dnsroutingmac mydns ntpip gwip arp_requests
       with_init_state with_dns_state with_delay_sec with_have_ntp_mac with_have_dns_mac
       with_arp_retry_count with_ntproutingmac with_dnsroutingmac with_mydns with_gwip
       with_arp_requests get_mac_with_arp fst snd] in *.

(** Issuing a request changes nothing but the list of requests. *)
Lemma arpresolver_only_requests o :
  init_state (snd (arpresolver route_via_gw o)) = init_state o /\
  delay_sec (snd (arpresolver route_via_gw o)) = delay_sec o /\
  arp_retry_count (snd (arpresolver route_via_gw o)) = arp_retry_count o /\
  have_dns_mac (snd (arpresolver route_via_gw o)) = have_dns_mac o /\
  have_ntp_mac (snd (arpresolver route_via_gw o)) = have_ntp_mac o.
Proof.
  unfold arpresolver.
  destruct (have_dns_mac o =? 0); [bvars; auto |].
  destruct (have_ntp_mac o =? 0); bvars; auto.
Qed.

(** The ARP block of the main loop leaves both flags as they are. *)
Lemma main_resolve_arps_flags o :
  have_dns_mac (main_resolve_arps route_via_gw o) = have_dns_mac o /\
  have_ntp_mac (main_resolve_arps route_via_gw o) = have_ntp_mac o.
Proof.
  unfold main_resolve_arps.
  destruct (_ && _); [| auto].
  destruct (arpresolver_only_requests o) as (_ & _ & _ & Hd & Hn).
  destruct (arpresolver route_via_gw o) as [r o1]. bvars.
  destruct (_ || _); cbv zeta;
    repeat match goal with
           | |- context [if ?c then _ else _] => destruct c; bvars
           end; auto.
Qed.

(** The ARP block moves to [init_state] 3 only with both flags set. *)
Lemma main_resolve_arps_advance o :
  init_state o <> 3 -> init_state (main_resolve_arps route_via_gw o) = 3 ->
  init_state o = 2 /\ delay_sec o = 0 /\ have_dns_mac o <> 0 /\ have_ntp_mac o <> 0.
Proof.
  intros Hne. unfold main_resolve_arps.
  destruct (Z.eqb_spec (init_state o) 2) as [H2 | H2]; [| cbn [andb]; intros; contradiction].
  destruct (Z.eqb_spec (delay_sec o) 0) as [Hd0 | Hd0]; [| cbn [andb]; intros; contradiction].
  cbn [andb]. cbv zeta.
  match goal with
  | |- context [negb (have_dns_mac ?x =? 0)] => set (o2 := x)
  end.
  assert (Ho2 : have_dns_mac o2 = have_dns_mac o /\ have_ntp_mac o2 = have_ntp_mac o /\
                (init_state o2 = 2 \/ init_state o2 = 0)).
  { subst o2.
    destruct (arpresolver_only_requests o) as (Hi & _ & _ & Hd & Hn).
    destruct (arpresolver route_via_gw o) as [r o1]. bvars.
    destruct (_ || _); [| auto].
    destruct (negb (r =? 0)); [| rewrite Hi; auto].
    destruct (_ =? 15); bvars; rewrite ?Hi; auto. }
  destruct Ho2 as (Hd & Hn & Hi).
  rewrite Hd, Hn.
  destruct (Z.eqb_spec (have_dns_mac o) 0) as [Hdz | Hdz];
    destruct (Z.eqb_spec (have_ntp_mac o) 0) as [Hnz | Hnz]; cbn [negb andb];
    intros H3; auto; lia.
Qed.

Lemma main_request_ip_cases o :
  main_request_ip o = o \/
  (init_state (main_request_ip o) = 1 /\
   have_dns_mac (main_request_ip o) = 0 /\ have_ntp_mac (main_request_ip o) = 0).
Proof.
  unfold main_request_ip. destruct (_ && _); [right; bvars; auto | left; reflexivity].
Qed.

Lemma callback_reads ip reference_number mac o :
  init_state (arpresolver_result_callback ip reference_number mac o) = init_state o /\
  have_dns_mac (arpresolver_result_callback ip reference_number mac o) =
    (if reference_number =? TRANS_NUM_DNSMAC then 1 else have_dns_mac o) /\
  have_ntp_mac (arpresolver_result_callback ip reference_number mac o) =
    (if reference_number =? TRANS_NUM_NTPMAC then 1 else have_ntp_mac o).
Proof.
  unfold arpresolver_result_callback.
  destruct (reference_number =? TRANS_NUM_NTPMAC);
    destruct (reference_number =? TRANS_NUM_DNSMAC); bvars; auto.
Qed.

(** Every step keeps [peers_known]. *)
Lemma step_keeps_peers_known e o :
  peers_known o -> peers_known (step route_via_gw e o).
Proof.
  unfold peers_known. intros Hinv.
  destruct e as [| ip reference_number mac | | dns gw |]; cbn [step].
  - unfold timer1_compa. destruct (negb _); bvars; exact Hinv.
  - destruct (callback_reads ip reference_number mac o) as (Hi & Hd & Hn).
    rewrite Hi, Hd, Hn. intros H3. destruct (Hinv H3) as (Hd' & Hn').
    destruct (_ =? TRANS_NUM_DNSMAC); destruct (_ =? TRANS_NUM_NTPMAC); split; lia.
  - unfold main_reinit. bvars. lia.
  - unfold main_have_ip. destruct (Z.eqb_spec (init_state o) 1); bvars; [lia | exact Hinv].
  - destruct (main_resolve_arps_flags (main_request_ip o)) as (Hd & Hn).
    rewrite Hd, Hn. intros H3.
    destruct (Z.eq_dec (init_state (main_request_ip o)) 3) as [Hwas | Hwas].
    + destruct (main_request_ip_cases o) as [Hsame | (H1 & _)]; [| lia].
      rewrite Hsame in *. apply Hinv. exact Hwas.
    + destruct (main_resolve_arps_advance _ Hwas H3) as (_ & _ & Hd' & Hn'). auto.
Qed.

(** A flag that is set was set before, or this step is its callback. *)
Lemma step_sets_flags e o :
  (have_dns_mac (step route_via_gw e o) <> 0 ->
   have_dns_mac o <> 0 \/ exists ip mac, e = ArpResolved ip TRANS_NUM_DNSMAC mac) /\
  (have_ntp_mac (step route_via_gw e o) <> 0 ->
   have_ntp_mac o <> 0 \/ exists ip mac, e = ArpResolved ip TRANS_NUM_NTPMAC mac).
Proof.
  destruct e as [| ip reference_number mac | | dns gw |]; cbn [step].
  - unfold timer1_compa. destruct (negb _); bvars; auto.
  - destruct (callback_reads ip reference_number mac o) as (_ & Hd & Hn).
    rewrite Hd, Hn.
    destruct (Z.eqb_spec reference_number TRANS_NUM_DNSMAC) as [Ed | Ed];
      destruct (Z.eqb_spec reference_number TRANS_NUM_NTPMAC) as [En | En];
      try (exfalso; unfold TRANS_NUM_DNSMAC, TRANS_NUM_NTPMAC in *; lia);
      split; intros Hset; auto; right; exists ip, mac; congruence.
  - unfold main_reinit. bvars. auto.
  - unfold main_have_ip. destruct (init_state o =? 1); bvars; auto.
  - destruct (main_resolve_arps_flags (main_request_ip o)) as (Hd & Hn).
    rewrite Hd, Hn.
    destruct (main_request_ip_cases o) as [Hsame | (_ & Hd0 & Hn0)].
    + rewrite Hsame. auto.
    + rewrite Hd0, Hn0. split; intros; contradiction.
Qed.

Lemma run_keeps_peers_known evs : forall o,
  peers_known o -> peers_known (run route_via_gw evs o).
Proof.
  induction evs as [| e evs IH]; intros o Hinv; [exact Hinv |].
  cbn [run]. apply IH, step_keeps_peers_known, Hinv.
Qed.

Lemma run_sets_flags evs : forall o,
  (have_dns_mac (run route_via_gw evs o) <> 0 ->
   have_dns_mac o <> 0 \/ resolved TRANS_NUM_DNSMAC evs) /\
  (have_ntp_mac (run route_via_gw evs o) <> 0 ->
   have_ntp_mac o <> 0 \/ resolved TRANS_NUM_NTPMAC evs).
Proof.
  unfold resolved.
  induction evs as [| e evs IH]; intros o; [cbn [run]; auto |].
  cbn [run]. destruct (IH (step route_via_gw e o)) as (IHd & IHn).
  destruct (step_sets_flags e o) as (Sd & Sn).
  split; intros Hset.
  - destruct (IHd Hset) as [Hstep | (ip & mac & Hin)].
    + destruct (Sd Hstep) as [Hold | (ip & mac & ->)]; [auto |].
      right. exists ip, mac. left. reflexivity.
    + right. exists ip, mac. right. exact Hin.
  - destruct (IHn Hset) as [Hstep | (ip & mac & Hin)].
    + destruct (Sn Hstep) as [Hold | (ip & mac & ->)]; [auto |].
      right. exists ip, mac. left. reflexivity.
    + right. exists ip, mac. right. exact Hin.
Qed.

(** With both callbacks in, in either order, the next idle pass moves on. *)
Lemma both_resolved_advance o ip1 mac1 ip2 mac2 :
  init_state o = 2 ->
  init_state (run route_via_gw
                [ArpResolved ip1 TRANS_NUM_DNSMAC mac1;
                 ArpResolved ip2 TRANS_NUM_NTPMAC mac2; Idle] o) = 3 /\
  init_state (run route_via_gw
                [ArpResolved ip2 TRANS_NUM_NTPMAC mac2;
                 ArpResolved ip1 TRANS_NUM_DNSMAC mac1; Idle] o) = 3.
Proof.
  intros H2. cbn [run step].
  unfold arpresolver_result_callback, TRANS_NUM_DNSMAC, TRANS_NUM_NTPMAC.
  cbn [Z.eqb Pos.eqb]. cbv zeta.
  unfold main_request_ip. bvars. rewrite H2. cbn [Z.eqb andb].
  unfold main_resolve_arps. bvars. rewrite H2. split; reflexivity.
Qed.

(** C9: started with neither MAC address recorded and not yet at the DNS
    lookup, the bring-up is at the DNS lookup ([init_state] 3) after any
    sequence of timer ticks, ARP callbacks, restarts, leases and idle passes
    only if the ARP layer has called the result callback for the name
    server and for the time server in that sequence, in whatever order; a
    call of [arpresolver] (a request sent) changes neither [init_state] nor
    the two flags; the ARP block of an idle pass moves from 2 to 3 only when
    both flags are set; and once both callbacks have come in state 2, in
    either order, the next idle pass does move on. *)
Theorem C9_dns_lookup_only_after_both_arp_callbacks (evs : list event) (o : bringup) :
  have_dns_mac o = 0 -> have_ntp_mac o = 0 -> init_state o <> 3 ->
  (init_state (run route_via_gw evs o) = 3 ->
   resolved TRANS_NUM_DNSMAC evs /\ resolved TRANS_NUM_NTPMAC evs) /\
  (let o' := run route_via_gw evs o in
   (init_state (snd (arpresolver route_via_gw o')) = init_state o' /\
    have_dns_mac (snd (arpresolver route_via_gw o')) = have_dns_mac o' /\
    have_ntp_mac (snd (arpresolver route_via_gw o')) = have_ntp_mac o') /\
   (init_state o' = 2 -> init_state (main_resolve_arps route_via_gw o') = 3 ->
    have_dns_mac o' <> 0 /\ have_ntp_mac o' <> 0) /\
   (init_state o' = 2 ->
    forall ip1 mac1 ip2 mac2,
      init_state (run route_via_gw
                    [ArpResolved ip1 TRANS_NUM_DNSMAC mac1;
                     ArpResolved ip2 TRANS_NUM_NTPMAC mac2; Idle] o') = 3 /\
      init_state (run route_via_gw
                    [ArpResolved ip2 TRANS_NUM_NTPMAC mac2;
                     ArpResolved ip1 TRANS_NUM_DNSMAC mac1; Idle] o') = 3)).
Proof.
  intros Hd0 Hn0 H3. split.
  - intros Hend.
    assert (Hinv : peers_known o) by (intros Habs; contradiction).
    destruct (run_keeps_peers_known evs o Hinv Hend) as (Hd & Hn).
    destruct (run_sets_flags evs o) as (Rd & Rn).
    split.
    + destruct (Rd Hd) as [Habs | Hres]; [contradiction | exact Hres].
    + destruct (Rn Hn) as [Habs | Hres]; [contradiction | exact Hres].
  - cbv zeta. split; [| split].
    + destruct (arpresolver_only_requests (run route_via_gw evs o)) as (Hi & _ & _ & Hd & Hn).
      auto.
    + intros H2 Hadv.
      destruct (main_resolve_arps_advance (run route_via_gw evs o)) as (_ & _ & Hd & Hn);
        [lia | exact Hadv | auto].
    + intros H2 ip1 mac1 ip2 mac2. apply both_resolved_advance, H2.
Qed.

End BringupFacts.

(** ** More of the bring-up: retries, answers, the seconds counters *)

Section MainFacts.
Variable route_via_gw : list Z -> bool.

Ltac bvars :=
  cbn [init_state dns_state delay_sec have_ntp_mac have_dns_mac arp_retry_count
       ntproutingmac dnsroutingmac mydns ntpip gwip arp_requests
       with_init_state with_dns_state with_delay_sec with_have_ntp_mac with_have_dns_mac
       with_arp_retry_count with_ntproutingmac with_dnsroutingmac with_mydns with_gwip
       with_arp_requests get_mac_with_arp fst snd] in *.














(** X20: the delay of the bring-up counts down to 0 and stays there: after
    [n] timer interrupts it is what is left of it, 0 at the least. *)
Theorem X20_delay_sec_stops_at_zero (o : bringup) (n : nat) :
  0 <= delay_sec o < 256 ->
  delay_sec (run route_via_gw (repeat Tick n) o) = Z.max 0 (delay_sec o - Z.of_nat n) /\
  init_state (run route_via_gw (repeat Tick n) o) = init_state o /\
  arp_requests (run route_via_gw (repeat Tick n) o) = arp_requests o.
Proof.
  revert o. induction n as [| n IH]; intros o Hd.
  - cbn [repeat run]. repeat split. lia.
  - cbn [repeat run step]. unfold timer1_compa.
    destruct (Z.eqb_spec (delay_sec o) 0) as [Hz | Hnz]; cbn [negb].
    + destruct (IH o Hd) as (E1 & E2 & E3). rewrite E1, E2, E3. repeat split. lia.
    + destruct (IH (with_delay_sec (wrap8 (delay_sec o - 1)) o)) as (E1 & E2 & E3).
      { bvars. apply wrap8_byte. }
      rewrite E1, E2, E3. bvars. rewrite wrap8_small by lia. repeat split. lia.
Qed.

End MainFacts.

(** ** The uptime counters *)

Lemma timer1_compa_uptime_ok u :
  uptime_ok u -> uptime_seconds u + 1 < 65536 * 86400 ->
  uptime_ok (timer1_compa_uptime u) /\
  uptime_seconds (timer1_compa_uptime u) = uptime_seconds u + 1.
Proof.
  destruct u as [s mi h d]. unfold uptime_ok, uptime_seconds, timer1_compa_uptime.
  cbn [uptime_sec uptime_min uptime_hour uptime_day].
  intros (Hs & Hm & Hh & Hd) Hroom.
  rewrite (wrap8_small (s + 1)) by lia.
  destruct (Z.gtb_spec (s + 1) 59); cbn [uptime_sec uptime_min uptime_hour uptime_day].
  - rewrite (wrap8_small (mi + 1)) by lia.
    destruct (Z.gtb_spec (mi + 1) 59); cbn [uptime_sec uptime_min uptime_hour uptime_day].
    + rewrite (wrap8_small (h + 1)) by lia.
      destruct (Z.gtb_spec (h + 1) 23); cbn [uptime_sec uptime_min uptime_hour uptime_day].
      * unfold wrap16. rewrite Z.mod_small by lia. lia.
      * lia.
    + destruct (Z.gtb_spec h 23); cbn [uptime_sec uptime_min uptime_hour uptime_day]; lia.
  - destruct (Z.gtb_spec mi 59); cbn [uptime_sec uptime_min uptime_hour uptime_day]; [lia |].
    destruct (Z.gtb_spec h 23); cbn [uptime_sec uptime_min uptime_hour uptime_day]; lia.
Qed.

(** X21: the uptime counters keep time.  Starting from counters in range
    (seconds and minutes below 60, hours below 24), [n] timer interrupts
    leave them in range and add exactly [n] seconds to the time they
    stand for, as long as the 16-bit day counter has room. *)
Theorem X21_uptime_counts_seconds (u : uptime) (n : nat) :
  uptime_ok u -> uptime_seconds u + Z.of_nat n < 65536 * 86400 ->
  uptime_ok (Nat.iter n timer1_compa_uptime u) /\
  uptime_seconds (Nat.iter n timer1_compa_uptime u) = uptime_seconds u + Z.of_nat n.
Proof.
  intros Hok. induction n as [| n IH]; intros Hroom.
  - cbn [Nat.iter nat_rect]. split; [exact Hok | lia].
  - rewrite Nat.iter_succ. destruct IH as (Hok' & Hsec); [lia |].
    destruct (timer1_compa_uptime_ok _ Hok') as (Hok2 & Hsec2); [lia |].
    split; [exact Hok2 | lia].
Qed.

(** ** The length of a netmask *)

Lemma land_bit b j :
  0 <= j -> (Z.land b (Z.shiftl 1 j) =? 0) = negb (Z.testbit b j).
Proof.
  intros Hj. rewrite Z.shiftl_1_l.
  destruct (Z.testbit b j) eqn:Hb; cbn [negb].
  - apply Z.eqb_neq. intros Habs.
    assert (Hbit : Z.testbit (Z.land b (2 ^ j)) j = true)
      by (rewrite Z.land_spec, Hb, Z.pow2_bits_true by exact Hj; reflexivity).
    rewrite Habs, Z.bits_0 in Hbit. discriminate.
  - apply Z.eqb_eq. apply Z.bits_inj'. intros n Hn.
    rewrite Z.land_spec, Z.bits_0, Z.pow2_bits_eqb by exact Hj.
    destruct (Z.eqb_spec j n) as [-> | _]; [rewrite Hb; reflexivity | apply andb_false_r].
Qed.

Lemma ones_from_range n : forall z j, 0 <= ones_from n z j <= Z.of_nat n.
Proof.
  induction n as [| n IH]; intros z j; cbn [ones_from]; [lia |].
  destruct (Z.testbit z j); [specialize (IH z (j + 1)) |]; lia.
Qed.

(** The inner loop from bit [j], with [n] bits to go. *)
Lemma netmask_bits_from n : forall fuel mask i j l,
  (n <= fuel)%nat -> 0 <= j -> j + Z.of_nat n = 8 -> 0 <= l -> l + Z.of_nat n < 256 ->
  netmask_bits fuel mask i j l =
    let c := ones_from n (rd mask i) j in
    (if c =? Z.of_nat n then i else 3, 8, l + c).
Proof.
  induction n as [| n IH]; intros fuel mask i j l Hfuel Hj Hn Hl Hroom; cbv zeta.
  - cbn [ones_from Z.of_nat Z.eqb]. replace j with 8 by lia. rewrite Z.add_0_r.
    destruct fuel; reflexivity.
  - destruct fuel as [| fuel]; [lia |]. cbn [netmask_bits ones_from].
    destruct (Z.ltb_spec j 8); [| lia].
    rewrite land_bit by exact Hj.
    destruct (Z.testbit (rd mask i) j); cbn [negb].
    + rewrite (wrap8_small (l + 1)), (wrap8_small (j + 1)) by lia.
      rewrite IH by lia. cbv zeta.
      pose proof (ones_from_range n (rd mask i) (j + 1)) as Hr.
      replace (l + 1 + ones_from n (rd mask i) (j + 1))
        with (l + (1 + ones_from n (rd mask i) (j + 1))) by lia.
      destruct (Z.eqb_spec (ones_from n (rd mask i) (j + 1)) (Z.of_nat n));
        destruct (Z.eqb_spec (1 + ones_from n (rd mask i) (j + 1)) (Z.of_nat (S n)));
        try lia; reflexivity.
    + change (wrap8 (7 + 1)) with 8. rewrite Z.add_0_r.
      destruct fuel; reflexivity.
Qed.

(** The four turns of the outer loop. *)
Lemma netmask_bytes_four bits bytes mask :
  (8 <= bits)%nat -> (4 <= bytes)%nat ->
  snd (netmask_bytes bits bytes mask 0 0) =
    let c0 := ones_from 8 (rd mask 0) 0 in
    let c1 := ones_from 8 (rd mask 1) 0 in
    let c2 := ones_from 8 (rd mask 2) 0 in
    let c3 := ones_from 8 (rd mask 3) 0 in
    if c0 =? 8 then
      if c1 =? 8 then
        if c2 =? 8 then 24 + c3 else 16 + c2
      else 8 + c1
    else c0.
Proof.
  intros Hbits Hbytes. cbv zeta.
  do 4 (destruct bytes as [| bytes]; [lia |]).
  pose proof (ones_from_range 8 (rd mask 0) 0) as R0.
  pose proof (ones_from_range 8 (rd mask 1) 0) as R1.
  pose proof (ones_from_range 8 (rd mask 2) 0) as R2.
  pose proof (ones_from_range 8 (rd mask 3) 0) as R3.
  assert (Hend : forall n i l, 4 <= i -> netmask_bytes bits n mask i l = (i, l)).
  { intros n i l Hi. destruct n; cbn [netmask_bytes]; [reflexivity |].
    destruct (Z.ltb_spec i 4); [lia | reflexivity]. }
  cbn [netmask_bytes]. cbn [Z.ltb Z.compare Pos.compare Pos.compare_cont].
  rewrite (netmask_bits_from 8) by lia. cbv zeta. change (Z.of_nat 8) with 8.
  destruct (Z.eqb_spec (ones_from 8 (rd mask 0) 0) 8) as [E0 | E0].
  2: { change (wrap8 (3 + 1)) with 4. cbn [Z.ltb Z.compare Pos.compare Pos.compare_cont].
       rewrite ?Hend by lia. cbn [snd]. lia. }
  change (wrap8 (0 + 1)) with 1. cbn [Z.ltb Z.compare Pos.compare Pos.compare_cont].
  rewrite (netmask_bits_from 8) by lia. cbv zeta. change (Z.of_nat 8) with 8.
  destruct (Z.eqb_spec (ones_from 8 (rd mask 1) 0) 8) as [E1 | E1].
  2: { change (wrap8 (3 + 1)) with 4. cbn [Z.ltb Z.compare Pos.compare Pos.compare_cont].
       rewrite ?Hend by lia. cbn [snd]. lia. }
  change (wrap8 (1 + 1)) with 2. cbn [Z.ltb Z.compare Pos.compare Pos.compare_cont].
  rewrite (netmask_bits_from 8) by lia. cbv zeta. change (Z.of_nat 8) with 8.
  destruct (Z.eqb_spec (ones_from 8 (rd mask 2) 0) 8) as [E2 | E2].
  2: { change (wrap8 (3 + 1)) with 4. cbn [Z.ltb Z.compare Pos.compare Pos.compare_cont].
       rewrite ?Hend by lia. cbn [snd]. lia. }
  change (wrap8 (2 + 1)) with 3. cbn [Z.ltb Z.compare Pos.compare Pos.compare_cont].
  rewrite (netmask_bits_from 8) by lia. cbv zeta. change (Z.of_nat 8) with 8.
  destruct (Z.eqb_spec (ones_from 8 (rd mask 3) 0) 8) as [E3 | E3].
  - change (wrap8 (3 + 1)) with 4. rewrite ?Hend by lia. cbn [snd]. lia.
  - change (wrap8 (3 + 1)) with 4. rewrite ?Hend by lia. cbn [snd]. lia.
Qed.

Lemma ones_from_ext n : forall z j z' j',
  (forall t, 0 <= t < Z.of_nat n -> Z.testbit z (j + t) = Z.testbit z' (j' + t)) ->
  ones_from n z j = ones_from n z' j'.
Proof.
  induction n as [| n IH]; intros z j z' j' Hbits; cbn [ones_from]; [reflexivity |].
  pose proof (Hbits 0 ltac:(lia)) as H0. rewrite !Z.add_0_r in H0. rewrite H0.
  destruct (Z.testbit z' j'); [| reflexivity].
  f_equal. apply IH. intros t Ht.
  replace (j + 1 + t) with (j + (1 + t)) by lia.
  replace (j' + 1 + t) with (j' + (1 + t)) by lia.
  apply Hbits. lia.
Qed.

Lemma ones_from_split a : forall n z j,
  ones_from (a + n) z j =
    let c := ones_from a z j in
    if c =? Z.of_nat a then Z.of_nat a + ones_from n z (j + Z.of_nat a) else c.
Proof.
  induction a as [| a IH]; intros n z j; cbv zeta.
  - cbn [Nat.add ones_from Z.of_nat Z.eqb Z.add]. rewrite Z.add_0_r. reflexivity.
  - cbn [Nat.add ones_from].
    destruct (Z.testbit z j); [| reflexivity].
    rewrite IH. cbv zeta.
    pose proof (ones_from_range a z (j + 1)) as Hr.
    replace (j + 1 + Z.of_nat a) with (j + Z.of_nat (S a)) by lia.
    destruct (Z.eqb_spec (ones_from a z (j + 1)) (Z.of_nat a));
      destruct (Z.eqb_spec (1 + ones_from a z (j + 1)) (Z.of_nat (S a))); lia.
Qed.

Lemma testbit_byte_cons b r t :
  0 <= b < 256 -> 0 <= t ->
  Z.testbit (b + 256 * r) t = if t <? 8 then Z.testbit b t else Z.testbit r (t - 8).
Proof.
  intros Hb Ht.
  replace (b + 256 * r) with (r * 256 + b) by lia.
  rewrite <- lor_shifted_byte by exact Hb.
  rewrite Z.lor_spec. change 256 with (2 ^ 8).
  destruct (Z.ltb_spec t 8).
  - rewrite Z.mul_pow2_bits_low by lia. reflexivity.
  - rewrite Z.mul_pow2_bits by lia.
    rewrite (Z.bits_above_log2 b t); [apply orb_false_r | lia |].
    destruct (Z.eq_dec b 0) as [-> | Hnz]; [cbn; lia |].
    apply Z.lt_le_trans with 8; [| lia].
    apply Z.log2_lt_pow2; lia.
Qed.

(** X22: [get_netmask_length] counts the set bits from the least
    significant bit of the first byte upwards, through the bytes in
    order, up to the first bit that is clear: the number of low set bits
    of the mask read as a number with its first byte the least
    significant.  Both loops end by their tests: more turns allowed give
    the same result. *)
Theorem X22_netmask_length_counts_from_the_low_bit (b0 b1 b2 b3 : Z) :
  0 <= b0 < 256 -> 0 <= b1 < 256 -> 0 <= b2 < 256 -> 0 <= b3 < 256 ->
  get_netmask_length [b0; b1; b2; b3] = ones_from 32 (le32 b0 b1 b2 b3) 0 /\
  forall bits bytes, (8 <= bits)%nat -> (4 <= bytes)%nat ->
    snd (netmask_bytes bits bytes [b0; b1; b2; b3] 0 0) =
      get_netmask_length [b0; b1; b2; b3].
Proof.
  intros H0 H1 H2 H3.
  assert (Hword : ones_from 32 (le32 b0 b1 b2 b3) 0 =
                  let c0 := ones_from 8 b0 0 in
                  let c1 := ones_from 8 b1 0 in
                  let c2 := ones_from 8 b2 0 in
                  let c3 := ones_from 8 b3 0 in
                  if c0 =? 8 then
                    if c1 =? 8 then
                      if c2 =? 8 then 24 + c3 else 16 + c2
                    else 8 + c1
                  else c0).
  { cbv zeta. unfold le32.
    change 32%nat with (8 + (8 + (8 + 8)))%nat.
    rewrite !ones_from_split. cbv zeta. change (Z.of_nat 8) with 8.
    rewrite (ones_from_ext 8 (b0 + 256 * (b1 + 256 * (b2 + 256 * b3))) 0 b0 0).
    2: { intros t Ht. rewrite testbit_byte_cons by lia.
         destruct (Z.ltb_spec (0 + t) 8); [reflexivity | lia]. }
    rewrite (ones_from_ext 8 (b0 + 256 * (b1 + 256 * (b2 + 256 * b3))) (0 + 8) b1 0).
    2: { intros t Ht. rewrite testbit_byte_cons by lia.
         destruct (Z.ltb_spec (0 + 8 + t) 8); [lia |].
         rewrite testbit_byte_cons by lia.
         destruct (Z.ltb_spec (0 + 8 + t - 8) 8); [f_equal; lia | lia]. }
    rewrite (ones_from_ext 8 (b0 + 256 * (b1 + 256 * (b2 + 256 * b3))) (0 + 8 + 8) b2 0).
    2: { intros t Ht. rewrite testbit_byte_cons by lia.
         destruct (Z.ltb_spec (0 + 8 + 8 + t) 8); [lia |].
         rewrite testbit_byte_cons by lia.
         destruct (Z.ltb_spec (0 + 8 + 8 + t - 8) 8); [lia |].
         rewrite testbit_byte_cons by lia.
         destruct (Z.ltb_spec (0 + 8 + 8 + t - 8 - 8) 8); [f_equal; lia | lia]. }
    rewrite (ones_from_ext 8 (b0 + 256 * (b1 + 256 * (b2 + 256 * b3))) (0 + 8 + 8 + 8) b3 0).
    2: { intros t Ht. rewrite testbit_byte_cons by lia.
         destruct (Z.ltb_spec (0 + 8 + 8 + 8 + t) 8); [lia |].
         rewrite testbit_byte_cons by lia.
         destruct (Z.ltb_spec (0 + 8 + 8 + 8 + t - 8) 8); [lia |].
         rewrite testbit_byte_cons by lia.
         destruct (Z.ltb_spec (0 + 8 + 8 + 8 + t - 8 - 8) 8); [lia |].
         f_equal; lia. }
    pose proof (ones_from_range 8 b0 0). pose proof (ones_from_range 8 b1 0).
    pose proof (ones_from_range 8 b2 0). pose proof (ones_from_range 8 b3 0).
    repeat match goal with |- context [?x =? 8] => destruct (Z.eqb_spec x 8) end; lia. }
  assert (Hrd : rd [b0; b1; b2; b3] 0 = b0 /\ rd [b0; b1; b2; b3] 1 = b1 /\
                rd [b0; b1; b2; b3] 2 = b2 /\ rd [b0; b1; b2; b3] 3 = b3).
  { unfold rd. cbn [Z.to_nat Pos.to_nat Pos.iter_op Nat.add nth].
    rewrite !wrap8_small by assumption. auto. }
  destruct Hrd as (R0 & R1 & R2 & R3).
  assert (Hall : forall bits bytes, (8 <= bits)%nat -> (4 <= bytes)%nat ->
            snd (netmask_bytes bits bytes [b0; b1; b2; b3] 0 0) =
              ones_from 32 (le32 b0 b1 b2 b3) 0).
  { intros bits bytes Hbits Hbytes.
    rewrite (netmask_bytes_four bits bytes) by assumption.
    rewrite R0, R1, R2, R3. symmetry. exact Hword. }
  split.
  - unfold get_netmask_length. apply Hall; lia.
  - intros bits bytes Hbits Hbytes. unfold get_netmask_length.
    rewrite (Hall bits bytes), (Hall 8%nat 4%nat) by lia. reflexivity.
Qed.

(** X23: for the netmask of a prefix of [p] bits the result is [p]
    rounded down to a multiple of 8: the bits of a byte are counted from
    the low end, where a mask byte that is not 255 has its clear bits. *)
Theorem X23_netmask_length_of_a_prefix (p : nat) :
  (p <= 32)%nat ->
  get_netmask_length (prefix_mask p) = 8 * (Z.of_nat p / 8).
Proof.
  intros Hp.
  do 33 (destruct p as [| p]; [vm_compute; reflexivity |]). lia.
Qed.

(** ** Reading a MAC address *)

Lemma rd_cons x rest p : 0 <= p -> rd (x :: rest) (p + 1) = rd rest p.
Proof.
  intros Hp. unfold rd. replace (Z.to_nat (p + 1)) with (S (Z.to_nat p)) by lia.
  reflexivity.
Qed.

(** The loop reads from its position onwards only. *)
Lemma parse_mac_loop_shift fuel : forall x rest p mac i,
  0 <= p ->
  parse_mac_loop fuel (x :: rest) (p + 1) mac i = parse_mac_loop fuel rest p mac i.
Proof.
  induction fuel as [| fuel IH]; intros x rest p mac i Hp; [reflexivity |].
  cbn [parse_mac_loop]. cbv zeta.
  rewrite (rd_cons x rest p) by exact Hp.
  rewrite (rd_cons x rest (p + 1)) by lia.
  rewrite !(IH x rest) by lia. reflexivity.
Qed.

Lemma hex_digit_facts upper v :
  0 <= v < 16 ->
  wrap8 (hex_digit upper v) = hex_digit upper v /\
  (hex_digit upper v =? 0) = false /\
  isxdigit (hex_digit upper v) = true /\
  hex_value (hex_digit upper v) = v.
Proof.
  intros Hv.
  assert (Hcases : v = 0 \/ v = 1 \/ v = 2 \/ v = 3 \/ v = 4 \/ v = 5 \/ v = 6 \/ v = 7 \/
                   v = 8 \/ v = 9 \/ v = 10 \/ v = 11 \/ v = 12 \/ v = 13 \/ v = 14 \/
                   v = 15) by lia.
  repeat (destruct Hcases as [-> | Hcases]; [destruct upper; vm_compute; auto |]).
  subst v. destruct upper; vm_compute; auto.
Qed.

Lemma lor_nibbles h l :
  0 <= h < 16 -> 0 <= l < 16 -> Z.lor (wrap8 (Z.shiftl h 4)) l = h * 16 + l.
Proof.
  intros Hh Hl. rewrite Z.shiftl_mul_pow2 by lia. change (2 ^ 4) with 16.
  rewrite wrap8_small by lia.
  assert (Hand : Z.land (h * 16) l = 0).
  { apply Z.bits_inj'. intros n Hn. rewrite Z.land_spec, Z.bits_0.
    change 16 with (2 ^ 4).
    destruct (Z.lt_ge_cases n 4).
    - rewrite Z.mul_pow2_bits_low by lia. reflexivity.
    - rewrite (Z.bits_above_log2 l n); [apply andb_false_r | lia |].
      destruct (Z.eq_dec l 0) as [-> | Hnz]; [cbn; lia |].
      apply Z.lt_le_trans with 4; [| lia].
      apply Z.log2_lt_pow2; lia. }
  rewrite <- Z.lxor_lor by exact Hand.
  symmetry. apply Z.add_nocarry_lxor. exact Hand.
Qed.

(** The first turn on a group of two digits: the byte is stored and the
    pointer is on the character after the group. *)
Lemma parse_mac_pair fuel upper b rest mac i :
  0 <= b < 256 -> 0 <= i < 6 ->
  parse_mac_loop (S fuel)
    (hex_digit upper (b / 16) :: hex_digit upper (b mod 16) :: rest) 0 mac i =
  parse_mac_loop fuel rest 0 (poke mac i b) (i + 1).
Proof.
  intros Hb Hi.
  assert (Hhi : 0 <= b / 16 < 16)
    by (split; [apply Z.div_pos; lia | apply Z.div_lt_upper_bound; lia]).
  assert (Hlo : 0 <= b mod 16 < 16) by (apply Z.mod_pos_bound; lia).
  destruct (hex_digit_facts upper (b / 16) Hhi) as (W1 & Z1 & X1 & V1).
  destruct (hex_digit_facts upper (b mod 16) Hlo) as (W2 & Z2 & X2 & V2).
  cbn [parse_mac_loop]. cbv zeta.
  assert (R0 : forall x l, rd (x :: l) 0 = wrap8 x) by reflexivity.
  rewrite R0, (rd_cons _ _ 0), R0 by lia.
  rewrite W1, W2, Z1, X1, X2, V1, V2.
  destruct (Z.ltb_spec i 6); [| lia]. cbn [negb andb].
  rewrite lor_nibbles by assumption.
  replace (b / 16 * 16 + b mod 16) with b
    by (rewrite (Z.div_mod b 16) at 1 by lia; lia).
  rewrite (wrap8_small (i + 1)) by lia.
  rewrite !parse_mac_loop_shift by lia. reflexivity.
Qed.

(** The turn on a separator. *)
Lemma parse_mac_separator fuel sep rest mac i :
  0 < sep < 256 -> isxdigit sep = false -> 0 <= i < 6 ->
  parse_mac_loop (S fuel) (sep :: rest) 0 mac i = parse_mac_loop fuel rest 0 mac i.
Proof.
  intros Hs Hx Hi. cbn [parse_mac_loop]. cbv zeta.
  assert (R0 : rd (sep :: rest) 0 = sep) by (apply wrap8_small; lia).
  rewrite R0, Hx.
  destruct (Z.eqb_spec sep 0); [lia |]. destruct (Z.ltb_spec i 6); [| lia].
  cbn [negb andb]. apply parse_mac_loop_shift. lia.
Qed.

(** The loop ends on the terminator, and with six bytes read. *)
Lemma parse_mac_end fuel rest mac :
  parse_mac_loop fuel (0 :: rest) 0 mac 6 = (mac, 6).
Proof. destruct fuel; reflexivity. Qed.

(** X24: an address written as six groups of two hexadecimal digits, in
    upper or in lower case, with a separator that is no hexadecimal digit
    between the groups, is read back byte for byte, whatever the target
    held; the result is 0.  The loop ends by its test within twelve
    turns. *)
Theorem X24_parse_mac_reads_back (upper : bool) (sep : Z) (mac old : list Z)
    (fuel : nat) :
  length mac = 6%nat -> Forall (fun b => 0 <= b < 256) mac ->
  0 < sep < 256 -> isxdigit sep = false ->
  length old = 6%nat -> (12 <= fuel)%nat ->
  parse_mac fuel old (mac_text upper sep mac) = (0, mac).
Proof.
  intros Hlen Hbytes Hsep Hx Hold Hfuel.
  destruct mac as [| b0 [| b1 [| b2 [| b3 [| b4 [| b5 [| ? ?]]]]]]]; try discriminate.
  destruct old as [| o0 [| o1 [| o2 [| o3 [| o4 [| o5 [| ? ?]]]]]]]; try discriminate.
  repeat match goal with
         | H : Forall _ (_ :: _) |- _ => apply Forall_cons in H; destruct H as (? & H)
         end.
  do 12 (destruct fuel as [| fuel]; [lia |]).
  unfold parse_mac, mac_text, mac_group. cbn [app].
  rewrite parse_mac_pair, parse_mac_separator by (try assumption; lia).
  rewrite parse_mac_pair, parse_mac_separator by (try assumption; lia).
  rewrite parse_mac_pair, parse_mac_separator by (try assumption; lia).
  rewrite parse_mac_pair, parse_mac_separator by (try assumption; lia).
  rewrite parse_mac_pair, parse_mac_separator by (try assumption; lia).
  rewrite parse_mac_pair by (try assumption; lia).
  change (0 + 1 + 1 + 1 + 1 + 1 + 1) with 6.
  rewrite parse_mac_end. reflexivity.
Qed.

(** The bytes from [i] on are still 0 when the loop ends. *)
Lemma parse_mac_loop_rest fuel : forall str p mac i,
  0 <= i <= 6 -> (forall k, i <= k < 6 -> rd mac k = 0) ->
  let r := parse_mac_loop fuel str p mac i in
  i <= snd r <= 6 /\ (forall k, snd r <= k < 6 -> rd (fst r) k = 0) /\
  length (fst r) = length mac.
Proof.
  induction fuel as [| fuel IH]; intros str p mac i Hi Hzero; cbv zeta.
  - cbn [parse_mac_loop fst snd]. split; [lia | auto].
  - cbn [parse_mac_loop]. cbv zeta.
    destruct (negb (rd str p =? 0)); cbn [andb]; [| cbn [fst snd]; split; [lia | auto]].
    destruct (Z.ltb_spec i 6); [| cbn [fst snd]; split; [lia | auto]].
    destruct (isxdigit (rd str p)).
    + rewrite (wrap8_small (i + 1)) by lia.
      match goal with
      | |- context [parse_mac_loop fuel str ?q (poke mac i ?b) (i + 1)] =>
          destruct (IH str q (poke mac i b) (i + 1)) as (Hr & Hz & Hl)
      end.
      * lia.
      * intros k Hk. rewrite rd_poke_ne by lia. apply Hzero. lia.
      * rewrite length_poke in Hl. split; [lia | auto].
    + destruct (IH str (p + 1) mac i Hi Hzero) as (Hr & Hz & Hl). auto.
Qed.

(** X25: the target is cleared before the string is read.  Whatever the
    string, the result is 0 or 1; when it is 1 (fewer than six groups),
    the old address is gone all the same: the last byte of the target is
    0, as is every byte that no group was read for. *)
Theorem X25_parse_mac_clears_the_target (fuel : nat) (old str : list Z) :
  length old = 6%nat ->
  let r := parse_mac fuel old str in
  (fst r = 0 \/ fst r = 1) /\ length (snd r) = 6%nat /\
  (fst r = 1 -> rd (snd r) 5 = 0) /\
  (rd str 0 = 0 -> r = (1, [0; 0; 0; 0; 0; 0])).
Proof.
  intros Hold. cbv zeta. unfold parse_mac.
  destruct old as [| o0 [| o1 [| o2 [| o3 [| o4 [| o5 [| ? ?]]]]]]]; try discriminate.
  change (memset [o0; o1; o2; o3; o4; o5] 0 0 6) with [0; 0; 0; 0; 0; 0].
  destruct (parse_mac_loop_rest fuel str 0 [0; 0; 0; 0; 0; 0] 0) as (Hr & Hz & Hl);
    [lia | |].
  { intros k Hk.
    assert (Hcases : k = 0 \/ k = 1 \/ k = 2 \/ k = 3 \/ k = 4 \/ k = 5) by lia.
    repeat (destruct Hcases as [-> | Hcases]; [reflexivity |]). subst k. reflexivity. }
  split; [| split; [| split]].
  - destruct (parse_mac_loop fuel str 0 [0; 0; 0; 0; 0; 0] 0) as [mac i].
    cbn [fst snd]. destruct (i =? 6); auto.
  - destruct (parse_mac_loop fuel str 0 [0; 0; 0; 0; 0; 0] 0) as [mac i].
    cbn [fst snd] in *. exact Hl.
  - destruct (parse_mac_loop fuel str 0 [0; 0; 0; 0; 0; 0] 0) as [mac i].
    cbn [fst snd] in *. destruct (Z.eqb_spec i 6); [discriminate |].
    intros _. apply Hz. lia.
  - intros Hnul. destruct fuel; [reflexivity |].
    cbn [parse_mac_loop]. rewrite Hnul. reflexivity.
Qed.

(** ** Decoding the credentials *)

Lemma rd_app_l pre body j :
  0 <= j < Z.of_nat (length pre) -> rd (pre ++ body) j = rd pre j.
Proof.
  intros Hj. unfold rd. f_equal. apply app_nth1. lia.
Qed.

Lemma rd_app_r pre body k :
  0 <= k -> rd (pre ++ body) (Z.of_nat (length pre) + k) = rd body k.
Proof.
  intros Hk. unfold rd. f_equal.
  replace (Z.to_nat (Z.of_nat (length pre) + k)) with (length pre + Z.to_nat k)%nat by lia.
  apply app_nth2_plus.
Qed.

Lemma poke_app_l pre body j v :
  0 <= j < Z.of_nat (length pre) -> poke (pre ++ body) j v = poke pre j v ++ body.
Proof.
  intros Hj. unfold poke. apply insert_app_l. lia.
Qed.

Lemma base64_char_facts v old :
  0 <= v < 64 ->
  0 < base64_char v < 256 /\ base64_value (base64_char v) old = v.
Proof.
  intros Hv. unfold base64_char.
  destruct (Z.ltb_spec v 26); [| destruct (Z.ltb_spec v 52);
    [| destruct (Z.ltb_spec v 62); [| destruct (Z.eqb_spec v 62)]]];
    (split; [lia |]); unfold base64_value;
    repeat match goal with
           | |- context [?a <=? ?b] => destruct (Z.leb_spec a b); try lia
           | |- context [?a =? ?b] => destruct (Z.eqb_spec a b); try lia
           end; cbn [andb]; lia.
Qed.

Lemma lor_shift a b n :
  0 <= n -> 0 <= b < 2 ^ n -> Z.lor (Z.shiftl a n) b = a * 2 ^ n + b.
Proof.
  intros Hn Hb. rewrite Z.shiftl_mul_pow2 by exact Hn.
  assert (Hand : Z.land (a * 2 ^ n) b = 0).
  { apply Z.bits_inj'. intros k Hk. rewrite Z.land_spec, Z.bits_0.
    destruct (Z.lt_ge_cases k n).
    - rewrite Z.mul_pow2_bits_low by lia. reflexivity.
    - destruct (Z.eq_dec b 0) as [-> | Hnz];
        [rewrite Z.bits_0; apply andb_false_r |].
      rewrite (Z.bits_above_log2 b k); [apply andb_false_r | lia |].
      apply Z.lt_le_trans with n; [| lia].
      apply Z.log2_lt_pow2; lia. }
  rewrite <- Z.lxor_lor by exact Hand.
  symmetry. apply Z.add_nocarry_lxor. exact Hand.
Qed.

(** The three bytes that come out of the four values of a group. *)
Lemma group_bytes x y z :
  0 <= x < 256 -> 0 <= y < 256 -> 0 <= z < 256 ->
  let s0 := x / 4 in
  let s1 := x mod 4 * 16 + y / 16 in
  let s2 := y mod 16 * 4 + z / 64 in
  let s3 := z mod 64 in
  wrap8 (Z.lor (Z.shiftl s0 2) (Z.shiftr s1 4)) = x /\
  wrap8 (Z.lor (Z.shiftl s1 4) (Z.shiftr s2 2)) = y /\
  wrap8 (Z.lor (Z.shiftl s2 6) (Z.shiftr s3 0)) = z.
Proof.
  intros Hx Hy Hz. cbv zeta.
  rewrite !Z.shiftr_div_pow2 by lia.
  change (2 ^ 4) with 16. change (2 ^ 2) with 4. change (2 ^ 0) with 1.
  rewrite Z.div_1_r.
  rewrite (lor_shift _ _ 2), (lor_shift _ _ 4), (lor_shift _ _ 6).
  - change (2 ^ 2) with 4. change (2 ^ 4) with 16. change (2 ^ 6) with 64.
    unfold wrap8. repeat split; Z.div_mod_to_equations; lia.
  - lia.
  - change (2 ^ 6) with 64. Z.div_mod_to_equations; lia.
  - lia.
  - change (2 ^ 4) with 16. Z.div_mod_to_equations; lia.
  - lia.
  - change (2 ^ 2) with 4. Z.div_mod_to_equations; lia.
Qed.

(** One turn of the loop on four characters whose values are those of
    the group for the bytes [x], [y], [z]. *)
Lemma base64_round fuel pre c0 c1 c2 c3 rest q t0 t1 t2 t3 x y z :
  0 < c0 < 256 -> 0 < c1 < 256 -> 0 < c2 < 256 -> 0 < c3 < 256 ->
  0 <= x < 256 -> 0 <= y < 256 -> 0 <= z < 256 ->
  base64_value c0 t0 = x / 4 ->
  base64_value c1 t1 = x mod 4 * 16 + y / 16 ->
  base64_value c2 t2 = y mod 16 * 4 + z / 64 ->
  base64_value c3 t3 = z mod 64 ->
  0 <= q <= Z.of_nat (length pre) ->
  exists pre',
    base64_loop (S fuel) (pre ++ c0 :: c1 :: c2 :: c3 :: rest)
      (Z.of_nat (length pre)) q (t0, t1, t2, t3) =
    base64_loop fuel (pre' ++ rest) (Z.of_nat (length pre')) (q + 3)
      (x / 4, x mod 4 * 16 + y / 16, y mod 16 * 4 + z / 64, z mod 64) /\
    length pre' = (length pre + 4)%nat /\
    (forall j, 0 <= j < q -> rd pre' j = rd pre j) /\
    rd pre' q = x /\ rd pre' (q + 1) = y /\ rd pre' (q + 2) = z.
Proof.
  intros Hc0 Hc1 Hc2 Hc3 Hx Hy Hz V0 V1 V2 V3 Hq.
  destruct (group_bytes x y z Hx Hy Hz) as (G0 & G1 & G2).
  set (p := Z.of_nat (length pre)).
  set (B := pre ++ c0 :: c1 :: c2 :: c3 :: rest).
  assert (R0 : rd B p = c0).
  { unfold B, p. rewrite <- (Z.add_0_r (Z.of_nat (length pre))).
    rewrite rd_app_r by lia. apply wrap8_small. lia. }
  assert (R1 : rd B (p + 1) = c1).
  { unfold B, p. rewrite rd_app_r by lia. apply wrap8_small. lia. }
  assert (R2 : rd B (p + 2) = c2).
  { unfold B, p. rewrite rd_app_r by lia. apply wrap8_small. lia. }
  assert (R3 : rd B (p + 3) = c3).
  { unfold B, p. rewrite rd_app_r by lia. apply wrap8_small. lia. }
  set (o0 := Z.lor (Z.shiftl (x / 4) 2) (Z.shiftr (x mod 4 * 16 + y / 16) 4)) in *.
  set (o1 := Z.lor (Z.shiftl (x mod 4 * 16 + y / 16) 4)
                   (Z.shiftr (y mod 16 * 4 + z / 64) 2)) in *.
  set (o2 := Z.lor (Z.shiftl (y mod 16 * 4 + z / 64) 6) (Z.shiftr (z mod 64) 0)) in *.
  set (P := pre ++ [c0; c1; c2; c3]).
  assert (HP : Z.of_nat (length P) = p + 4).
  { unfold P, p. rewrite length_app. cbn [length]. lia. }
  exists (poke (poke (poke P q o0) (q + 1) o1) (q + 2) o2).
  split; [| split; [| split; [| split; [| split]]]].
  - cbn [base64_loop]. unfold strlen_ge_4. cbn [forallb].
    rewrite Z.add_0_r, R0, R1, R2, R3.
    destruct (Z.eqb_spec c0 0); [lia |]. destruct (Z.eqb_spec c1 0); [lia |].
    destruct (Z.eqb_spec c2 0); [lia |]. destruct (Z.eqb_spec c3 0); [lia |].
    cbn [negb andb]. cbv zeta. rewrite V0, V1, V2, V3.
    fold o0 o1 o2.
    assert (HB : B = P ++ rest).
    { unfold B, P. rewrite <- app_assoc. reflexivity. }
    rewrite HB.
    rewrite (poke_app_l P) by lia.
    rewrite (poke_app_l (poke P q o0)) by (rewrite length_poke; lia).
    rewrite (poke_app_l (poke (poke P q o0) (q + 1) o1)) by (rewrite !length_poke; lia).
    rewrite !length_poke, HP. reflexivity.
  - rewrite !length_poke. unfold P. rewrite length_app. reflexivity.
  - intros j Hj. rewrite !rd_poke_ne by lia. unfold P. apply rd_app_l. lia.
  - rewrite !rd_poke_ne by lia. rewrite rd_poke_eq by lia. exact G0.
  - rewrite rd_poke_ne by lia. rewrite rd_poke_eq by (rewrite length_poke; lia). exact G1.
  - rewrite rd_poke_eq by (rewrite !length_poke; lia). exact G2.
Qed.

(** The loop ends on the terminator. *)
Lemma base64_loop_end fuel pre tail q stream :
  base64_loop fuel (pre ++ 0 :: tail) (Z.of_nat (length pre)) q stream =
    (pre ++ 0 :: tail, q).
Proof.
  destruct fuel as [| fuel]; [reflexivity |]. cbn [base64_loop].
  unfold strlen_ge_4. cbn [forallb]. rewrite rd_app_r by lia.
  reflexivity.
Qed.

Lemma decoded_group data pre pre' q total r x y z n :
  length pre' = (length pre + 4)%nat ->
  (forall j, 0 <= j < q -> rd pre' j = rd pre j) ->
  rd pre' q = x -> rd pre' (q + 1) = y -> rd pre' (q + 2) = z ->
  0 <= q <= Z.of_nat (length pre) ->
  (n <= 3)%nat ->
  (forall k, (k < n)%nat -> nth k data 0 = nth k [x; y; z] 0) ->
  (forall k, (n <= k < 3)%nat -> nth k [x; y; z] 0 = 0) ->
  (forall k, (3 <= k < length data)%nat ->
     rd (fst r) (q + Z.of_nat k) = nth k data 0) ->
  (n = 3%nat \/ length data = n) ->
  (n <= length data)%nat ->
  length (fst r) = total ->
  (forall j, 0 <= j < q + 3 -> rd (fst r) j = rd pre' j) ->
  q + Z.of_nat (Nat.max 3 (length data)) <= snd r < Z.of_nat total ->
  (forall j, q + Z.of_nat (Nat.max 3 (length data)) <= j < snd r -> rd (fst r) j = 0) ->
  decoded data pre q total r.
Proof.
  intros Hlen Hold H0 H1 H2 Hq Hn Hdata Hpad Hrest Hcase Hnl Htot Hkeep Hout Hzero.
  assert (Hfirst : forall k, (k < 3)%nat -> rd (fst r) (q + Z.of_nat k) = nth k [x; y; z] 0).
  { intros k Hk. rewrite Hkeep by lia.
    destruct k as [| [| [| k]]]; cbn [nth]; [| | | lia].
    - rewrite Z.add_0_r. exact H0.
    - exact H1.
    - exact H2. }
  unfold decoded. split; [exact Htot |]. split; [| split; [| split]].
  - intros j Hj. rewrite Hkeep by lia. apply Hold. exact Hj.
  - intros k Hk. destruct (Nat.lt_ge_cases k 3) as [Hk3 | Hk3].
    + rewrite Hfirst by exact Hk3. symmetry. apply Hdata. lia.
    + apply Hrest. lia.
  - lia.
  - intros j Hj.
    destruct (Z.lt_ge_cases j (q + 3)) as [Hj3 | Hj3].
    + replace j with (q + Z.of_nat (Z.to_nat (j - q))) by lia.
      rewrite Hfirst by lia. apply Hpad. lia.
    + apply Hzero. lia.
Qed.

Ltac group_side :=
  first
    [ assumption
    | lia
    | intros [| [| [| ?]]] ?; cbn [nth]; first [reflexivity | lia]
    | rewrite !length_app; cbn [length]; rewrite ?length_app; cbn [length]; lia
    | intros ? ?; apply rd_app_l; lia ].

Lemma base64_loop_encoded n : forall data,
  length data = n ->
  forall pre tail q stream fuel,
  Forall (fun b => 0 <= b < 256) data ->
  (n + 3 <= 3 * fuel)%nat -> 0 <= q <= Z.of_nat (length pre) ->
  decoded data pre q (length (pre ++ base64_encode data ++ 0 :: tail))
    (base64_loop fuel (pre ++ base64_encode data ++ 0 :: tail)
       (Z.of_nat (length pre)) q stream).
Proof.
  induction n as [n IH] using lt_wf_ind.
  intros data Hlen pre tail q [[[t0 t1] t2] t3] fuel Hbytes Hfuel Hq.
  destruct data as [| x [| y [| z data]]].
  - cbn [base64_encode app]. rewrite base64_loop_end.
    unfold decoded. cbn [fst snd length]. rewrite length_app. cbn [length].
    repeat split; try lia; intros; first [lia | apply rd_app_l; lia].
  - apply Forall_cons in Hbytes. destruct Hbytes as (Hx & _).
    destruct fuel as [| fuel]; [cbn [length] in *; lia |].
    destruct (base64_char_facts (x / 4) t0) as (C0 & V0);
      [Z.div_mod_to_equations; lia |].
    destruct (base64_char_facts (x mod 4 * 16) t1) as (C1 & V1);
      [Z.div_mod_to_equations; lia |].
    cbn [base64_encode app].
    destruct (base64_round fuel pre (base64_char (x / 4)) (base64_char (x mod 4 * 16)) 61 61
                (0 :: tail) q t0 t1 t2 t3 x 0 0)
      as (pre' & Heq & Hl & Hold & H0 & H1 & H2);
      try assumption; try lia; try reflexivity.
    { rewrite V1. change (0 / 16) with 0. lia. }
    rewrite Heq, base64_loop_end.
    apply (decoded_group [x] pre pre' q _ _ x 0 0 1); cbn [fst snd length Nat.max];
      group_side.
  - apply Forall_cons in Hbytes. destruct Hbytes as (Hx & Hbytes).
    apply Forall_cons in Hbytes. destruct Hbytes as (Hy & _).
    destruct fuel as [| fuel]; [cbn [length] in *; lia |].
    destruct (base64_char_facts (x / 4) t0) as (C0 & V0);
      [Z.div_mod_to_equations; lia |].
    destruct (base64_char_facts (x mod 4 * 16 + y / 16) t1) as (C1 & V1);
      [Z.div_mod_to_equations; lia |].
    destruct (base64_char_facts (y mod 16 * 4) t2) as (C2 & V2);
      [Z.div_mod_to_equations; lia |].
    cbn [base64_encode app].
    destruct (base64_round fuel pre (base64_char (x / 4))
                (base64_char (x mod 4 * 16 + y / 16)) (base64_char (y mod 16 * 4)) 61
                (0 :: tail) q t0 t1 t2 t3 x y 0)
      as (pre' & Heq & Hl & Hold & H0 & H1 & H2);
      try assumption; try lia; try reflexivity.
    { rewrite V2. change (0 / 64) with 0. lia. }
    rewrite Heq, base64_loop_end.
    apply (decoded_group [x; y] pre pre' q _ _ x y 0 2); cbn [fst snd length Nat.max];
      group_side.
  - apply Forall_cons in Hbytes. destruct Hbytes as (Hx & Hbytes).
    apply Forall_cons in Hbytes. destruct Hbytes as (Hy & Hbytes).
    apply Forall_cons in Hbytes. destruct Hbytes as (Hz & Hbytes).
    destruct fuel as [| fuel]; [cbn [length] in *; lia |].
    destruct (base64_char_facts (x / 4) t0) as (C0 & V0);
      [Z.div_mod_to_equations; lia |].
    destruct (base64_char_facts (x mod 4 * 16 + y / 16) t1) as (C1 & V1);
      [Z.div_mod_to_equations; lia |].
    destruct (base64_char_facts (y mod 16 * 4 + z / 64) t2) as (C2 & V2);
      [Z.div_mod_to_equations; lia |].
    destruct (base64_char_facts (z mod 64) t3) as (C3 & V3);
      [Z.div_mod_to_equations; lia |].
    cbn [base64_encode]. rewrite <- !app_assoc. cbn [app].
    destruct (base64_round fuel pre (base64_char (x / 4))
                (base64_char (x mod 4 * 16 + y / 16))
                (base64_char (y mod 16 * 4 + z / 64)) (base64_char (z mod 64))
                (base64_encode data ++ 0 :: tail) q t0 t1 t2 t3 x y z)
      as (pre' & Heq & Hl & Hold & H0 & H1 & H2);
      try assumption; try lia.
    rewrite Heq.
    cbn [length] in Hlen.
    destruct (IH (length data) ltac:(lia) data eq_refl pre' tail (q + 3)
                (x / 4, x mod 4 * 16 + y / 16, y mod 16 * 4 + z / 64, z mod 64)
                fuel Hbytes ltac:(lia) ltac:(lia))
      as (Dl & Dold & Ddata & Dout & Dzero).
    set (r := base64_loop fuel (pre' ++ base64_encode data ++ 0 :: tail)
                (Z.of_nat (length pre')) (q + 3)
                (x / 4, x mod 4 * 16 + y / 16, y mod 16 * 4 + z / 64, z mod 64)) in *.
    assert (Htotal : length (pre' ++ base64_encode data ++ 0 :: tail) =
                     length (pre ++ base64_char (x / 4)
                               :: base64_char (x mod 4 * 16 + y / 16)
                               :: base64_char (y mod 16 * 4 + z / 64)
                               :: base64_char (z mod 64)
                               :: base64_encode data ++ 0 :: tail)).
    { rewrite !length_app. cbn [length]. rewrite !length_app. cbn [length]. lia. }
    rewrite <- Htotal.
    apply (decoded_group (x :: y :: z :: data) pre pre' q _ r x y z 3);
      cbn [length]; try assumption; try lia.
    + intros [| [| [| k]]] Hk; try reflexivity; lia.
    + intros k Hk.
      replace (q + Z.of_nat k) with (q + 3 + Z.of_nat (k - 3)) by lia.
      rewrite Ddata by lia.
      destruct k as [| [| [| k]]]; try lia. cbn [nth].
      replace (S (S (S k)) - 3)%nat with k by lia. reflexivity.
    + intros j Hj.
      replace (Nat.max 3 (S (S (S (length data))))) with (S (S (S (length data)))) in Hj by lia.
      apply Dzero. lia.
Qed.

(** X26: decoding restores what was encoded.  For any bytes, encoded
    three to four characters with [=] filling the last group, standing
    anywhere in memory and followed by the terminator, [base64_decode]
    leaves the bytes followed by a 0 at the place where the text began,
    leaves what is before the text alone and keeps the size of the memory;
    the loop ends by its test within one turn per group. *)
Theorem X26_base64_decode_restores_the_bytes (data pre tail : list Z)
    (stream : Z * Z * Z * Z) (fuel : nat) :
  Forall (fun b => 0 <= b < 256) data ->
  (length data + 3 <= 3 * fuel)%nat ->
  let b := pre ++ base64_encode data ++ 0 :: tail in
  let b' := base64_decode fuel stream b (Z.of_nat (length pre)) in
  rdn b' (Z.of_nat (length pre)) (length data + 1) = data ++ [0] /\
  (forall j, 0 <= j < Z.of_nat (length pre) -> rd b' j = rd pre j) /\
  length b' = length b.
Proof.
  intros Hbytes Hfuel. cbv zeta. unfold base64_decode.
  destruct (base64_loop_encoded (length data) data eq_refl pre tail
              (Z.of_nat (length pre)) stream fuel Hbytes Hfuel ltac:(lia))
    as (Dl & Dold & Ddata & Dout & Dzero).
  destruct (base64_loop fuel (pre ++ base64_encode data ++ 0 :: tail)
              (Z.of_nat (length pre)) (Z.of_nat (length pre)) stream) as [b1 out].
  cbn [fst snd] in *.
  split; [| split].
  - apply rdn_char.
    + rewrite length_app. cbn [length]. reflexivity.
    + intros k Hk.
      destruct (Nat.lt_ge_cases k (length data)) as [Hin | Hend].
      * rewrite rd_poke_ne by lia. rewrite Ddata by exact Hin.
        rewrite app_nth1 by exact Hin. reflexivity.
      * assert (k = length data) by lia. subst k.
        rewrite app_nth2 by lia. rewrite Nat.sub_diag. cbn [nth].
        destruct (Z.eq_dec out (Z.of_nat (length pre) + Z.of_nat (length data)))
          as [-> | Hne].
        -- rewrite rd_poke_eq by lia. reflexivity.
        -- rewrite rd_poke_ne by lia. apply Dzero. lia.
  - intros j Hj. rewrite rd_poke_ne by lia. apply Dold. exact Hj.
  - rewrite length_poke. exact Dl.
Qed.

(** X27: a character that the decoder has no case for does not end the
    decoding: it is taken for the character four places before it.  After
    a group of four characters of the alphabet, four such characters (a
    line end and what follows it in a request, say) give the three bytes
    of the group once more. *)
Theorem X27_base64_decode_repeats_on_other_characters
    (x y z n0 n1 n2 n3 : Z) (pre tail : list Z) (stream : Z * Z * Z * Z) (fuel : nat) :
  0 <= x < 256 -> 0 <= y < 256 -> 0 <= z < 256 ->
  outside_base64 n0 -> outside_base64 n1 -> outside_base64 n2 -> outside_base64 n3 ->
  (3 <= fuel)%nat ->
  let b := pre ++ base64_encode [x; y; z] ++ [n0; n1; n2; n3] ++ 0 :: tail in
  rdn (base64_decode fuel stream b (Z.of_nat (length pre))) (Z.of_nat (length pre)) 7 =
    [x; y; z; x; y; z; 0].
Proof.
  intros Hx Hy Hz (Hn0 & O0) (Hn1 & O1) (Hn2 & O2) (Hn3 & O3) Hfuel. cbv zeta.
  destruct stream as [[[t0 t1] t2] t3].
  do 3 (destruct fuel as [| fuel]; [lia |]).
  unfold base64_decode. cbn [base64_encode app].
  destruct (base64_char_facts (x / 4) t0) as (C0 & V0);
    [Z.div_mod_to_equations; lia |].
  destruct (base64_char_facts (x mod 4 * 16 + y / 16) t1) as (C1 & V1);
    [Z.div_mod_to_equations; lia |].
  destruct (base64_char_facts (y mod 16 * 4 + z / 64) t2) as (C2 & V2);
    [Z.div_mod_to_equations; lia |].
  destruct (base64_char_facts (z mod 64) t3) as (C3 & V3);
    [Z.div_mod_to_equations; lia |].
  set (p := Z.of_nat (length pre)).
  destruct (base64_round (S (S fuel)) pre (base64_char (x / 4))
              (base64_char (x mod 4 * 16 + y / 16))
              (base64_char (y mod 16 * 4 + z / 64)) (base64_char (z mod 64))
              (n0 :: n1 :: n2 :: n3 :: 0 :: tail) p t0 t1 t2 t3 x y z)
    as (pre1 & Heq1 & Hl1 & Hold1 & A0 & A1 & A2);
    try assumption; try (unfold p; lia).
  fold p in Heq1. rewrite Heq1.
  destruct (base64_round (S fuel) pre1 n0 n1 n2 n3 (0 :: tail) (p + 3)
              (x / 4) (x mod 4 * 16 + y / 16) (y mod 16 * 4 + z / 64) (z mod 64) x y z)
    as (pre2 & Heq2 & Hl2 & Hold2 & B0 & B1 & B2);
    try assumption; try (unfold p; lia); try apply O0; try apply O1; try apply O2;
    try apply O3.
  rewrite Heq2, base64_loop_end.
  assert (Hp2 : Z.of_nat (length pre2) = p + 8) by (unfold p; lia).
  apply rdn_char; [reflexivity |].
  intros k Hk.
  assert (Hin : forall j, 0 <= j < p + 6 ->
            rd (poke (pre2 ++ 0 :: tail) (p + 3 + 3) 0) j = rd pre2 j).
  { intros j Hj. rewrite rd_poke_ne by (unfold p in *; lia).
    apply rd_app_l. lia. }
  destruct k as [| [| [| [| [| [| [| k]]]]]]]; cbn [nth]; try lia.
  - change (Z.of_nat 0) with 0. rewrite Z.add_0_r, Hin by (unfold p; lia).
    rewrite Hold2 by (unfold p; lia). exact A0.
  - change (Z.of_nat 1) with 1. rewrite Hin by (unfold p; lia).
    rewrite Hold2 by (unfold p; lia). exact A1.
  - change (Z.of_nat 2) with 2. rewrite Hin by (unfold p; lia).
    rewrite Hold2 by (unfold p; lia). exact A2.
  - change (Z.of_nat 3) with 3. rewrite Hin by (unfold p; lia). exact B0.
  - change (Z.of_nat 4) with (3 + 1). rewrite Z.add_assoc, Hin by (unfold p; lia).
    exact B1.
  - change (Z.of_nat 5) with (3 + 2). rewrite Z.add_assoc, Hin by (unfold p; lia).
    exact B2.
  - change (Z.of_nat 6) with (3 + 3). rewrite Z.add_assoc.
    rewrite rd_poke_eq; [reflexivity |].
    rewrite length_app. cbn [length]. unfold p in *. lia.
Qed.

(** ** The DNS lookup and the NTP request *)

Ltac tsvars :=
  cbn [ts_main dns_retry_count ntp_retry_count haveNTPanswer ntpclientportL dns_queries
       ntp_queries on_main with_ntpip with_dns_retry_count with_ntp_retry_count
       with_haveNTPanswer with_ntpclientportL dnslkup_request client_ntp_request
       init_state dns_state delay_sec have_ntp_mac have_dns_mac arp_retry_count
       ntproutingmac dnsroutingmac mydns ntpip gwip arp_requests
       with_init_state with_dns_state with_delay_sec with_have_ntp_mac with_have_dns_mac
       with_arp_retry_count with_ntproutingmac with_dnsroutingmac with_mydns with_gwip
       with_arp_requests fst snd] in *.

(** The pass that sends the query. *)
Lemma dns_pass_queries ip s :
  init_state (ts_main s) = 3 -> dns_state (ts_main s) = 0 ->
  main_dns_lookup false ip s =
    dnslkup_request (ntproutingmac (ts_main s))
      (on_main (with_dns_state 1) (on_main (with_delay_sec 5) s)).
Proof.
  intros Hi Hd. unfold main_dns_lookup. rewrite Hi, Hd. cbn [Z.eqb Pos.eqb]. cbv zeta.
  tsvars. cbn [Z.eqb Pos.eqb andb negb]. reflexivity.
Qed.

(** The pass that notes that no answer came. *)
Lemma dns_pass_times_out ip s :
  init_state (ts_main s) = 3 -> dns_state (ts_main s) = 1 -> delay_sec (ts_main s) = 0 ->
  0 <= dns_retry_count s < 255 ->
  main_dns_lookup false ip s =
    if dns_retry_count s + 1 =? 6
    then on_main (with_delay_sec 0) (on_main (with_init_state 0)
           (with_dns_retry_count 0 (with_dns_retry_count (dns_retry_count s + 1)
              (on_main (with_dns_state 0) s))))
    else with_dns_retry_count (dns_retry_count s + 1) (on_main (with_dns_state 0) s).
Proof.
  intros Hi Hd Hdelay Hc. unfold main_dns_lookup. cbv zeta.
  rewrite Hi. cbn [Z.eqb Pos.eqb]. rewrite !Hd. cbn [Z.eqb Pos.eqb andb negb].
  rewrite !Hd. cbn [Z.eqb Pos.eqb andb negb].
  rewrite !Hd, !Hdelay. cbn [Z.eqb Pos.eqb andb negb]. tsvars.
  rewrite (wrap8_small (dns_retry_count s + 1)) by lia. reflexivity.
Qed.

(** The NTP step does nothing before [init_state] 4. *)
Lemma ntp_step_idle mymac5 link_status s :
  init_state (ts_main s) <> 4 -> init_state (ts_main s) <> 5 ->
  main_ntp_request mymac5 link_status s = s.
Proof.
  intros H4 H5. unfold main_ntp_request.
  destruct (Z.eqb_spec (init_state (ts_main s)) 4); [contradiction |]. cbv zeta.
  destruct (Z.eqb_spec (init_state (ts_main s)) 5); [contradiction | reflexivity].
Qed.

(** Five seconds take a delay of five to zero. *)
Lemma five_seconds s :
  delay_sec (ts_main s) = 5 -> seconds 5 s = on_main (with_delay_sec 0) s.
Proof.
  intros Hd. unfold seconds. cbn [Nat.iter nat_rect].
  unfold on_main at 5. unfold timer1_compa at 5. rewrite Hd.
  cbn [Z.eqb negb]. change (wrap8 (5 - 1)) with 4.
  reflexivity.
Qed.

(** One round of the lookup below the limit, and the round that reaches
    it. *)
Lemma lookup_round mymac5 link_status s :
  init_state (ts_main s) = 3 -> dns_state (ts_main s) = 0 ->
  0 <= dns_retry_count s < 6 ->
  let s' := unanswered_lookup mymac5 link_status s in
  init_state (ts_main s') = (if dns_retry_count s =? 5 then 0 else 3) /\
  dns_state (ts_main s') = 0 /\ delay_sec (ts_main s') = 0 /\
  dns_retry_count s' = (if dns_retry_count s =? 5 then 0 else dns_retry_count s + 1) /\
  dns_queries s' = ntproutingmac (ts_main s) :: dns_queries s /\
  ntproutingmac (ts_main s') = ntproutingmac (ts_main s) /\
  ntp_queries s' = ntp_queries s.
Proof.
  intros Hi Hd Hc. cbv zeta. unfold unanswered_lookup, main_lookup_and_request.
  rewrite (dns_pass_queries [] s Hi Hd).
  rewrite (ntp_step_idle mymac5 link_status (dnslkup_request _ _)) by (tsvars; lia).
  rewrite five_seconds by reflexivity.
  match goal with
  | |- context [main_dns_lookup false [] ?x] => remember x as s1 eqn:E1
  end.
  assert (F : init_state (ts_main s1) = 3 /\ dns_state (ts_main s1) = 1 /\
              delay_sec (ts_main s1) = 0 /\ dns_retry_count s1 = dns_retry_count s /\
              dns_queries s1 = ntproutingmac (ts_main s) :: dns_queries s /\
              ntproutingmac (ts_main s1) = ntproutingmac (ts_main s) /\
              ntp_queries s1 = ntp_queries s).
  { subst s1. tsvars. repeat split; assumption. }
  clear E1. destruct F as (Hi1 & Hd1 & Hdelay1 & Hc1 & Hq1 & Hm1 & Hn1).
  rewrite (dns_pass_times_out [] s1 Hi1 Hd1 Hdelay1) by lia.
  rewrite Hc1.
  destruct (Z.eqb_spec (dns_retry_count s) 5) as [E5 | E5].
  - rewrite E5. change (5 + 1 =? 6) with true. cbv iota.
    rewrite ntp_step_idle by (tsvars; lia).
    tsvars. repeat split; assumption.
  - destruct (Z.eqb_spec (dns_retry_count s + 1) 6); [lia |].
    rewrite ntp_step_idle by (tsvars; lia).
    tsvars. repeat split; assumption.
Qed.

Lemma lookup_rounds mymac5 link_status k : forall s,
  init_state (ts_main s) = 3 -> dns_state (ts_main s) = 0 ->
  0 <= dns_retry_count s -> dns_retry_count s + Z.of_nat k < 6 ->
  let s' := Nat.iter k (unanswered_lookup mymac5 link_status) s in
  init_state (ts_main s') = 3 /\ dns_state (ts_main s') = 0 /\
  dns_retry_count s' = dns_retry_count s + Z.of_nat k /\
  dns_queries s' = repeat (ntproutingmac (ts_main s)) k ++ dns_queries s /\
  ntproutingmac (ts_main s') = ntproutingmac (ts_main s) /\
  ntp_queries s' = ntp_queries s.
Proof.
  induction k as [| k IH]; intros s Hi Hd Hc0 Hc; cbv zeta.
  - cbn [Nat.iter nat_rect repeat app]. repeat split; try assumption; lia.
  - rewrite Nat.iter_succ.
    destruct (IH s Hi Hd Hc0 ltac:(lia)) as (Hi1 & Hd1 & Hc1 & Hq1 & Hm1 & Hn1).
    remember (Nat.iter k (unanswered_lookup mymac5 link_status) s) as s1 eqn:E1. clear E1.
    destruct (lookup_round mymac5 link_status s1 Hi1 Hd1 ltac:(lia))
      as (Hi2 & Hd2 & _ & Hc2 & Hq2 & Hm2 & Hn2).
    destruct (Z.eqb_spec (dns_retry_count s1) 5); [lia |].
    repeat split; try assumption; try congruence; try lia.
    rewrite Hq2, Hq1, Hm1. reflexivity.
Qed.

(** X28: the DNS lookup gives up after six queries.  From [init_state] 3
    with no query under way and the retry counter at 0, in rounds without
    an answer (the pass that sends the query, five seconds, the pass that
    notes the failure), the first five rounds stay in [init_state] 3 and
    the sixth falls back to [init_state] 0.  Every query is sent to the
    MAC address that was resolved for the time server. *)
Theorem X28_dns_lookup_gives_up_after_six_queries (mymac5 : Z) (link_status : bool)
    (s : timesync) :
  init_state (ts_main s) = 3 -> dns_state (ts_main s) = 0 -> dns_retry_count s = 0 ->
  (forall k, (k < 6)%nat ->
     let s' := Nat.iter k (unanswered_lookup mymac5 link_status) s in
     init_state (ts_main s') = 3 /\
     dns_queries s' = repeat (ntproutingmac (ts_main s)) k ++ dns_queries s) /\
  let s' := Nat.iter 6 (unanswered_lookup mymac5 link_status) s in
  init_state (ts_main s') = 0 /\ delay_sec (ts_main s') = 0 /\
  dns_retry_count s' = 0 /\
  dns_queries s' = repeat (ntproutingmac (ts_main s)) 6 ++ dns_queries s /\
  ntp_queries s' = ntp_queries s.
Proof.
  intros Hi Hd Hc. split.
  - intros k Hk. cbv zeta.
    destruct (lookup_rounds mymac5 link_status k s Hi Hd) as (Hi1 & _ & _ & Hq1 & _);
      [lia | lia |]. auto.
  - cbv zeta. rewrite Nat.iter_succ.
    destruct (lookup_rounds mymac5 link_status 5 s Hi Hd)
      as (Hi1 & Hd1 & Hc1 & Hq1 & Hm1 & Hn1); [lia | lia |].
    remember (Nat.iter 5 (unanswered_lookup mymac5 link_status) s) as s1 eqn:E1. clear E1.
    destruct (lookup_round mymac5 link_status s1 Hi1 Hd1 ltac:(lia))
      as (Hi2 & _ & Hdelay2 & Hc2 & Hq2 & _ & Hn2).
    assert (E5 : dns_retry_count s1 = 5) by lia.
    rewrite E5 in Hi2, Hc2. change (5 =? 5) with true in Hi2, Hc2. cbv iota in Hi2, Hc2.
    repeat split; try assumption; try congruence.
    rewrite Hq2, Hq1, Hm1. reflexivity.
Qed.

(** X29: the pass that sees the DNS answer takes the address as the time
    server's and, with the link up and fewer than six requests counted,
    sends the first NTP request at once: to the new address, from the
    port after the last byte of the MAC address, to the MAC address that
    was resolved before the lookup.  With the link down the pass stops at
    [init_state] 5 and sends nothing. *)
Theorem X29_dns_answer_starts_the_ntp_request (ip : list Z) (mymac5 : Z) (s : timesync) :
  init_state (ts_main s) = 3 -> dns_state (ts_main s) = 1 ->
  0 <= ntp_retry_count s < 6 ->
  (let s' := main_lookup_and_request true ip mymac5 true s in
   init_state (ts_main s') = 5 /\ dns_state (ts_main s') = 2 /\
   ntpip (ts_main s') = rdn ip 0 4 /\ delay_sec (ts_main s') = 5 /\
   haveNTPanswer s' = 0 /\ ntpclientportL s' = wrap8 (mymac5 + 1) /\
   ntp_retry_count s' = ntp_retry_count s + 1 /\
   ntp_queries s' =
     (rdn ip 0 4, wrap8 (mymac5 + 1), ntproutingmac (ts_main s)) :: ntp_queries s /\
   dns_queries s' = dns_queries s) /\
  (let s' := main_lookup_and_request true ip mymac5 false s in
   init_state (ts_main s') = 5 /\ ntpip (ts_main s') = rdn ip 0 4 /\
   delay_sec (ts_main s') = 0 /\ ntpclientportL s' = mymac5 /\
   ntp_queries s' = ntp_queries s).
Proof.
  intros Hi Hd Hc.
  assert (Hdns : main_dns_lookup true ip s =
                 on_main (with_init_state 4)
                   (on_main (with_ntpip (rdn ip 0 4)) (on_main (with_dns_state 2) s))).
  { unfold main_dns_lookup. cbv zeta. rewrite Hi. cbn [Z.eqb Pos.eqb].
    rewrite !Hd. cbn [Z.eqb Pos.eqb andb negb].
    rewrite !Hd. cbn [Z.eqb Pos.eqb andb negb]. tsvars.
    cbn [Z.eqb Pos.eqb andb negb]. reflexivity. }
  split; cbv zeta; unfold main_lookup_and_request; rewrite Hdns;
    unfold main_ntp_request; tsvars; cbn [Z.eqb Pos.eqb andb negb]; cbv zeta; tsvars;
    cbn [Z.eqb Pos.eqb andb negb].
  - destruct (Z.ltb_spec (ntp_retry_count s) 6); [| lia].
    tsvars. rewrite (wrap8_small (ntp_retry_count s + 1)) by lia.
    repeat split.
  - repeat split.
Qed.

(** One round of the NTP request. *)
Lemma request_round mymac5 s :
  init_state (ts_main s) = 5 -> haveNTPanswer s <> 1 -> delay_sec (ts_main s) = 0 ->
  0 <= ntp_retry_count s < 6 ->
  let s' := unanswered_request mymac5 s in
  init_state (ts_main s') = 5 /\ haveNTPanswer s' = haveNTPanswer s /\
  delay_sec (ts_main s') = 0 /\
  ntp_retry_count s' = ntp_retry_count s + 1 /\
  ntpclientportL s' = wrap8 (ntpclientportL s + 1) /\
  ntpip (ts_main s') = ntpip (ts_main s) /\
  ntproutingmac (ts_main s') = ntproutingmac (ts_main s) /\
  ntp_queries s' =
    (ntpip (ts_main s), wrap8 (ntpclientportL s + 1), ntproutingmac (ts_main s))
      :: ntp_queries s /\
  dns_queries s' = dns_queries s.
Proof.
  intros Hi Hh Hd Hc. cbv zeta. unfold unanswered_request, main_lookup_and_request.
  assert (Hdns : main_dns_lookup false [] s = s).
  { unfold main_dns_lookup. rewrite Hi. reflexivity. }
  rewrite Hdns. unfold main_ntp_request. rewrite Hi. cbn [Z.eqb Pos.eqb]. cbv zeta.
  rewrite Hi, Hd. cbn [Z.eqb Pos.eqb].
  destruct (Z.eqb_spec (haveNTPanswer s) 1); [contradiction |]. cbn [negb andb].
  destruct (Z.ltb_spec (ntp_retry_count s) 6); [| lia].
  rewrite five_seconds by reflexivity.
  tsvars. rewrite (wrap8_small (ntp_retry_count s + 1)) by lia.
  repeat split; assumption.
Qed.

Lemma ntp_retries_succ ip mac port k :
  ntp_retries ip mac port (S k) =
    (ip, wrap8 (port + Z.of_nat (S k)), mac) :: ntp_retries ip mac port k.
Proof.
  unfold ntp_retries. rewrite seq_S, rev_app_distr. cbn [rev app map Nat.add].
  reflexivity.
Qed.

Lemma request_rounds mymac5 k : forall s,
  init_state (ts_main s) = 5 -> haveNTPanswer s <> 1 -> delay_sec (ts_main s) = 0 ->
  0 <= ntp_retry_count s -> ntp_retry_count s + Z.of_nat k <= 6 ->
  0 <= ntpclientportL s < 256 ->
  let s' := Nat.iter k (unanswered_request mymac5) s in
  init_state (ts_main s') = 5 /\ haveNTPanswer s' = haveNTPanswer s /\
  delay_sec (ts_main s') = 0 /\
  ntp_retry_count s' = ntp_retry_count s + Z.of_nat k /\
  ntpclientportL s' = wrap8 (ntpclientportL s + Z.of_nat k) /\
  ntpip (ts_main s') = ntpip (ts_main s) /\
  ntproutingmac (ts_main s') = ntproutingmac (ts_main s) /\
  ntp_queries s' =
    ntp_retries (ntpip (ts_main s)) (ntproutingmac (ts_main s)) (ntpclientportL s) k
      ++ ntp_queries s /\
  dns_queries s' = dns_queries s.
Proof.
  induction k as [| k IH]; intros s Hi Hh Hd Hc0 Hc Hp; cbv zeta.
  - cbn [Nat.iter nat_rect]. rewrite !Z.add_0_r, wrap8_small by exact Hp.
    repeat split; try assumption; reflexivity.
  - rewrite Nat.iter_succ.
    destruct (IH s Hi Hh Hd Hc0 ltac:(lia) Hp)
      as (Hi1 & Hh1 & Hd1 & Hc1 & Hp1 & Hip1 & Hm1 & Hq1 & Hdq1).
    remember (Nat.iter k (unanswered_request mymac5) s) as s1 eqn:E1. clear E1.
    destruct (request_round mymac5 s1 Hi1 ltac:(congruence) Hd1 ltac:(lia))
      as (Hi2 & Hh2 & Hd2 & Hc2 & Hp2 & Hip2 & Hm2 & Hq2 & Hdq2).
    assert (Hport : wrap8 (ntpclientportL s1 + 1) =
                    wrap8 (ntpclientportL s + Z.of_nat (S k))).
    { rewrite Hp1, wrap8_succ. f_equal. lia. }
    repeat split; try assumption; try congruence; try lia.
    rewrite Hq2, Hq1, Hip1, Hm1, Hport, ntp_retries_succ. reflexivity.
Qed.

(** The pass that finds six requests counted. *)
Lemma request_limit mymac5 s :
  init_state (ts_main s) = 5 -> haveNTPanswer s <> 1 -> delay_sec (ts_main s) = 0 ->
  ntp_retry_count s = 6 ->
  init_state (ts_main (main_lookup_and_request false [] mymac5 true s)) = 0 /\
  delay_sec (ts_main (main_lookup_and_request false [] mymac5 true s)) = 0 /\
  ntp_retry_count (main_lookup_and_request false [] mymac5 true s) = 0 /\
  ntp_queries (main_lookup_and_request false [] mymac5 true s) = ntp_queries s.
Proof.
  intros Hi Hh Hd Hc. unfold main_lookup_and_request.
  assert (Hdns : main_dns_lookup false [] s = s).
  { unfold main_dns_lookup. rewrite Hi. reflexivity. }
  rewrite Hdns. unfold main_ntp_request. rewrite Hi. cbn [Z.eqb Pos.eqb]. cbv zeta.
  rewrite Hi, Hd, Hc. cbn [Z.eqb Pos.eqb Z.ltb Z.compare Pos.compare Pos.compare_cont].
  destruct (Z.eqb_spec (haveNTPanswer s) 1); [contradiction |]. cbn [negb andb].
  tsvars. repeat split.
Qed.

(** X13: the NTP request gives up after six requests.  From [init_state]
    5 with no time yet, no delay pending, the retry counter at 0 and the
    link up, each of six rounds without an answer (a request, five
    seconds) sends one request, from the next source port, to the same
    server and MAC address; the pass after the sixth round sends nothing
    and falls back to [init_state] 0. *)
Theorem X13_ntp_request_gives_up_after_six_requests (mymac5 : Z) (s : timesync) :
  init_state (ts_main s) = 5 -> haveNTPanswer s <> 1 -> delay_sec (ts_main s) = 0 ->
  ntp_retry_count s = 0 -> 0 <= ntpclientportL s < 256 ->
  (forall k, (k <= 6)%nat ->
     let s' := Nat.iter k (unanswered_request mymac5) s in
     init_state (ts_main s') = 5 /\
     ntp_queries s' =
       ntp_retries (ntpip (ts_main s)) (ntproutingmac (ts_main s)) (ntpclientportL s) k
         ++ ntp_queries s) /\
  let s6 := Nat.iter 6 (unanswered_request mymac5) s in
  let s' := main_lookup_and_request false [] mymac5 true s6 in
  init_state (ts_main s') = 0 /\ delay_sec (ts_main s') = 0 /\
  ntp_retry_count s' = 0 /\ ntp_queries s' = ntp_queries s6.
Proof.
  intros Hi Hh Hd Hc Hp. split.
  - intros k Hk. cbv zeta.
    destruct (request_rounds mymac5 k s Hi Hh Hd)
      as (Hi1 & _ & _ & _ & _ & _ & _ & Hq1 & _); [lia | lia | exact Hp |]. auto.
  - cbv zeta.
    destruct (request_rounds mymac5 6 s Hi Hh Hd)
      as (Hi1 & Hh1 & Hd1 & Hc1 & _); [lia | lia | exact Hp |].
    apply request_limit; [exact Hi1 | congruence | exact Hd1 | lia].
Qed.

(** * The theorems at work on concrete packets *)

Section Witnesses.
#[local] Existing Instance enc28j60_net_h.

Ltac by_evaluation :=
  vm_compute;
  repeat match goal with |- _ /\ _ => split end;
  first [reflexivity | intros E; discriminate E].

Ltac is_correlated := apply is_dhcp_msg_for_me_iff; vm_compute; discriminate.

(** An acknowledgment for transaction 9 while 7 is outstanding, in
    REQUESTING. *)
Lemma C1_witness :
  let plen := reply_len (options_24 5 3600) in
  let m := requesting_with 3600 9 (options_24 5 3600) in
  plen <> 0 /\ tid_mismatch m /\
  packetloop_dhcp_initial_ip_assignment plen m = (0, m) /\
  packetloop_dhcp_renewhandler plen m = (plen, m) /\
  (dhcp_state m = REQUESTING ->
   dhcp_state (snd (packetloop_dhcp_initial_ip_assignment plen m)) = REQUESTING /\
   dhcp_state (snd (packetloop_dhcp_renewhandler plen m)) = REQUESTING).
Proof.
  cbv zeta.
  assert (Hplen : reply_len (options_24 5 3600) <> 0) by (vm_compute; discriminate).
  assert (Hmis : tid_mismatch (requesting_with 3600 9 (options_24 5 3600))).
  { exists 0. split; [lia | vm_compute; discriminate]. }
  split; [exact Hplen |]. split; [exact Hmis |].
  exact (C1_mismatched_tid_is_ignored _ _ Hplen Hmis).
Defined.

(** A packet of 100 bytes. *)
Lemma C7_witness :
  let m := requesting_with 3600 7 (options_24 5 3600) in
  100 < UDP_DATA_P + DHCP_OPTION_OFFSET /\
  is_dhcp_msg_for_me 100 m = (0, m) /\
  (100 <> 0 ->
   packetloop_dhcp_initial_ip_assignment 100 m = (0, m) /\
   packetloop_dhcp_renewhandler 100 m = (100, m)).
Proof.
  cbv zeta.
  assert (Hshort : 100 < UDP_DATA_P + DHCP_OPTION_OFFSET) by (vm_compute; reflexivity).
  split; [exact Hshort |].
  exact (C7_short_packet_not_for_me 100 _ Hshort).
Defined.

(** The client started with transaction 7. *)
Lemma C2_witness :
  let m := fresh in
  enc28j60linkup m = true /\ dhcp_state m = INIT /\ 0 <= dhcp_tid m < 256 /\
  UDP_DATA_P + DHCP_OPTION_OFFSET + 10 <= Z.of_nat (length (buf m)) /\
  (let s0 := snd (packetloop_dhcp_initial_ip_assignment 0 m) in
   (forall N, (N <= 3)%nat ->
      let s := Nat.iter N unanswered_timeout s0 in
      dhcp_state s = SELECTING /\
      dhcp_retry s = Z.min (4 * 2 ^ Z.of_nat N) 32 /\
      dhcp_cnt_down s = dhcp_retry s /\
      dhcp_tid s = wrap8 (dhcp_tid m + Z.of_nat N) /\
      length (sent s) = (length (sent m) + N + 1)%nat /\
      exists f rest, sent s = f :: rest /\ is_discover (dhcp_tid s) f) /\
   dhcp_state (Nat.iter 4 unanswered_timeout s0) = INIT /\
   dhcp_retry (Nat.iter 4 unanswered_timeout s0) = 64 /\
   sent (Nat.iter 4 unanswered_timeout s0) = sent (Nat.iter 3 unanswered_timeout s0)).
Proof.
  cbv zeta.
  assert (Hlink : enc28j60linkup fresh = true) by reflexivity.
  assert (Hst : dhcp_state fresh = INIT) by reflexivity.
  assert (Htid : 0 <= dhcp_tid fresh < 256) by (vm_compute; split; [discriminate | reflexivity]).
  assert (Hbuf : UDP_DATA_P + DHCP_OPTION_OFFSET + 10 <= Z.of_nat (length (buf fresh)))
    by (vm_compute; discriminate).
  repeat (split; [assumption |]).
  exact (C2_backoff_4_8_16_32_then_init fresh Hlink Hst Htid Hbuf).
Defined.

(** C2 as the claim has it, at the client started with transaction 7:
    after three unanswered expiries the client has not given up; it is
    SELECTING with a retry interval of 32 seconds pending. *)
Lemma C2_counterexample :
  let s3 := Nat.iter 3 unanswered_timeout
              (snd (packetloop_dhcp_initial_ip_assignment 0 fresh)) in
  dhcp_state s3 <> INIT /\ dhcp_state s3 = SELECTING /\
  dhcp_retry s3 = 32 /\ dhcp_cnt_down s3 = 32.
Proof. by_evaluation. Qed.

(** An acknowledgment with the options of the offer, lease 3600 s. *)
Lemma C3_witness :
  let plen := reply_len (options_24 5 3600) in
  let m := requesting_with 3600 7 (options_24 5 3600) in
  enc28j60linkup m = true /\ dhcp_state m <= 2 /\ plen <> 0 /\
  correlated plen m /\ dhcp_get_message_type plen m = 5 /\
  (let r := packetloop_dhcp_initial_ip_assignment plen m in
   fst r = 1 /\
   dhcp_opt_mask (snd r) = dhcp_opt_mask m /\
   dhcp_opt_defaultgw (snd r) = dhcp_opt_defaultgw m /\
   dhcp_opt_dns (snd r) = dhcp_opt_dns m /\
   dhcp_opt_server_id (snd r) = dhcp_opt_server_id m /\
   dhcp_opt_leasetime (snd r) = dhcp_opt_leasetime m /\
   dhcp_yiaddr (snd r) =
     (if rd (buf m) (UDP_DATA_P + 16) =? 0 then dhcp_yiaddr m
      else rdn (buf m) (UDP_DATA_P + 16) 4) /\
   dhcp_tid (snd r) = dhcp_tid m /\
   dhcp_retry (snd r) = 0 /\
   dhcp_cnt_down (snd r) = dhcp_opt_leasetime m / 2 /\
   dhcp_state (snd r) = (if dhcp_opt_leasetime m / 2 =? 0 then INIT else BOUND) /\
   broadcast (snd r) = false /\
   sent (snd r) = sent m).
Proof.
  cbv zeta.
  set (plen := reply_len (options_24 5 3600)).
  set (m := requesting_with 3600 7 (options_24 5 3600)).
  assert (Hlink : enc28j60linkup m = true) by reflexivity.
  assert (Hst : dhcp_state m <= 2) by (vm_compute; discriminate).
  assert (Hplen : plen <> 0) by (vm_compute; discriminate).
  assert (Hcor : correlated plen m) by is_correlated.
  assert (Hcmd : dhcp_get_message_type plen m = 5) by (vm_compute; reflexivity).
  repeat (split; [assumption |]).
  exact (C3_ack_binds_with_held_options plen m Hlink Hst Hplen Hcor Hcmd).
Defined.

(** C3 as the claim has it, at an acknowledgment that advertises a /16
    and 7200 seconds to a client that holds the /24 and the 3600 seconds of
    the offer: the acknowledgment is correlated and of type 5, parsing it
    would store the /16 and the 7200 seconds, but the initial assignment
    returns 1 with the /24 and the 3600 seconds still held and the countdown
    at 1800, not at half of 7200. *)
Lemma C3_counterexample :
  let plen := reply_len (options_16 5 7200) in
  let m := requesting_with 3600 7 (options_16 5 7200) in
  let r := packetloop_dhcp_initial_ip_assignment plen m in
  fst (is_dhcp_msg_for_me plen m) = 1 /\ dhcp_get_message_type plen m = 5 /\
  dhcp_opt_mask (snd (dhcp_option_parser plen m)) = [255; 255; 0; 0] /\
  dhcp_opt_leasetime (snd (dhcp_option_parser plen m)) = 7200 /\
  fst r = 1 /\ dhcp_state (snd r) = BOUND /\
  dhcp_opt_mask (snd r) = [255; 255; 255; 0] /\
  dhcp_opt_mask (snd r) <> [255; 255; 0; 0] /\
  dhcp_opt_leasetime (snd r) = 3600 /\
  dhcp_cnt_down (snd r) = 1800 /\
  dhcp_cnt_down (snd r) <> 7200 / 2.
Proof. by_evaluation. Qed.

(** The acknowledgment of a lease of 3600 s, and the renewals after it. *)
Lemma C4_witness :
  let plen := reply_len (options_24 5 3600) in
  let m := requesting_with 3600 7 (options_24 5 3600) in
  let s := after_ack 3600 in
  enc28j60linkup m = true /\ plen <> 0 /\
  correlated plen m /\ dhcp_get_message_type plen m = 5 /\
  0 <= dhcp_tid m < 256 /\
  UDP_DATA_P + DHCP_OPTION_OFFSET + 3 <= Z.of_nat (length (buf m)) /\
  ((dhcp_state m <= 2 /\ s = snd (packetloop_dhcp_initial_ip_assignment plen m)) \/
   (3 <= dhcp_state m /\ s = snd (packetloop_dhcp_renewhandler plen m))) /\
  dhcp_state s = BOUND /\
  0 <= dhcp_opt_leasetime s < 4294967296 /\
  (let L := dhcp_opt_leasetime s in
   dhcp_cnt_down s = L / 2 /\
   (8 <= L ->
    forall k, (1 <= k <= 3)%nat ->
      let r := Nat.iter k unanswered_renewal s in
      dhcp_state r = REBINDING /\
      dhcp_cnt_down r = L / 8 /\
      dhcp_tid r = wrap8 (dhcp_tid s + Z.of_nat k) /\
      broadcast r = true /\
      length (sent r) = (length (sent s) + k)%nat /\
      exists f rest, sent r = f :: rest /\
                     is_renew_request (dhcp_tid r) (rdn (dhcp_yiaddr s) 0 4) f) /\
   dhcp_state (Nat.iter 4 unanswered_renewal s) = INIT).
Proof.
  cbv zeta.
  set (plen := reply_len (options_24 5 3600)).
  set (m := requesting_with 3600 7 (options_24 5 3600)).
  set (s := after_ack 3600).
  assert (Hlink : enc28j60linkup m = true) by reflexivity.
  assert (Hplen : plen <> 0) by (vm_compute; discriminate).
  assert (Hcor : correlated plen m) by is_correlated.
  assert (Hcmd : dhcp_get_message_type plen m = 5) by (vm_compute; reflexivity).
  assert (Htid : 0 <= dhcp_tid m < 256) by (vm_compute; split; [discriminate | reflexivity]).
  assert (Hbuf : UDP_DATA_P + DHCP_OPTION_OFFSET + 3 <= Z.of_nat (length (buf m)))
    by (vm_compute; discriminate).
  assert (Hway : (dhcp_state m <= 2 /\
                  s = snd (packetloop_dhcp_initial_ip_assignment plen m)) \/
                 (3 <= dhcp_state m /\ s = snd (packetloop_dhcp_renewhandler plen m))).
  { left. split; [vm_compute; discriminate | reflexivity]. }
  assert (Hbound : dhcp_state s = BOUND) by (vm_compute; reflexivity).
  assert (HL : 0 <= dhcp_opt_leasetime s < 4294967296)
    by (vm_compute; split; [discriminate | reflexivity]).
  repeat (split; [assumption |]).
  exact (C4_renewal_schedule plen m s Hlink Hplen Hcor Hcmd Htid Hbuf Hway Hbound HL).
Defined.

(** A negative acknowledgment in REQUESTING, and one in REBINDING. *)
Lemma C6_witness :
  (let plen := reply_len nak_options in
   let m := requesting_with 3600 7 nak_options in
   plen <> 0 /\ correlated plen m /\ dhcp_get_message_type plen m = 6 /\
   dhcp_state m = REQUESTING /\ enc28j60linkup m = true /\
   packetloop_dhcp_initial_ip_assignment plen m = (0, with_dhcp_state INIT (take_yiaddr m)) /\
   dhcp_state (snd (packetloop_dhcp_initial_ip_assignment plen m)) = INIT) /\
  (let plen := reply_len nak_options in
   let m := rebinding_with 8 nak_options in
   plen <> 0 /\ correlated plen m /\ dhcp_get_message_type plen m = 6 /\
   dhcp_state m = REBINDING /\
   packetloop_dhcp_renewhandler plen m = (0, with_dhcp_state INIT (take_yiaddr m)) /\
   dhcp_state (snd (packetloop_dhcp_renewhandler plen m)) = INIT).
Proof.
  cbv zeta. set (plen := reply_len nak_options).
  assert (Hplen : plen <> 0) by (vm_compute; discriminate).
  split.
  - set (m := requesting_with 3600 7 nak_options).
    assert (Hcor : correlated plen m) by is_correlated.
    assert (Hcmd : dhcp_get_message_type plen m = 6) by (vm_compute; reflexivity).
    assert (Hst : dhcp_state m = REQUESTING) by (vm_compute; reflexivity).
    assert (Hlink : enc28j60linkup m = true) by reflexivity.
    repeat (split; [assumption |]).
    exact (proj1 (C6_nak_returns_to_init plen m Hplen Hcor Hcmd) Hst Hlink).
  - set (m := rebinding_with 8 nak_options).
    assert (Hcor : correlated plen m) by is_correlated.
    assert (Hcmd : dhcp_get_message_type plen m = 6) by (vm_compute; reflexivity).
    assert (Hst : dhcp_state m = REBINDING) by (vm_compute; reflexivity).
    repeat (split; [assumption |]).
    exact (proj2 (C6_nak_returns_to_init plen m Hplen Hcor Hcmd) Hst).
Defined.

(** An offer and an acknowledgment of a lease of one second. *)
Lemma C8_witness :
  let plen := reply_len (options_24 5 1) in
  let m := requesting_with 1 7 (options_24 5 1) in
  0 <= dhcp_opt_leasetime m < 2 /\
  enc28j60linkup m = true /\ dhcp_state m <= 2 /\ plen <> 0 /\
  correlated plen m /\ dhcp_get_message_type plen m = 5 /\
  (dhcp_opt_leasetime m = 0 \/ dhcp_opt_leasetime m = 1) /\
  dhcp_state (set_dhcp_renew_timer 2 m) = INIT /\
  fst (packetloop_dhcp_initial_ip_assignment plen m) = 1 /\
  dhcp_state (snd (packetloop_dhcp_initial_ip_assignment plen m)) = INIT.
Proof.
  cbv zeta.
  set (plen := reply_len (options_24 5 1)).
  set (m := requesting_with 1 7 (options_24 5 1)).
  assert (Hsmall : 0 <= dhcp_opt_leasetime m < 2)
    by (vm_compute; split; [discriminate | reflexivity]).
  assert (Hlink : enc28j60linkup m = true) by reflexivity.
  assert (Hst : dhcp_state m <= 2) by (vm_compute; discriminate).
  assert (Hplen : plen <> 0) by (vm_compute; discriminate).
  assert (Hcor : correlated plen m) by is_correlated.
  assert (Hcmd : dhcp_get_message_type plen m = 5) by (vm_compute; reflexivity).
  assert (Hlease : dhcp_opt_leasetime m = 0 \/ dhcp_opt_leasetime m = 1)
    by (right; vm_compute; reflexivity).
  repeat (split; [assumption |]).
  destruct (C8_zero_quotient_reinitializes 2 plen m) as (Htimer & Hack).
  split; [exact (Htimer Hsmall) |].
  exact (Hack Hlink Hst Hplen Hcor Hcmd Hlease).
Defined.

(** C8 as the claim has it, at an acknowledgment that carries a lease time
    of one second to a client that holds the 3600 seconds of the offer: the
    initial assignment returns 1 and the lease state is BOUND, not INIT, with
    the countdown at 1800. *)
Lemma C8_counterexample :
  let plen := reply_len (options_24 5 1) in
  let m := requesting_with 3600 7 (options_24 5 1) in
  let r := packetloop_dhcp_initial_ip_assignment plen m in
  fst (is_dhcp_msg_for_me plen m) = 1 /\ dhcp_get_message_type plen m = 5 /\
  dhcp_opt_leasetime (snd (dhcp_option_parser plen m)) = 1 /\
  fst r = 1 /\ dhcp_state (snd r) <> INIT /\ dhcp_state (snd r) = BOUND /\
  dhcp_cnt_down (snd r) = 1800.
Proof. by_evaluation. Qed.

End Witnesses.

(** The bring-up from the lease to the DNS lookup. *)
Lemma C9_witness :
  have_dns_mac bringup_waiting = 0 /\ have_ntp_mac bringup_waiting = 0 /\
  init_state bringup_waiting <> 3 /\
  init_state (run via_gateway bringup_events bringup_waiting) = 3 /\
  resolved TRANS_NUM_DNSMAC bringup_events /\ resolved TRANS_NUM_NTPMAC bringup_events.
Proof.
  assert (Hd : have_dns_mac bringup_waiting = 0) by reflexivity.
  assert (Hn : have_ntp_mac bringup_waiting = 0) by reflexivity.
  assert (Hi : init_state bringup_waiting <> 3) by (vm_compute; discriminate).
  assert (Hend : init_state (run via_gateway bringup_events bringup_waiting) = 3)
    by (vm_compute; reflexivity).
  repeat (split; [assumption |]).
  exact (proj1 (C9_dns_lookup_only_after_both_arp_callbacks via_gateway
                  bringup_events bringup_waiting Hd Hn Hi) Hend).
Defined.

(** The requests that went out on the way: one per peer, both for the
    gateway's address. *)
Example bringup_requests :
  arp_requests (run via_gateway bringup_events bringup_waiting) =
    [([192; 0; 2; 1], TRANS_NUM_NTPMAC); ([192; 0; 2; 1], TRANS_NUM_DNSMAC)].
Proof. reflexivity. Qed.

(** * The further properties at work *)

Section MoreWitnesses.
#[local] Existing Instance enc28j60_net_h.

Ltac is_correlated := apply is_dhcp_msg_for_me_iff; vm_compute; discriminate.

Ltac in_range := vm_compute; split; [discriminate | reflexivity].

(** A bound client with its countdown running, polled with no packet. *)
Lemma X1_witness :
  let m := after_ack 3600 in
  dhcp_cnt_down m <> 0 /\ dhcp_state m <> INIT /\
  packetloop_dhcp_initial_ip_assignment 0 m = (0, m) /\
  packetloop_dhcp_renewhandler 0 m = (0, m).
Proof.
  cbv zeta. set (m := after_ack 3600).
  assert (Hc : dhcp_cnt_down m <> 0) by (vm_compute; discriminate).
  assert (Hs : dhcp_state m <> INIT) by (vm_compute; discriminate).
  do 2 (split; [assumption |]).
  exact (X1_poll_before_expiry_is_idle m Hc Hs).
Defined.

(** The renewal of a bound client falls due while the cable is out; the
    link is back a second later. *)
Lemma X2_witness :
  let m := with_link false (with_dhcp_cnt_down 0 (after_ack 3600)) in
  let n := 0%nat in
  let l := true in
  3 <= dhcp_state m /\ dhcp_cnt_down m = 0 /\ enc28j60linkup m = false /\
  packetloop_dhcp_renewhandler 0 m = (0, m) /\
  dhcp_cnt_down (elapse (S n) m) = INFINITE /\
  packetloop_dhcp_renewhandler 0 (with_link l (elapse (S n) m)) =
    (0, with_link l (elapse (S n) m)).
Proof.
  cbv zeta. set (m := with_link false (with_dhcp_cnt_down 0 (after_ack 3600))).
  assert (Hs : 3 <= dhcp_state m) by (vm_compute; discriminate).
  assert (Hc : dhcp_cnt_down m = 0) by reflexivity.
  assert (Hl : enc28j60linkup m = false) by reflexivity.
  do 3 (split; [assumption |]).
  exact (X2_renewal_due_with_link_down_is_lost m 0 true Hs Hc Hl).
Defined.

(** A countdown that is switched off, and the 1800 seconds of a lease of
    an hour. *)
Lemma X3_witness :
  (let m := with_dhcp_cnt_down INFINITE power_on in
   let k := 5%nat in
   dhcp_cnt_down m = INFINITE /\ elapse k m = m) /\
  (let m := after_ack 3600 in
   let k := 1800%nat in
   0 <= dhcp_cnt_down m < INFINITE /\ Z.of_nat k <= dhcp_cnt_down m /\
   elapse k m = with_dhcp_cnt_down (dhcp_cnt_down m - Z.of_nat k) m /\
   (is_dhcp_cnt_down_zero (elapse k m) = true <-> Z.of_nat k = dhcp_cnt_down m)).
Proof.
  cbv zeta. split.
  - set (m := with_dhcp_cnt_down INFINITE power_on).
    assert (Hc : dhcp_cnt_down m = INFINITE) by reflexivity.
    split; [exact Hc |].
    exact (proj1 (X3_countdown_runs_for_its_value m 5) Hc).
  - set (m := after_ack 3600).
    assert (Hc : 0 <= dhcp_cnt_down m < INFINITE) by in_range.
    assert (Hk : Z.of_nat 1800 <= dhcp_cnt_down m) by (vm_compute; discriminate).
    do 2 (split; [assumption |]).
    exact (proj2 (X3_countdown_runs_for_its_value m 1800) Hc Hk).
Defined.

(** The lease time that the C initialiser leaves: all ones. *)
Lemma X4_witness :
  let m := power_on in
  let divisor := 2 in
  2 <= divisor /\ 0 <= dhcp_opt_leasetime m <= INFINITE /\
  dhcp_opt_leasetime m = INFINITE /\
  0 <= dhcp_cnt_down (set_dhcp_renew_timer divisor m) <= 2147483647 /\
  dhcp_cnt_down (set_dhcp_renew_timer divisor m) <> INFINITE /\
  set_dhcp_renew_timer 2 m = with_dhcp_cnt_down 2147483647 m.
Proof.
  cbv zeta.
  assert (Hd : 2 <= 2) by lia.
  assert (Hl : 0 <= dhcp_opt_leasetime power_on <= INFINITE)
    by (vm_compute; split; discriminate).
  assert (Hi : dhcp_opt_leasetime power_on = INFINITE) by reflexivity.
  do 3 (split; [assumption |]).
  destruct (X4_renew_timer_is_finite 2 power_on Hd Hl) as (H1 & H2 & H3).
  split; [exact H1 |]. split; [exact H2 |]. exact (H3 Hi).
Defined.

(** An acknowledgment of 312 bytes, 400 turns allowed. *)
Lemma X6_witness :
  let plen := reply_len (options_24 5 3600) in
  let m := requesting_with 3600 7 (options_24 5 3600) in
  let fuel := 400%nat in
  plen <= 65000 /\ (Z.to_nat plen <= fuel)%nat /\
  dhcp_get_message_type plen m =
    (if plen <? UDP_DATA_P + DHCP_OPTION_OFFSET + 3 then 0
     else get_message_type_loop fuel (buf m) plen (UDP_DATA_P + DHCP_OPTION_OFFSET)) /\
  dhcp_option_parser plen m =
    (if plen <? UDP_DATA_P + DHCP_OPTION_OFFSET + 3 then (0, m)
     else (1, option_parser_loop fuel (buf m) plen (UDP_DATA_P + DHCP_OPTION_OFFSET) m)).
Proof.
  cbv zeta.
  set (plen := reply_len (options_24 5 3600)).
  set (m := requesting_with 3600 7 (options_24 5 3600)).
  assert (Hp : plen <= 65000) by (vm_compute; discriminate).
  assert (Hf : (Z.to_nat plen <= 400)%nat) by (vm_compute; lia).
  do 2 (split; [assumption |]).
  exact (X6_option_walks_end_within_plen_turns plen m 400 Hp Hf).
Defined.

(** A negative acknowledgment with no address in it, in REQUESTING and
    in REBINDING. *)
Lemma X7_witness :
  (let plen := reply_len nak_options in
   let m := receive (server_reply 7 [0; 0; 0; 0] nak_options) (after_offer 3600) in
   plen <> 0 /\ correlated plen m /\ dhcp_get_message_type plen m = 6 /\
   rd (buf m) (UDP_DATA_P + 16) = 0 /\
   dhcp_state m <= 2 /\ enc28j60linkup m = true /\
   let m' := snd (packetloop_dhcp_initial_ip_assignment plen m) in
   dhcp_get_my_ip m' = dhcp_get_my_ip m /\
   dhcp_get_info m' = (0, dhcp_opt_server_id m, dhcp_opt_leasetime m)) /\
  (let plen := reply_len nak_options in
   let m := rebinding_with 8 nak_options in
   plen <> 0 /\ correlated plen m /\ dhcp_get_message_type plen m = 6 /\
   rd (buf m) (UDP_DATA_P + 16) = 0 /\
   3 <= dhcp_state m /\
   let m' := snd (packetloop_dhcp_renewhandler plen m) in
   dhcp_get_my_ip m' = dhcp_get_my_ip m /\
   dhcp_get_info m' = (0, dhcp_opt_server_id m, dhcp_opt_leasetime m)).
Proof.
  cbv zeta. set (plen := reply_len nak_options).
  assert (Hplen : plen <> 0) by (vm_compute; discriminate).
  split.
  - set (m := receive (server_reply 7 [0; 0; 0; 0] nak_options) (after_offer 3600)).
    assert (Hcor : correlated plen m) by is_correlated.
    assert (Hcmd : dhcp_get_message_type plen m = 6) by (vm_compute; reflexivity).
    assert (Hy : rd (buf m) (UDP_DATA_P + 16) = 0) by (vm_compute; reflexivity).
    assert (Hst : dhcp_state m <= 2) by (vm_compute; discriminate).
    assert (Hlink : enc28j60linkup m = true) by reflexivity.
    do 6 (split; [assumption |]).
    exact (proj1 (X7_nak_keeps_the_lease_values plen m Hplen Hcor Hcmd Hy) Hst Hlink).
  - set (m := rebinding_with 8 nak_options).
    assert (Hcor : correlated plen m) by is_correlated.
    assert (Hcmd : dhcp_get_message_type plen m = 6) by (vm_compute; reflexivity).
    assert (Hy : rd (buf m) (UDP_DATA_P + 16) = 0) by (vm_compute; reflexivity).
    assert (Hst : 3 <= dhcp_state m) by (vm_compute; discriminate).
    do 5 (split; [assumption |]).
    exact (proj2 (X7_nak_keeps_the_lease_values plen m Hplen Hcor Hcmd Hy) Hst).
Defined.

(** An offer that reaches a client in REBINDING, and a DHCPDECLINE that
    reaches one in REQUESTING. *)
Lemma X8_witness :
  (let plen := reply_len (options_24 2 3600) in
   let m := rebinding_with 8 (options_24 2 3600) in
   plen <> 0 /\ correlated plen m /\
   dhcp_get_message_type plen m <> 5 /\ dhcp_get_message_type plen m <> 6 /\
   3 <= dhcp_state m /\
   packetloop_dhcp_renewhandler plen m = (0, take_yiaddr m)) /\
  (let plen := reply_len (options_24 4 3600) in
   let m := requesting_with 3600 7 (options_24 4 3600) in
   plen <> 0 /\ correlated plen m /\
   dhcp_get_message_type plen m <> 5 /\ dhcp_get_message_type plen m <> 6 /\
   dhcp_state m <= 2 /\ enc28j60linkup m = true /\ dhcp_get_message_type plen m <> 2 /\
   rd (buf m) (UDP_DATA_P + 16) <> 0 /\
   packetloop_dhcp_initial_ip_assignment plen m = (0, take_yiaddr m) /\
   take_yiaddr m = with_dhcp_yiaddr (rdn (buf m) (UDP_DATA_P + 16) 4) m).
Proof.
  cbv zeta. split.
  - set (plen := reply_len (options_24 2 3600)).
    set (m := rebinding_with 8 (options_24 2 3600)).
    assert (Hplen : plen <> 0) by (vm_compute; discriminate).
    assert (Hcor : correlated plen m) by is_correlated.
    assert (H5 : dhcp_get_message_type plen m <> 5) by (vm_compute; discriminate).
    assert (H6 : dhcp_get_message_type plen m <> 6) by (vm_compute; discriminate).
    assert (Hst : 3 <= dhcp_state m) by (vm_compute; discriminate).
    do 5 (split; [assumption |]).
    exact (proj1 (X8_other_reply_only_replaces_the_address plen m Hplen Hcor H5 H6) Hst).
  - set (plen := reply_len (options_24 4 3600)).
    set (m := requesting_with 3600 7 (options_24 4 3600)).
    assert (Hplen : plen <> 0) by (vm_compute; discriminate).
    assert (Hcor : correlated plen m) by is_correlated.
    assert (H5 : dhcp_get_message_type plen m <> 5) by (vm_compute; discriminate).
    assert (H6 : dhcp_get_message_type plen m <> 6) by (vm_compute; discriminate).
    assert (Hst : dhcp_state m <= 2) by (vm_compute; discriminate).
    assert (Hlink : enc28j60linkup m = true) by reflexivity.
    assert (H2 : dhcp_get_message_type plen m <> 2) by (vm_compute; discriminate).
    assert (Hy : rd (buf m) (UDP_DATA_P + 16) <> 0) by (vm_compute; discriminate).
    do 8 (split; [assumption |]).
    destruct (X8_other_reply_only_replaces_the_address plen m Hplen Hcor H5 H6)
      as (_ & Hinit & Htake).
    split; [exact (Hinit Hst Hlink H2) | exact (Htake Hy)].
Defined.


(** The request of the client that holds the offer of 192.0.2.50. *)
Lemma X10_witness :
  let m := after_offer 3600 in
  UDP_DATA_P + DHCP_OPTION_OFFSET + 22 <= Z.of_nat (length (buf m)) /\
  exists b,
    send_dhcp_request m =
      (0, with_sent ((b, DHCP_OPTION_OFFSET + Z.of_nat (length (request_options m)) - 1)
                       :: sent m) (with_buf b m)) /\
    length b = length (buf m) /\
    rd b UDP_DATA_P = 1 /\
    rdn b (UDP_DATA_P + 4) 4 = repeat (wrap8 (dhcp_tid m)) 4 /\
    rdn b (UDP_DATA_P + DHCP_OPTION_OFFSET) (length (request_options m)) = request_options m.
Proof.
  cbv zeta. set (m := after_offer 3600).
  assert (Hbuf : UDP_DATA_P + DHCP_OPTION_OFFSET + 22 <= Z.of_nat (length (buf m)))
    by (vm_compute; discriminate).
  split; [exact Hbuf |].
  exact (X10_request_names_server_and_address m Hbuf).
Defined.

(** The three messages of the client that holds the offer. *)
Lemma X11_witness :
  let m := after_offer 3600 in
  UDP_DATA_P + DHCP_OPTION_OFFSET + 22 <= Z.of_nat (length (buf m)) /\
  Z.of_nat (length (buf m)) <= 65000 /\
  dhcp_get_message_type (UDP_DATA_P + DHCP_OPTION_OFFSET + 9)
    (snd (send_dhcp_discover m)) = DHCP_DISCOVER_V /\
  dhcp_get_message_type
    (UDP_DATA_P + DHCP_OPTION_OFFSET + Z.of_nat (length (request_options m)) - 1)
    (snd (send_dhcp_request m)) = DHCP_REQUEST_V /\
  dhcp_get_message_type (UDP_DATA_P + DHCP_OPTION_OFFSET + 3)
    (snd (send_dhcp_renew_request m)) = DHCP_REQUEST_V.
Proof.
  cbv zeta. set (m := after_offer 3600).
  assert (Hbuf : UDP_DATA_P + DHCP_OPTION_OFFSET + 22 <= Z.of_nat (length (buf m)))
    by (vm_compute; discriminate).
  assert (Hmax : Z.of_nat (length (buf m)) <= 65000) by (vm_compute; discriminate).
  do 2 (split; [assumption |]).
  exact (X11_message_type_reads_back m Hbuf Hmax).
Defined.

(** A packet whose only option is a lease time of 3600 seconds. *)
Lemma X12_witness :
  let options := [51; 4; 0; 0; 14; 16; 255] in
  let plen := reply_len options in
  let m := receive (server_reply 7 [192; 0; 2; 50] options) fresh in
  let off := UDP_DATA_P + DHCP_OPTION_OFFSET in
  off + 5 <= plen <= off + 8 /\ plen <= 65000 /\
  rd (buf m) off = 51 /\ rd (buf m) (off + 1) = 4 /\
  dhcp_option_parser plen m =
    (1, with_dhcp_opt_leasetime
          (be32 (rd (buf m) (off + 2)) (rd (buf m) (off + 3))
                (rd (buf m) (off + 4)) (rd (buf m) (off + 5))) m).
Proof.
  cbv zeta.
  set (plen := reply_len [51; 4; 0; 0; 14; 16; 255]).
  set (m := receive (server_reply 7 [192; 0; 2; 50] [51; 4; 0; 0; 14; 16; 255]) fresh).
  assert (Hp : UDP_DATA_P + DHCP_OPTION_OFFSET + 5 <= plen
               <= UDP_DATA_P + DHCP_OPTION_OFFSET + 8)
    by (vm_compute; split; discriminate).
  assert (Hmax : plen <= 65000) by (vm_compute; discriminate).
  assert (H51 : rd (buf m) (UDP_DATA_P + DHCP_OPTION_OFFSET) = 51) by (vm_compute; reflexivity).
  assert (H4 : rd (buf m) (UDP_DATA_P + DHCP_OPTION_OFFSET + 1) = 4)
    by (vm_compute; reflexivity).
  do 4 (split; [assumption |]).
  exact (X12_lease_time_is_read_big_endian plen m Hp Hmax H51 H4).
Defined.


(** The client started with transaction 7, polled with no packet. *)
Lemma X15_witness :
  let plen := 0 in
  let m := fresh in
  0 <= dhcp_tid m < 256 /\
  UDP_DATA_P + DHCP_OPTION_OFFSET + 22 <= Z.of_nat (length (buf m)) /\
  at_most_one_frame m (snd (packetloop_dhcp_initial_ip_assignment plen m)) /\
  at_most_one_frame m (snd (packetloop_dhcp_renewhandler plen m)).
Proof.
  cbv zeta.
  assert (Htid : 0 <= dhcp_tid fresh < 256) by in_range.
  assert (Hbuf : UDP_DATA_P + DHCP_OPTION_OFFSET + 22 <= Z.of_nat (length (buf fresh)))
    by (vm_compute; discriminate).
  do 2 (split; [assumption |]).
  exact (X15_one_frame_for_the_outstanding_transaction 0 fresh Htid Hbuf).
Defined.


(** A bound client when the main program falls back to [init_state] 0. *)
Lemma X17_witness :
  let mymac5 := 7 in
  let m := after_ack 3600 in
  let o := with_init_state 0 bringup_waiting in
  init_state o = 0 /\ delay_sec o = 0 /\ enc28j60linkup m = true /\
  0 <= mymac5 < 256 /\
  UDP_DATA_P + DHCP_OPTION_OFFSET + 10 <= Z.of_nat (length (buf m)) /\
  let r := main_dhcp 0 (main_idle_request_ip mymac5 (m, o)) in
  fst r = 0 /\
  init_state (snd (snd r)) = 1 /\
  have_dns_mac (snd (snd r)) = 0 /\ have_ntp_mac (snd (snd r)) = 0 /\
  dhcp_state (fst (snd r)) = SELECTING /\
  dhcp_tid (fst (snd r)) = mymac5 /\
  dhcp_cnt_down (fst (snd r)) = 4 /\
  broadcast (fst (snd r)) = true /\
  exists f, sent (fst (snd r)) = f :: sent m /\ is_discover mymac5 f.
Proof.
  cbv zeta.
  set (m := after_ack 3600).
  set (o := with_init_state 0 bringup_waiting).
  assert (Hinit : init_state o = 0) by reflexivity.
  assert (Hdelay : delay_sec o = 0) by reflexivity.
  assert (Hlink : enc28j60linkup m = true) by reflexivity.
  assert (Hmac : 0 <= 7 < 256) by lia.
  assert (Hbuf : UDP_DATA_P + DHCP_OPTION_OFFSET + 10 <= Z.of_nat (length (buf m)))
    by (vm_compute; discriminate).
  do 5 (split; [assumption |]).
  exact (X17_reinit_restarts_discovery 7 m o Hinit Hdelay Hlink Hmac Hbuf).
Defined.

End MoreWitnesses.



(** Five seconds of delay and seven timer interrupts. *)
Lemma X20_witness :
  let o := with_delay_sec 5 bringup_waiting in
  let n := 7%nat in
  0 <= delay_sec o < 256 /\
  delay_sec (run via_gateway (repeat Tick n) o) = Z.max 0 (delay_sec o - Z.of_nat n) /\
  init_state (run via_gateway (repeat Tick n) o) = init_state o /\
  arp_requests (run via_gateway (repeat Tick n) o) = arp_requests o.
Proof.
  cbv zeta. set (o := with_delay_sec 5 bringup_waiting).
  assert (Hd : 0 <= delay_sec o < 256) by (vm_compute; split; [discriminate | reflexivity]).
  split; [exact Hd |].
  exact (X20_delay_sec_stops_at_zero via_gateway o 7 Hd).
Defined.

(** The last second of the first day. *)
Lemma X21_witness :
  let u := mk_uptime 59 59 23 0 in
  let n := 1%nat in
  uptime_ok u /\ uptime_seconds u + Z.of_nat n < 65536 * 86400 /\
  uptime_ok (Nat.iter n timer1_compa_uptime u) /\
  uptime_seconds (Nat.iter n timer1_compa_uptime u) = uptime_seconds u + Z.of_nat n.
Proof.
  cbv zeta. set (u := mk_uptime 59 59 23 0).
  assert (Hok : uptime_ok u) by (unfold uptime_ok; cbn; lia).
  assert (Hroom : uptime_seconds u + Z.of_nat 1 < 65536 * 86400) by (vm_compute; reflexivity).
  do 2 (split; [assumption |]).
  exact (X21_uptime_counts_seconds u 1 Hok Hroom).
Defined.

(** The netmask 255.255.240.0. *)
Lemma X22_witness :
  let b0 := 255 in
  let b1 := 255 in
  let b2 := 240 in
  let b3 := 0 in
  0 <= b0 < 256 /\ 0 <= b1 < 256 /\ 0 <= b2 < 256 /\ 0 <= b3 < 256 /\
  get_netmask_length [b0; b1; b2; b3] = ones_from 32 (le32 b0 b1 b2 b3) 0 /\
  forall bits bytes, (8 <= bits)%nat -> (4 <= bytes)%nat ->
    snd (netmask_bytes bits bytes [b0; b1; b2; b3] 0 0) =
      get_netmask_length [b0; b1; b2; b3].
Proof.
  cbv zeta.
  assert (H0 : 0 <= 255 < 256) by lia.
  assert (H2 : 0 <= 240 < 256) by lia.
  assert (H3 : 0 <= 0 < 256) by lia.
  split; [exact H0 |]. split; [exact H0 |]. split; [exact H2 |]. split; [exact H3 |].
  exact (X22_netmask_length_counts_from_the_low_bit 255 255 240 0 H0 H0 H2 H3).
Defined.

(** A prefix of 20 bits. *)
Lemma X23_witness :
  let p := 20%nat in
  (p <= 32)%nat /\ get_netmask_length (prefix_mask p) = 8 * (Z.of_nat p / 8).
Proof.
  cbv zeta.
  assert (Hp : (20 <= 32)%nat) by lia.
  split; [exact Hp |].
  exact (X23_netmask_length_of_a_prefix 20 Hp).
Defined.

(** The address 00:1b:ff:0a:c3:7e written in lower case with colons,
    read into a target that held another address. *)
Lemma X24_witness :
  let upper := false in
  let sep := 58 in
  let mac := [0; 27; 255; 10; 195; 126] in
  let old := [2; 0; 0; 0; 0; 1] in
  let fuel := 12%nat in
  length mac = 6%nat /\ Forall (fun b => 0 <= b < 256) mac /\
  0 < sep < 256 /\ isxdigit sep = false /\
  length old = 6%nat /\ (12 <= fuel)%nat /\
  parse_mac fuel old (mac_text upper sep mac) = (0, mac).
Proof.
  cbv zeta.
  assert (Hlen : length [0; 27; 255; 10; 195; 126] = 6%nat) by reflexivity.
  assert (Hbytes : Forall (fun b => 0 <= b < 256) [0; 27; 255; 10; 195; 126])
    by (repeat constructor; lia).
  assert (Hsep : 0 < 58 < 256) by lia.
  assert (Hx : isxdigit 58 = false) by reflexivity.
  assert (Hold : length [2; 0; 0; 0; 0; 1] = 6%nat) by reflexivity.
  assert (Hfuel : (12 <= 12)%nat) by lia.
  split; [exact Hlen |]. split; [exact Hbytes |]. split; [exact Hsep |].
  split; [exact Hx |]. split; [exact Hold |]. split; [exact Hfuel |].
  exact (X24_parse_mac_reads_back false 58 _ _ 12 Hlen Hbytes Hsep Hx Hold Hfuel).
Defined.

(** The empty string, read into a target that held an address. *)
Lemma X25_witness :
  let fuel := 5%nat in
  let old := [2; 0; 0; 0; 0; 1] in
  let str := [0] in
  let r := parse_mac fuel old str in
  length old = 6%nat /\ fst r = 1 /\ rd str 0 = 0 /\
  (fst r = 0 \/ fst r = 1) /\ length (snd r) = 6%nat /\
  rd (snd r) 5 = 0 /\ r = (1, [0; 0; 0; 0; 0; 0]).
Proof.
  cbv zeta.
  assert (Hold : length [2; 0; 0; 0; 0; 1] = 6%nat) by reflexivity.
  assert (Hr : fst (parse_mac 5 [2; 0; 0; 0; 0; 1] [0]) = 1) by reflexivity.
  assert (Hnul : rd [0] 0 = 0) by reflexivity.
  split; [exact Hold |]. split; [exact Hr |]. split; [exact Hnul |].
  destruct (X25_parse_mac_clears_the_target 5 [2; 0; 0; 0; 0; 1] [0] Hold)
    as (H1 & H2 & H3 & H4).
  split; [exact H1 |]. split; [exact H2 |]. split; [exact (H3 Hr) | exact (H4 Hnul)].
Defined.

(** The credentials a:bc after the word Basic, with a line end after the
    terminator. *)
Lemma X26_witness :
  let data := [97; 58; 98; 99] in
  let pre := [66; 97; 115; 105; 99; 32] in
  let tail := [13; 10] in
  let stream := (0, 0, 0, 0) in
  let fuel := 3%nat in
  Forall (fun b => 0 <= b < 256) data /\
  (length data + 3 <= 3 * fuel)%nat /\
  let b := pre ++ base64_encode data ++ 0 :: tail in
  let b' := base64_decode fuel stream b (Z.of_nat (length pre)) in
  rdn b' (Z.of_nat (length pre)) (length data + 1) = data ++ [0] /\
  (forall j, 0 <= j < Z.of_nat (length pre) -> rd b' j = rd pre j) /\
  length b' = length b.
Proof.
  cbv zeta.
  assert (Hbytes : Forall (fun b => 0 <= b < 256) [97; 58; 98; 99])
    by (repeat constructor; lia).
  assert (Hfuel : (length [97; 58; 98; 99] + 3 <= 3 * 3)%nat) by (cbn; lia).
  split; [exact Hbytes |]. split; [exact Hfuel |].
  exact (X26_base64_decode_restores_the_bytes [97; 58; 98; 99]
           [66; 97; 115; 105; 99; 32] [13; 10] (0, 0, 0, 0) 3 Hbytes Hfuel).
Defined.

(** The text YTpi for the bytes a:b, with two line ends after it. *)
Lemma X27_witness :
  let x := 97 in
  let y := 58 in
  let z := 98 in
  let pre := [] in
  let tail := [] in
  let stream := (0, 0, 0, 0) in
  let fuel := 3%nat in
  0 <= x < 256 /\ 0 <= y < 256 /\ 0 <= z < 256 /\
  outside_base64 13 /\ outside_base64 10 /\ (3 <= fuel)%nat /\
  let b := pre ++ base64_encode [x; y; z] ++ [13; 10; 13; 10] ++ 0 :: tail in
  rdn (base64_decode fuel stream b (Z.of_nat (length pre))) (Z.of_nat (length pre)) 7 =
    [x; y; z; x; y; z; 0].
Proof.
  cbv zeta.
  assert (Hx : 0 <= 97 < 256) by lia.
  assert (Hy : 0 <= 58 < 256) by lia.
  assert (Hz : 0 <= 98 < 256) by lia.
  assert (Hcr : outside_base64 13) by (split; [lia | intros old; reflexivity]).
  assert (Hlf : outside_base64 10) by (split; [lia | intros old; reflexivity]).
  assert (Hfuel : (3 <= 3)%nat) by lia.
  split; [exact Hx |]. split; [exact Hy |]. split; [exact Hz |].
  split; [exact Hcr |]. split; [exact Hlf |]. split; [exact Hfuel |].
  exact (X27_base64_decode_repeats_on_other_characters 97 58 98 13 10 13 10
           [] [] (0, 0, 0, 0) 3 Hx Hy Hz Hcr Hlf Hcr Hlf Hfuel).
Defined.

(** The main program at the DNS lookup, the gateway's MAC address
    resolved for the time server, and no name server answering. *)
Lemma X28_witness :
  let mymac5 := 7 in
  let link_status := true in
  let s := mk_timesync (with_ntproutingmac gw_mac (with_init_state 3 bringup_waiting))
             0 0 0 0 [] [] in
  init_state (ts_main s) = 3 /\ dns_state (ts_main s) = 0 /\ dns_retry_count s = 0 /\
  (forall k, (k < 6)%nat ->
     let s' := Nat.iter k (unanswered_lookup mymac5 link_status) s in
     init_state (ts_main s') = 3 /\
     dns_queries s' = repeat (ntproutingmac (ts_main s)) k ++ dns_queries s) /\
  let s' := Nat.iter 6 (unanswered_lookup mymac5 link_status) s in
  init_state (ts_main s') = 0 /\ delay_sec (ts_main s') = 0 /\
  dns_retry_count s' = 0 /\
  dns_queries s' = repeat (ntproutingmac (ts_main s)) 6 ++ dns_queries s /\
  ntp_queries s' = ntp_queries s.
Proof.
  cbv zeta.
  set (s := mk_timesync (with_ntproutingmac gw_mac (with_init_state 3 bringup_waiting))
              0 0 0 0 [] []).
  assert (Hi : init_state (ts_main s) = 3) by reflexivity.
  assert (Hd : dns_state (ts_main s) = 0) by reflexivity.
  assert (Hc : dns_retry_count s = 0) by reflexivity.
  do 3 (split; [assumption |]).
  exact (X28_dns_lookup_gives_up_after_six_queries 7 true s Hi Hd Hc).
Defined.

(** The answer 198.51.100.7 to the query that is under way. *)
Lemma X29_witness :
  let ip := [198; 51; 100; 7] in
  let mymac5 := 7 in
  let s := mk_timesync
             (with_dns_state 1
                (with_ntproutingmac gw_mac (with_init_state 3 bringup_waiting)))
             0 0 0 0 [gw_mac] [] in
  init_state (ts_main s) = 3 /\ dns_state (ts_main s) = 1 /\
  0 <= ntp_retry_count s < 6 /\
  (let s' := main_lookup_and_request true ip mymac5 true s in
   init_state (ts_main s') = 5 /\ dns_state (ts_main s') = 2 /\
   ntpip (ts_main s') = rdn ip 0 4 /\ delay_sec (ts_main s') = 5 /\
   haveNTPanswer s' = 0 /\ ntpclientportL s' = wrap8 (mymac5 + 1) /\
   ntp_retry_count s' = ntp_retry_count s + 1 /\
   ntp_queries s' =
     (rdn ip 0 4, wrap8 (mymac5 + 1), ntproutingmac (ts_main s)) :: ntp_queries s /\
   dns_queries s' = dns_queries s) /\
  (let s' := main_lookup_and_request true ip mymac5 false s in
   init_state (ts_main s') = 5 /\ ntpip (ts_main s') = rdn ip 0 4 /\
   delay_sec (ts_main s') = 0 /\ ntpclientportL s' = mymac5 /\
   ntp_queries s' = ntp_queries s).
Proof.
  cbv zeta.
  set (s := mk_timesync
              (with_dns_state 1
                 (with_ntproutingmac gw_mac (with_init_state 3 bringup_waiting)))
              0 0 0 0 [gw_mac] []).
  assert (Hi : init_state (ts_main s) = 3) by reflexivity.
  assert (Hd : dns_state (ts_main s) = 1) by reflexivity.
  assert (Hc : 0 <= ntp_retry_count s < 6) by (vm_compute; split; [discriminate | reflexivity]).
  do 3 (split; [assumption |]).
  exact (X29_dns_answer_starts_the_ntp_request [198; 51; 100; 7] 7 s Hi Hd Hc).
Defined.

(** The main program at the NTP request, the last source port 7, and no
    time server answering. *)
Lemma X13_witness :
  let mymac5 := 7 in
  let s := mk_timesync (with_ntproutingmac gw_mac (with_init_state 5 bringup_waiting))
             0 0 0 7 [] [] in
  init_state (ts_main s) = 5 /\ haveNTPanswer s <> 1 /\ delay_sec (ts_main s) = 0 /\
  ntp_retry_count s = 0 /\ 0 <= ntpclientportL s < 256 /\
  (forall k, (k <= 6)%nat ->
     let s' := Nat.iter k (unanswered_request mymac5) s in
     init_state (ts_main s') = 5 /\
     ntp_queries s' =
       ntp_retries (ntpip (ts_main s)) (ntproutingmac (ts_main s)) (ntpclientportL s) k
         ++ ntp_queries s) /\
  let s6 := Nat.iter 6 (unanswered_request mymac5) s in
  let s' := main_lookup_and_request false [] mymac5 true s6 in
  init_state (ts_main s') = 0 /\ delay_sec (ts_main s') = 0 /\
  ntp_retry_count s' = 0 /\ ntp_queries s' = ntp_queries s6.
Proof.
  cbv zeta.
  set (s := mk_timesync (with_ntproutingmac gw_mac (with_init_state 5 bringup_waiting))
              0 0 0 7 [] []).
  assert (Hi : init_state (ts_main s) = 5) by reflexivity.
  assert (Hh : haveNTPanswer s <> 1) by (vm_compute; discriminate).
  assert (Hd : delay_sec (ts_main s) = 0) by reflexivity.
  assert (Hc : ntp_retry_count s = 0) by reflexivity.
  assert (Hp : 0 <= ntpclientportL s < 256) by (vm_compute; split; [discriminate | reflexivity]).
  do 5 (split; [assumption |]).
  exact (X13_ntp_request_gives_up_after_six_requests 7 s Hi Hh Hd Hc Hp).
Defined.

